(** * ss.ge scraper: a shallow embedding of the paginated-fetch core

    The development follows the Python sources of the repository:

    - [utils/pagination_utils.py]  ([is_last_page],
                                    [detect_last_page_from_api],
                                    [estimate_last_page]),
    - [utils/cache_utils.py]       ([get_cache_key], [get_from_cache],
                                    [save_to_cache], [clear_expired_cache]),
    - [utils/file_utils.py]        (checkpoint, data and failed-page files),
    - [services/scraper.py]        ([get_auth_token], [fetch_page_data],
                                    [scrape_properties], [scrape_range]),
    - [services/multiprocessing_scraper.py] (the partition of the page range,
                                    [merge_property_lists] and
                                    [scrape_with_rate_limit]),
    - [main.py]                    ([retry_failed_pages]).

    Conventions of the embedding.

    - Every Python value that the code handles comes out of [json.load] or
      [response.json()], so one type [json] stands for Python values;
      [JNull] is Python's [None].  Numbers are integers (page numbers,
      identifiers and counters are), and a character of a [string] stands
      for one character of a Python [str].
    - A Python call that may raise returns [pyres]; [Raise e] is an
      exception of class [e] leaving the call.
    - The network, the clock and the disk are an environment of oracles
      (section variables): the k-th request receives the k-th answer.
    - [time.sleep], logging and the rotation of user agents have no effect
      on any value below and are left out.  Clock readings are exact
      numbers of seconds.
    - The checkpoint, data and failed-pages files are written without
      error; a write into the cache may fail, as [save_to_cache] expects. *)

From Stdlib Require Import Ascii.
From stdpp Require Import base numbers option list strings pretty gmap
  sorting.

Local Open Scope Z_scope.

(** ** Python values and the operations the sources use on them *)

Module Py.

Inductive exn : Set :=
| TypeError
| KeyError
| AttributeError
| ZeroDivisionError.

Inductive pyres (A : Type) : Type :=
| Ok (a : A)
| Raise (e : exn).
Arguments Ok {A} a.
Arguments Raise {A} e.

Definition bind {A B : Type} (m : pyres A) (f : A -> pyres B) : pyres B :=
  match m with
  | Ok a => f a
  | Raise e => Raise e
  end.

Notation "x <- c ;; k" := (bind c (fun x => k))
  (at level 100, c at next level, right associativity).

#[local] Set Warnings "-register-all".
Inductive json : Type :=
| JNull
| JBool (b : bool)
| JNum (n : Z)
| JStr (s : string)
| JArr (l : list json)
| JObj (d : list (string * json)).

(** A [dict] with [str] keys is an association list; the first binding of
    a key is the one that counts. *)
Fixpoint dict_get {A : Type} (d : list (string * A)) (k : string) : option A :=
  match d with
  | [] => None
  | (k', v) :: d' => if String.eqb k' k then Some v else dict_get d' k
  end.

(** [bool(v)] *)
Definition truthy (v : json) : bool :=
  match v with
  | JNull => false
  | JBool b => b
  | JNum n => negb (n =? 0)
  | JStr s => negb (String.eqb s EmptyString)
  | JArr l => match l with [] => false | _ => true end
  | JObj d => match d with [] => false | _ => true end
  end.

(** [True == 1]: a [bool] is an [int]. *)
Definition as_int (v : json) : Z :=
  match v with
  | JBool b => Z.b2z b
  | JNum n => n
  | _ => 0
  end.

(** [a == b] *)
Fixpoint py_eqb (a b : json) : bool :=
  match a, b with
  | JNull, JNull => true
  | (JBool _ | JNum _), (JBool _ | JNum _) => as_int a =? as_int b
  | JStr s, JStr t => String.eqb s t
  | JArr l, JArr m =>
      (fix go (l m : list json) : bool :=
         match l, m with
         | [], [] => true
         | x :: l', y :: m' => py_eqb x y && go l' m'
         | _, _ => false
         end) l m
  | JObj d, JObj e =>
      (length d =? length e)%nat &&
      forallb (fun kv => let '(k, v) := kv in
                         match dict_get e k with
                         | Some w => py_eqb v w
                         | None => false
                         end) d
  | _, _ => false
  end.

(** [a >= b]; lists compare at their first differing element. *)
Fixpoint py_ge (a b : json) : pyres bool :=
  match a, b with
  | (JBool _ | JNum _), (JBool _ | JNum _) => Ok (as_int b <=? as_int a)
  | JStr s, JStr t => Ok (String.leb t s)
  | JArr l, JArr m =>
      (fix go (l m : list json) : pyres bool :=
         match l, m with
         | x :: l', y :: m' => if py_eqb x y then go l' m' else py_ge x y
         | _, [] => Ok true
         | [], _ :: _ => Ok false
         end) l m
  | _, _ => Raise TypeError
  end.

Fixpoint str_contains (k s : string) : bool :=
  String.prefix k s ||
  match s with
  | EmptyString => false
  | String _ s' => str_contains k s'
  end.

(** [k in v] for a [str] k *)
Definition py_in (k : string) (v : json) : pyres bool :=
  match v with
  | JObj d => Ok (bool_decide (is_Some (dict_get d k)))
  | JArr l => Ok (existsb (py_eqb (JStr k)) l)
  | JStr s => Ok (str_contains k s)
  | _ => Raise TypeError
  end.

(** [v[k]] for a [str] k *)
Definition py_getitem (v : json) (k : string) : pyres json :=
  match v with
  | JObj d => match dict_get d k with
              | Some x => Ok x
              | None => Raise KeyError
              end
  | _ => Raise TypeError
  end.

(** [v.get(k, default)] *)
Definition py_get (v : json) (k : string) (dflt : json) : pyres json :=
  match v with
  | JObj d => Ok (default dflt (dict_get d k))
  | _ => Raise AttributeError
  end.

(** [len(v)] *)
Definition py_len (v : json) : pyres Z :=
  match v with
  | JStr s => Ok (Z.of_nat (String.length s))
  | JArr l => Ok (Z.of_nat (length l))
  | JObj d => Ok (Z.of_nat (length d))
  | _ => Raise TypeError
  end.

(** [a and b], with Python's short circuit *)
Definition py_and (a b : pyres bool) : pyres bool :=
  x <- a ;; if x then b else Ok false.

(** [repr(v)] and [str(v)] *)
Definition hex_digit (n : N) : ascii :=
  ascii_of_N (if (n <? 10)%N then 48 + n else 87 + n)%N.

Fixpoint has_char (c : ascii) (s : string) : bool :=
  match s with
  | EmptyString => false
  | String c' s' => Ascii.eqb c c' || has_char c s'
  end.

Definition backslash : ascii := ascii_of_N 92.
Definition single_quote : ascii := ascii_of_N 39.
Definition double_quote : ascii := ascii_of_N 34.

Definition escape (c : ascii) : string :=
  String backslash (String c EmptyString).

Definition repr_char (quote c : ascii) : string :=
  let n := N_of_ascii c in
  if Ascii.eqb c quote || Ascii.eqb c backslash then escape c
  else if (n =? 9)%N then escape "t"
  else if (n =? 10)%N then escape "n"
  else if (n =? 13)%N then escape "r"
  else if (n <? 32)%N || (n =? 127)%N
          || ((128 <=? n)%N && (n <=? 160)%N) || (n =? 173)%N
       then String backslash (String "x"
              (String (hex_digit (n / 16))
                 (String (hex_digit (n mod 16)) EmptyString)))
  else String c EmptyString.

Fixpoint repr_chars (quote : ascii) (s : string) : string :=
  match s with
  | EmptyString => EmptyString
  | String c s' => repr_char quote c +:+ repr_chars quote s'
  end.

Definition repr_str (s : string) : string :=
  let quote := if has_char single_quote s && negb (has_char double_quote s)
               then double_quote else single_quote in
  String quote (repr_chars quote s) +:+ String quote EmptyString.

Fixpoint py_repr (v : json) : string :=
  match v with
  | JNull => "None"
  | JBool true => "True"
  | JBool false => "False"
  | JNum n => pretty n
  | JStr s => repr_str s
  | JArr l =>
      "[" +:+ (fix go (l : list json) : string :=
                 match l with
                 | [] => EmptyString
                 | [x] => py_repr x
                 | x :: l' => py_repr x +:+ ", " +:+ go l'
                 end) l +:+ "]"
  | JObj d =>
      "{" +:+ (fix go (d : list (string * json)) : string :=
                 match d with
                 | [] => EmptyString
                 | [(k, x)] => repr_str k +:+ ": " +:+ py_repr x
                 | (k, x) :: d' =>
                     repr_str k +:+ ": " +:+ py_repr x +:+ ", " +:+ go d'
                 end) d +:+ "}"
  end.

Definition py_str (v : json) : string :=
  match v with
  | JStr s => s
  | _ => py_repr v
  end.

End Py.
Export Py.

(** ** The builtin [hash] (CPython 3.11: SipHash-1-3 for [str], keyed by the
    secret the interpreter draws when it starts) *)

Module PyHash.

(** What one interpreter process fixes for all its [hash] calls: the two
    words of the SipHash key, and the hash of [None] (derived from the
    address of the object). *)
Record Process : Set := {
  siphash_k0 : Z;
  siphash_k1 : Z;
  none_hash : Z
}.

Definition u64 (x : Z) : Z := x mod 2 ^ 64.
Definition to_signed (x : Z) : Z := if x <? 2 ^ 63 then x else x - 2 ^ 64.

Definition rotl (x b : Z) : Z :=
  u64 (Z.lor (Z.shiftl x b) (Z.shiftr x (64 - b))).

Definition half_round (a b c d s t : Z) : Z * Z * Z * Z :=
  let a := u64 (a + b) in
  let c := u64 (c + d) in
  let b := Z.lxor (rotl b s) a in
  let d := Z.lxor (rotl d t) c in
  let a := rotl a 32 in
  (a, b, c, d).

Definition single_round (v : Z * Z * Z * Z) : Z * Z * Z * Z :=
  let '(v0, v1, v2, v3) := v in
  let '(v0, v1, v2, v3) := half_round v0 v1 v2 v3 13 16 in
  let '(v2, v1, v0, v3) := half_round v2 v1 v0 v3 17 21 in
  (v0, v1, v2, v3).

(** little-endian word of at most eight bytes *)
Definition le64 (bs : list Z) : Z := foldr (fun b acc => b + 256 * acc) 0 bs.

Definition absorb (m : Z) (v : Z * Z * Z * Z) : Z * Z * Z * Z :=
  let '(v0, v1, v2, v3) := v in
  let '(v0, v1, v2, v3) := single_round (v0, v1, v2, Z.lxor v3 m) in
  (Z.lxor v0 m, v1, v2, v3).

Fixpoint sip_blocks (fuel : nat) (bs : list Z) (v : Z * Z * Z * Z)
  : (Z * Z * Z * Z) * list Z :=
  match fuel with
  | O => (v, bs)
  | S fuel' =>
      if (8 <=? length bs)%nat
      then sip_blocks fuel' (drop 8 bs) (absorb (le64 (take 8 bs)) v)
      else (v, bs)
  end.

Definition siphash13 (k0 k1 : Z) (src : list Z) : Z :=
  let b := u64 (Z.shiftl (Z.of_nat (length src)) 56) in
  let v := (Z.lxor k0 0x736f6d6570736575, Z.lxor k1 0x646f72616e646f6d,
            Z.lxor k0 0x6c7967656e657261, Z.lxor k1 0x7465646279746573) in
  let '(v, rest) := sip_blocks (length src) src v in
  let b := Z.lor b (le64 rest) in
  let '(v0, v1, v2, v3) := absorb b v in
  let v2 := Z.lxor v2 0xff in
  let '(v0, v1, v2, v3) :=
    single_round (single_round (single_round (v0, v1, v2, v3))) in
  Z.lxor (Z.lxor v0 v1) (Z.lxor v2 v3).

Fixpoint bytes_of (s : string) : list Z :=
  match s with
  | EmptyString => []
  | String c s' => Z.of_N (N_of_ascii c) :: bytes_of s'
  end.

Definition hash_str (P : Process) (s : string) : Z :=
  match s with
  | EmptyString => 0
  | _ => let x := to_signed
                    (siphash13 (siphash_k0 P) (siphash_k1 P) (bytes_of s)) in
         if x =? -1 then -2 else x
  end.

Definition hash_int (n : Z) : Z :=
  let m := Z.abs n mod (2 ^ 61 - 1) in
  let x := if n <? 0 then - m else m in
  if x =? -1 then -2 else x.

Definition XXPRIME_1 : Z := 11400714785074694791.
Definition XXPRIME_2 : Z := 14029467366897019727.
Definition XXPRIME_5 : Z := 2870177450012600261.

(** [hash] of a tuple, from the hashes of its items *)
Definition hash_tuple (lanes : list Z) : Z :=
  let acc :=
    foldl (fun acc lane =>
             u64 (rotl (u64 (acc + u64 lane * XXPRIME_2)) 31 * XXPRIME_1))
          XXPRIME_5 lanes in
  let acc := u64 (acc + Z.lxor (Z.of_nat (length lanes))
                               (Z.lxor XXPRIME_5 3527539)) in
  if acc =? 2 ^ 64 - 1 then 1546275796 else to_signed acc.

Definition shuffle_bits (h : Z) : Z :=
  u64 (Z.lxor (Z.lxor h 89869747) (u64 (Z.shiftl h 16)) * 3644798167).

(** [hash] of a frozenset, from the hashes of its (distinct) elements *)
Definition hash_frozenset (hs : list Z) : Z :=
  let h := foldl (fun acc e => Z.lxor acc (shuffle_bits (u64 e))) 0 hs in
  let h := Z.lxor h (u64 ((Z.of_nat (length hs) + 1) * 1927868237)) in
  let h := Z.lxor h (Z.lxor (Z.shiftr h 11) (Z.shiftr h 25)) in
  let h := u64 (h * 69069 + 907133923) in
  if h =? 2 ^ 64 - 1 then 590923713 else to_signed h.

(** [hash(v)]; lists and dicts are unhashable *)
Definition py_hash (P : Process) (v : json) : pyres Z :=
  match v with
  | JNull => Ok (none_hash P)
  | JBool b => Ok (hash_int (Z.b2z b))
  | JNum n => Ok (hash_int n)
  | JStr s => Ok (hash_str P s)
  | JArr _ | JObj _ => Raise TypeError
  end.

(** [hash((k, v))] for a [str] k *)
Definition hash_item (P : Process) (k : string) (v : json) : pyres Z :=
  h <- py_hash P v ;;
  Ok (hash_tuple [hash_str P k; h]).

(** Two interpreter processes: the keys that CPython derives when it is
    started with [PYTHONHASHSEED=0] and with [PYTHONHASHSEED=42].  Without
    that variable the key is drawn at random at each start. *)
Definition process_seed_0 : Process :=
  {| siphash_k0 := 0; siphash_k1 := 0; none_hash := 0 |}.

Definition process_seed_42 : Process :=
  {| siphash_k0 := 15875276455895994543;
     siphash_k1 := 13339868392117103041;
     none_hash := 0 |}.

End PyHash.
Export PyHash.

(** ** Configuration ([config.py]) *)

Module Config.

Definition CITY_ID : Z := 95.
Definition SUB_DISTRICT_IDS : list Z :=
  [2; 3; 4; 5; 26; 27; 44; 45; 46; 47; 48; 49; 50; 6; 7; 8; 9; 10; 11;
   13; 14; 15; 16; 17; 18; 19; 24; 32; 33; 34; 35; 36; 37; 38; 39; 40;
   41; 42; 43; 53; 1; 28; 29; 30; 31; 20; 21; 22; 23; 51; 52].
Definition PAGE_SIZE : Z := 16.
Definition CURRENCY_ID : Z := 1.
Definition REAL_ESTATE_TYPE : Z := 5.
Definition DEAL_TYPE : Z := 4.
Definition DEFAULT_END_PAGE : Z := 15972.
Definition CHECKPOINT_INTERVAL : Z := 22.
Definition MAX_RETRIES : Z := 3.
Definition CACHE_EXPIRY : Z := 86400.

End Config.
Export Config.

(** ** Last-page detection ([utils/pagination_utils.py]) *)

Module Pagination.

Definition is_last_page (api_response : json) : pyres json :=
  (* if "realStateItemModel" in api_response
        and len(api_response["realStateItemModel"]) == 0: return True *)
  empty <- py_and (py_in "realStateItemModel" api_response)
                  (items <- py_getitem api_response "realStateItemModel" ;;
                   n <- py_len items ;;
                   Ok (n =? 0)) ;;
  if empty then Ok (JBool true) else
  (* if "meta" in api_response and "isLastPage" in api_response["meta"]:
        return api_response["meta"]["isLastPage"] *)
  flagged <- py_and (py_in "meta" api_response)
                    (meta <- py_getitem api_response "meta" ;;
                     py_in "isLastPage" meta) ;;
  if flagged then
    meta <- py_getitem api_response "meta" ;;
    py_getitem meta "isLastPage"
  else
  (* if "meta" in api_response and "currentPage" in api_response["meta"]
        and "totalPages" in api_response["meta"]:
        return api_response["meta"]["currentPage"]
               >= api_response["meta"]["totalPages"] *)
  counted <- py_and (py_in "meta" api_response)
               (py_and (meta <- py_getitem api_response "meta" ;;
                        py_in "currentPage" meta)
                       (meta <- py_getitem api_response "meta" ;;
                        py_in "totalPages" meta)) ;;
  if counted then
    meta <- py_getitem api_response "meta" ;;
    current <- py_getitem meta "currentPage" ;;
    total <- py_getitem meta "totalPages" ;;
    b <- py_ge current total ;;
    Ok (JBool b)
  else Ok (JBool false).

(** The item list of a response is missing or is a list with an item. *)
Definition items_not_empty (d : list (string * json)) : Prop :=
  dict_get d "realStateItemModel" = None
  \/ exists x l, dict_get d "realStateItemModel" = Some (JArr (x :: l)).

End Pagination.
Export Pagination.


(** ** The response cache ([utils/cache_utils.py]) *)

Module Cache.

Fixpoint hash_items (P : Process) (items : list (string * json))
  : pyres (list Z) :=
  match items with
  | [] => Ok []
  | (k, v) :: items' =>
      h <- hash_item P k v ;;
      hs <- hash_items P items' ;;
      Ok (h :: hs)
  end.

(** [get_cache_key(page, params)], evaluated in the process [P] *)
Definition get_cache_key (P : Process) (page : Z) (params : json)
  : pyres string :=
  real_estate_type <- py_get params "realEstateType" JNull ;;
  deal_type <- py_get params "realEstateDealType" JNull ;;
  city_id_list <- py_get params "cityIdList" JNull ;;
  currency_id <- py_get params "currencyId" JNull ;;
  let key_parts :=
    [("page", JNum page);
     ("realEstateType", real_estate_type);
     ("realEstateDealType", deal_type);
     ("cityIdList", JStr (py_str city_id_list));
     ("currencyId", currency_id)] in
  (* the keys differ, so the five items are five elements of the frozenset *)
  hs <- hash_items P key_parts ;;
  Ok ("page_" +:+ pretty page +:+ "_" +:+ pretty (hash_frozenset hs)).

(** A file of the cache directory: what [json.load] reads from it ([None]
    when the text is not JSON) and its modification time. *)
Record cache_file : Type := {
  content : option json;
  st_mtime : Z
}.

Definition cache_path (cache_key : string) : string := cache_key +:+ ".json".

(** [get_from_cache(cache_dir, cache_key)] when [time.time()] reads [now] *)
Definition get_from_cache (cache_dir : gmap string cache_file) (now : Z)
    (cache_key : string) : json :=
  match cache_dir !! cache_path cache_key with
  | None => JNull
  | Some f =>
      let file_age := now - st_mtime f in
      if CACHE_EXPIRY <? file_age then JNull
      else match content f with
           | Some data => data
           | None => JNull     (* json.JSONDecodeError, IOError *)
           end
  end.

(** What the disk does with one [open(.., "w")] and [json.dump]. *)
Inductive write_outcome : Set :=
| Written           (* the file holds the new text *)
| OpenFails         (* IOError before the file is touched *)
| DumpFails.        (* IOError after the file was truncated *)

(** [save_to_cache(cache_dir, cache_key, data)] at time [now]; what
    [json.dump] has written, [json.load] reads back as the same value. *)
Definition save_to_cache (cache_dir : gmap string cache_file) (now : Z)
    (o : write_outcome) (cache_key : string) (data : json)
  : bool * gmap string cache_file :=
  match o with
  | Written =>
      (true, <[cache_path cache_key :=
                 {| content := Some data; st_mtime := now |}]> cache_dir)
  | OpenFails => (false, cache_dir)
  | DumpFails =>
      (false, <[cache_path cache_key :=
                  {| content := None; st_mtime := now |}]> cache_dir)
  end.

End Cache.
Export Cache.

(** ** The environment: network, clock and disk *)

Module World.

(** What the GET of the home page gives [get_auth_token]. *)
Inductive auth_outcome : Set :=
| Cookies (session_token : option string)  (* cookies.get("ss-session-token") *)
| RequestException.                        (* also raise_for_status() *)

(** What one POST to the API gives [fetch_page_data]. *)
Inductive http_outcome : Type :=
| Response (status_code : Z) (body : option json)
    (* [body = None]: response.json() raises JSONDecodeError *)
| Timeout
| ConnectionError
| OtherError.

(** The oracles.  Each is asked in turn: the k-th GET, the k-th POST, the
    k-th reading of the clock and the k-th write into the cache. *)
Record Env : Type := {
  process : Process;
  homepage : nat -> auth_outcome;
  api : nat -> http_outcome;
  clock : nat -> Z;
  disk : nat -> write_outcome;
  sitemap_estimate : Z          (* the value of estimate_last_page() *)
}.

(** Calls, in the order they happen. *)
Inductive event : Set :=
| EvToken                 (* get_auth_token() *)
| EvFetch (page : Z)      (* fetch_page_data(page, ..) *)
| EvCheckpoint (page : Z) (* save_checkpoint(checkpoint_path, page) *).

#[export] Instance event_eq_dec : EqDecision event.
Proof. solve_decision. Defined.

(** Everything a run can change: the scraper object, the files and the
    position in each oracle.  The checkpoint, data and failed-pages files
    hold what [file_utils] wrote into them ([None]: no such file). *)
Record State : Type := {
  token : option string;                    (* self.token *)
  use_cache : bool;                         (* self.use_cache *)
  cache_dir : gmap string cache_file;       (* the files of self.cache_dir *)
  checkpoint_file : option Z;               (* {"last_page": .., ..} *)
  data_file : option (list json);
  failed_pages_file : option (gset Z);      (* {"failed_pages": [..], ..} *)
  gets : nat;
  posts : nat;
  ticks : nat;
  writes : nat;
  trace : list event
}.

Definition set_token (t : option string) (s : State) : State :=
  {| token := t; use_cache := use_cache s; cache_dir := cache_dir s;
     checkpoint_file := checkpoint_file s; data_file := data_file s;
     failed_pages_file := failed_pages_file s; gets := gets s;
     posts := posts s; ticks := ticks s; writes := writes s;
     trace := trace s |}.

Definition set_cache_dir (d : gmap string cache_file) (s : State) : State :=
  {| token := token s; use_cache := use_cache s; cache_dir := d;
     checkpoint_file := checkpoint_file s; data_file := data_file s;
     failed_pages_file := failed_pages_file s; gets := gets s;
     posts := posts s; ticks := ticks s; writes := writes s;
     trace := trace s |}.

Definition set_checkpoint_file (c : option Z) (s : State) : State :=
  {| token := token s; use_cache := use_cache s; cache_dir := cache_dir s;
     checkpoint_file := c; data_file := data_file s;
     failed_pages_file := failed_pages_file s; gets := gets s;
     posts := posts s; ticks := ticks s; writes := writes s;
     trace := trace s |}.

Definition set_data_file (d : option (list json)) (s : State) : State :=
  {| token := token s; use_cache := use_cache s; cache_dir := cache_dir s;
     checkpoint_file := checkpoint_file s; data_file := d;
     failed_pages_file := failed_pages_file s; gets := gets s;
     posts := posts s; ticks := ticks s; writes := writes s;
     trace := trace s |}.

Definition set_failed_pages_file (f : option (gset Z)) (s : State) : State :=
  {| token := token s; use_cache := use_cache s; cache_dir := cache_dir s;
     checkpoint_file := checkpoint_file s; data_file := data_file s;
     failed_pages_file := f; gets := gets s;
     posts := posts s; ticks := ticks s; writes := writes s;
     trace := trace s |}.

Definition next_get (s : State) : State :=
  {| token := token s; use_cache := use_cache s; cache_dir := cache_dir s;
     checkpoint_file := checkpoint_file s; data_file := data_file s;
     failed_pages_file := failed_pages_file s; gets := S (gets s);
     posts := posts s; ticks := ticks s; writes := writes s;
     trace := trace s |}.

Definition next_post (s : State) : State :=
  {| token := token s; use_cache := use_cache s; cache_dir := cache_dir s;
     checkpoint_file := checkpoint_file s; data_file := data_file s;
     failed_pages_file := failed_pages_file s; gets := gets s;
     posts := S (posts s); ticks := ticks s; writes := writes s;
     trace := trace s |}.

Definition next_tick (s : State) : State :=
  {| token := token s; use_cache := use_cache s; cache_dir := cache_dir s;
     checkpoint_file := checkpoint_file s; data_file := data_file s;
     failed_pages_file := failed_pages_file s; gets := gets s;
     posts := posts s; ticks := S (ticks s); writes := writes s;
     trace := trace s |}.

Definition next_write (s : State) : State :=
  {| token := token s; use_cache := use_cache s; cache_dir := cache_dir s;
     checkpoint_file := checkpoint_file s; data_file := data_file s;
     failed_pages_file := failed_pages_file s; gets := gets s;
     posts := posts s; ticks := ticks s; writes := S (writes s);
     trace := trace s |}.

Definition log (e : event) (s : State) : State :=
  {| token := token s; use_cache := use_cache s; cache_dir := cache_dir s;
     checkpoint_file := checkpoint_file s; data_file := data_file s;
     failed_pages_file := failed_pages_file s; gets := gets s;
     posts := posts s; ticks := ticks s; writes := writes s;
     trace := trace s ++ [e] |}.

(** The pages of the [fetch_page_data] calls of a trace, in order. *)
Definition fetched (t : list event) : list Z :=
  omap (fun e => match e with EvFetch p => Some p | _ => None end) t.

(** The pages of the [save_checkpoint] calls of a trace, in order. *)
Definition checkpointed (t : list event) : list Z :=
  omap (fun e => match e with EvCheckpoint p => Some p | _ => None end) t.

(** The number of [get_auth_token] calls of a trace. *)
Definition token_requests (t : list event) : nat :=
  length (filter (fun e => e = EvToken) t).

(** [s'] has the durable files of [s]. *)
Definition same_files (s s' : State) : Prop :=
  checkpoint_file s' = checkpoint_file s
  /\ data_file s' = data_file s
  /\ failed_pages_file s' = failed_pages_file s.

(** From [s] to [s'] nothing was logged and neither the token nor a
    durable file has changed. *)
Definition quiet (s s' : State) : Prop :=
  trace s' = trace s /\ token s' = token s /\ same_files s s'.

(** A scraper that has just been built, in an empty directory. *)
Definition fresh (cache : bool) : State :=
  {| token := None; use_cache := cache; cache_dir := ∅;
     checkpoint_file := None; data_file := None; failed_pages_file := None;
     gets := 0; posts := 0; ticks := 0; writes := 0; trace := [] |}.

(** An oracle that answers from a list and then with [d]. *)
Definition scripted {A : Type} (answers : list A) (d : A) (k : nat) : A :=
  default d (answers !! k).

(** An environment in which the home page always hands out a token, the
    API answers as [pages] says and is out of reach afterwards. *)
Definition env_of (pages : list http_outcome) (tokens : list auth_outcome)
  : Env :=
  {| process := process_seed_0;
     homepage := scripted tokens (Cookies (Some "t"));
     api := scripted pages ConnectionError;
     clock := fun _ => 0;
     disk := fun _ => Written;
     sitemap_estimate := DEFAULT_END_PAGE |}.

(** A scraper that finds the files of an earlier run. *)
Definition resumed (last_page : Z) (records : list json) : State :=
  {| token := None; use_cache := false; cache_dir := ∅;
     checkpoint_file := Some last_page; data_file := Some records;
     failed_pages_file := Some ∅;
     gets := 0; posts := 0; ticks := 0; writes := 0; trace := [] |}.

(** A record with an identity and nothing else. *)
Definition listing (n : Z) : json := JObj [("applicationId", JNum n)].

(** A 200 response with the given items and no pagination metadata. *)
Definition page_with (items : list json) : http_outcome :=
  Response 200 (Some (JObj [("realStateItemModel", JArr items)])).

End World.
Export World.

(** ** The durable store ([utils/file_utils.py]) *)

Module FileUtils.

Definition load_checkpoint (s : State) : Z := default 0 (checkpoint_file s).

Definition save_checkpoint (page : Z) (s : State) : State :=
  log (EvCheckpoint page) (set_checkpoint_file (Some page) s).

Definition save_properties (properties : list json) (s : State) : State :=
  set_data_file (Some properties) s.

Definition load_properties (s : State) : list json := default [] (data_file s).

Definition save_failed_pages (failed_pages : gset Z) (s : State) : State :=
  set_failed_pages_file (Some failed_pages) s.

End FileUtils.
Export FileUtils.

(** ** The scraper ([services/scraper.py]) *)

Module Scraper.

(** [bool(self.token)] *)
Definition token_ok (t : option string) : bool :=
  match t with
  | Some x => negb (String.eqb x EmptyString)
  | None => false
  end.

(** [result.extend(v)] appends the items that iterating [v] yields. *)
Definition py_iter (v : json) : pyres (list json) :=
  match v with
  | JArr l => Ok l
  | JStr x => Ok (map (fun c => JStr (String c EmptyString))
                      (String.list_ascii_of_string x))
  | JObj d => Ok (map (fun kv => JStr kv.1) d)
  | _ => Raise TypeError
  end.

(** The local variables of the loop of [scrape_properties]. *)
Record Run : Type := {
  current_page : Z;
  reached_last_page : bool;
  current_batch : list json;
  all_properties : list json;
  failed_pages : gset Z
}.

(** How one pass through the body of the loop ends. *)
Inductive step_exit : Set :=
| Continue
| Break
| Raised (e : exn).

(** How the loop ends; [OutOfFuel] is the model's, not the program's. *)
Inductive loop_exit : Set :=
| Exhausted             (* the condition of the while is false *)
| Aborted               (* break: the token could not be refreshed *)
| Crashed (e : exn)     (* an exception leaves the loop *)
| OutOfFuel.

Section WithEnv.

Variable env : Env.

Definition get_auth_token (s : State) : option string * State :=
  let answer := homepage env (gets s) in
  let s := log EvToken (next_get s) in
  match answer with
  | Cookies (Some t) =>
      if negb (String.eqb t EmptyString) then (Some t, s) else (None, s)
  | Cookies None => (None, s)
  | RequestException => (None, s)
  end.

Definition request_payload (page : Z) : json :=
  JObj [("realEstateType", JNum REAL_ESTATE_TYPE);
        ("realEstateDealType", JNum DEAL_TYPE);
        ("cityIdList", JArr [JNum CITY_ID]);
        ("subDistrictIds", JArr (map JNum SUB_DISTRICT_IDS));
        ("currencyId", JNum CURRENCY_ID);
        ("page", JNum page);
        ("pageSize", JNum PAGE_SIZE)].

(** [is_last_page(data) if check_last_page else False] *)
Definition check_last (check_last_page : bool) (data : json) : pyres json :=
  if check_last_page then is_last_page data else Ok (JBool false).

(** [if self.use_cache: save_to_cache(.., get_cache_key(page, payload), ..)] *)
Definition cache_response (page : Z) (payload response_data : json)
    (s : State) : pyres State :=
  if use_cache s then
    cache_key <- get_cache_key (process env) page payload ;;
    let now := clock env (ticks s) in
    let o := disk env (writes s) in
    let s := next_write (next_tick s) in
    Ok (set_cache_dir
          (save_to_cache (cache_dir s) now o cache_key response_data).2 s)
  else Ok s.

(** The [while retry_count < max_retries] loop of [fetch_page_data];
    [remaining] is [max_retries - retry_count], and every path that does
    not return adds one to [retry_count]. *)
Fixpoint attempts (remaining : nat) (page : Z) (payload : json)
    (check_last_page : bool) (s : State) : (json * bool * json) * State :=
  match remaining with
  | O => ((JNull, false, JBool false), s)
  | S remaining' =>
      let retry := attempts remaining' page payload check_last_page in
      let answer := api env (posts s) in
      let s := next_post s in
      match answer with
      | Response status_code body =>
          if status_code =? 200 then
            match body with
            | None => retry s                       (* json.JSONDecodeError *)
            | Some response_data =>
                match py_in "realStateItemModel" response_data with
                | Ok true =>
                    match check_last check_last_page response_data with
                    | Ok is_last =>
                        match cache_response page payload response_data s with
                        | Ok s =>
                            match py_get response_data "realStateItemModel"
                                         (JArr []) with
                            | Ok items => ((items, false, is_last), s)
                            | Raise _ => retry s    (* except Exception *)
                            end
                        | Raise _ => retry s        (* except Exception *)
                        end
                    | Raise _ => retry s            (* except Exception *)
                    end
                | Ok false => retry s               (* invalid structure *)
                | Raise _ => retry s                (* except Exception *)
                end
            end
          else if (status_code =? 401) || (status_code =? 403) then
            ((JNull, true, JBool false), s)
          else
            (* 429, 5xx and any other status: wait and try again *)
            retry s
      | Timeout | ConnectionError | OtherError => retry s
      end
  end.

(** [fetch_page_data] past the cache: the token, then the attempts. *)
Definition fetch_from_network (page max_retries : Z) (payload : json)
    (check_last_page : bool) (s : State) : (json * bool * json) * State :=
  if negb (token_ok (token s)) then
    let '(t, s) := get_auth_token s in
    let s := set_token t s in
    if negb (token_ok (token s)) then ((JNull, false, JBool false), s)
    else attempts (Z.to_nat max_retries) page payload check_last_page s
  else attempts (Z.to_nat max_retries) page payload check_last_page s.

Definition fetch_page_data (page max_retries : Z) (check_last_page : bool)
    (s : State) : pyres (json * bool * json) * State :=
  let s := log (EvFetch page) s in
  let payload := request_payload page in
  if use_cache s then
    match get_cache_key (process env) page payload with
    | Raise e => (Raise e, s)
    | Ok cache_key =>
        let now := clock env (ticks s) in
        let s := next_tick s in
        let cached_data := get_from_cache (cache_dir s) now cache_key in
        if truthy cached_data then
          match check_last check_last_page cached_data with
          | Raise e => (Raise e, s)
          | Ok is_last =>
              match py_get cached_data "realStateItemModel" (JArr []) with
              | Raise e => (Raise e, s)
              | Ok items => (Ok (items, false, is_last), s)
              end
          end
        else
          let '(r, s) :=
            fetch_from_network page max_retries payload check_last_page s in
          (Ok r, s)
    end
  else
    let '(r, s) :=
      fetch_from_network page max_retries payload check_last_page s in
    (Ok r, s).

(** The part of the loop body from [if is_last_page:] to
    [current_page += 1], for the [result] and [is_last_page] at hand. *)
Definition handle_result (detect_last_page : bool) (batch_size : Z)
    (result is_last : json) (r : Run) (s : State)
  : step_exit * Run * State :=
  let page := current_page r in
  (* if is_last_page: reached_last_page = True *)
  let reached := if truthy is_last then true else reached_last_page r in
  let handled : pyres (bool * list json * list json * gset Z) :=
    if truthy result then
      n <- py_len result ;;
      if (n =? 0) && detect_last_page then
        Ok (true, current_batch r, all_properties r, failed_pages r)
      else
        items <- py_iter result ;;
        Ok (reached, current_batch r ++ items, all_properties r ++ items,
            failed_pages r)
    else
      Ok (reached, current_batch r, all_properties r,
          failed_pages r ∪ {[page]}) in
  match handled with
  | Raise e => (Raised e, r, s)
  | Ok (reached, batch, props, failed) =>
      (* Save checkpoints periodically *)
      let '(batch, s) :=
        if (batch_size <=? Z.of_nat (length batch))
           || (page mod CHECKPOINT_INTERVAL =? 0)
        then ([], save_failed_pages failed
                    (save_checkpoint page (save_properties props s)))
        else (batch, s) in
      (Continue,
       {| current_page := page + 1;
          reached_last_page := reached;
          current_batch := batch;
          all_properties := props;
          failed_pages := failed |},
       s)
  end.

(** One pass through the body of the while loop of [scrape_properties]. *)
Definition scrape_page (detect_last_page : bool) (batch_size : Z)
    (r : Run) (s : State) : step_exit * Run * State :=
  match fetch_page_data (current_page r) MAX_RETRIES detect_last_page s with
  | (Raise e, s) => (Raised e, r, s)
  | (Ok (result, need_refresh, is_last), s) =>
      if need_refresh then
        let '(t, s) := get_auth_token s in
        let s := set_token t s in
        if negb (token_ok (token s)) then (Break, r, s)
        else
          match fetch_page_data (current_page r) MAX_RETRIES
                                detect_last_page s with
          | (Raise e, s) => (Raised e, r, s)
          | (Ok (result, _, is_last), s) =>
              handle_result detect_last_page batch_size result is_last r s
          end
      else handle_result detect_last_page batch_size result is_last r s
  end.

(** [while current_page <= end_page and not reached_last_page: ..] *)
Fixpoint scrape_loop (fuel : nat) (end_page : Z) (detect_last_page : bool)
    (batch_size : Z) (r : Run) (s : State) : loop_exit * Run * State :=
  if (current_page r <=? end_page) && negb (reached_last_page r) then
    match fuel with
    | O => (OutOfFuel, r, s)
    | S fuel' =>
        match scrape_page detect_last_page batch_size r s with
        | (Continue, r, s) =>
            scrape_loop fuel' end_page detect_last_page batch_size r s
        | (Break, r, s) => (Aborted, r, s)
        | (Raised e, r, s) => (Crashed e, r, s)
        end
    end
  else (Exhausted, r, s).

(** The end page that [scrape_properties] works with. *)
Definition resolve_end_page (end_page : option Z) (detect_last_page : bool)
  : Z :=
  match end_page with
  | Some e => e
  | None => if detect_last_page then sitemap_estimate env
            else DEFAULT_END_PAGE
  end.

(** The local variables when the loop is entered. *)
Definition initial_run (start_page : Z) (s : State) : Run :=
  {| current_page := Z.max (load_checkpoint s + 1) start_page;
     reached_last_page := false;
     current_batch := [];
     all_properties := load_properties s;
     failed_pages := ∅ |}.

(** The statements after the loop: the final save and the return. *)
Definition finish (end_page : Z) (retry_failed : bool) (r : Run) (s : State)
  : json * State :=
  let s :=
    if truthy (JArr (current_batch r)) then
      save_failed_pages (failed_pages r)
        (save_checkpoint (Z.min (current_page r - 1) end_page)
           (save_properties (all_properties r) s))
    else s in
  if retry_failed && bool_decide (failed_pages r ≠ ∅)
  then (JArr (all_properties r), s)
  else (JNull, s).                (* the end of the body: None *)

(** [scrape_properties] with at most [fuel] passes through the loop; the
    model has no answer ([None] of [option]) only when [fuel] passes were
    not enough.  The value returned is [JNull] for Python's [None].  After
    the loop the source adjusts [end_page], which nothing reads any more,
    and has no statements left under [if retry_failed and failed_pages:]
    but the [return]. *)
Definition scrape_properties_fuel (fuel : nat) (start_page : Z)
    (end_page : option Z) (batch_size : Z) (retry_failed : bool)
    (detect_last_page : bool) (s : State) : option (pyres json * State) :=
  let last_page := load_checkpoint s in
  let all_properties := load_properties s in
  let end_page := resolve_end_page end_page detect_last_page in
  if end_page <=? last_page then Some (Ok (JArr all_properties), s)
  else
    let r := initial_run start_page s in
    let '(t, s) := get_auth_token s in
    let s := set_token t s in
    if negb (token_ok (token s)) then Some (Ok (JArr all_properties), s)
    else
      match scrape_loop fuel end_page detect_last_page batch_size r s with
      | (OutOfFuel, _, _) => None
      | (Crashed e, _, s) => Some (Raise e, s)
      | (Exhausted, r, s) | (Aborted, r, s) =>
          let '(v, s) := finish end_page retry_failed r s in
          Some (Ok v, s)
      end.

(** The loop runs once for each page from the first one to [end_page] at
    most. *)
Definition pages_ahead (start_page end_page : Z) (s : State) : nat :=
  Z.to_nat (end_page + 1 - Z.max (load_checkpoint s + 1) start_page).

Definition scrape_properties (start_page : Z) (end_page : option Z)
    (batch_size : Z) (retry_failed detect_last_page : bool) (s : State)
  : option (pyres json * State) :=
  scrape_properties_fuel
    (pages_ahead start_page (resolve_end_page end_page detect_last_page) s)
    start_page end_page batch_size retry_failed detect_last_page s.

End WithEnv.

End Scraper.
Export Scraper.

(** ** The fan-out driver ([services/multiprocessing_scraper.py]) *)

Module Multiprocessing.

(** The [ranges] that [scrape_with_multiprocessing] builds, without the
    output directory and the cache flag that every tuple repeats. *)
Definition worker_ranges (start_page end_page num_workers : Z)
  : pyres (list (Z * Z)) :=
  let total_pages := end_page - start_page + 1 in
  if num_workers =? 0 then Raise ZeroDivisionError else
  let pages_per_worker := Z.max 1 (total_pages `div` num_workers) in
  Ok (omap (fun i =>
              let worker_start := start_page + i * pages_per_worker in
              let worker_end :=
                Z.min end_page (worker_start + pages_per_worker - 1) in
              (* Skip if start > end *)
              if worker_start <=? worker_end
              then Some (worker_start, worker_end) else None)
           (seqZ 0 num_workers)).

(** The pages of a list of ranges. *)
Definition covered (ranges : list (Z * Z)) (page : Z) : Prop :=
  Exists (fun r => r.1 <= page <= r.2) ranges.

(** The keys of [merged_dict], up to [==]: [True] and [1] are one key. *)
Inductive dict_key : Set :=
| KNone
| KInt (n : Z)
| KStr (s : string).

#[export] Instance dict_key_eq_dec : EqDecision dict_key.
Proof. solve_decision. Defined.

(** The key that [v] is in a dict; lists and dicts are unhashable. *)
Definition as_key (v : json) : pyres dict_key :=
  match v with
  | JNull => Ok KNone
  | JBool b => Ok (KInt (Z.b2z b))
  | JNum n => Ok (KInt n)
  | JStr s => Ok (KStr s)
  | JArr _ | JObj _ => Raise TypeError
  end.

(** [d[k] = v]: a key that is present keeps its place. *)
Fixpoint dict_set (k : dict_key) (v : json) (d : list (dict_key * json))
  : list (dict_key * json) :=
  match d with
  | [] => [(k, v)]
  | (k', v') :: d' =>
      if decide (k' = k) then (k', v) :: d' else (k', v') :: dict_set k v d'
  end.

(** [for prop in props: app_id = prop.get("applicationId");
     if app_id: merged_dict[app_id] = prop] *)
Fixpoint add_properties (props : list json)
    (merged_dict : list (dict_key * json)) : pyres (list (dict_key * json)) :=
  match props with
  | [] => Ok merged_dict
  | prop :: props' =>
      app_id <- py_get prop "applicationId" JNull ;;
      if truthy app_id then
        k <- as_key app_id ;;
        add_properties props' (dict_set k prop merged_dict)
      else add_properties props' merged_dict
  end.

Definition merge_property_lists (list1 list2 : list json)
  : pyres (list json) :=
  merged_dict <- add_properties list1 [] ;;
  merged_dict <- add_properties list2 merged_dict ;;
  Ok (map snd merged_dict).

(** The identity under which a record enters [merged_dict], if it does. *)
Definition identity (prop : json) : option dict_key :=
  match prop with
  | JObj d =>
      let app_id := default JNull (dict_get d "applicationId") in
      if truthy app_id then
        match as_key app_id with
        | Ok k => Some k
        | Raise _ => None
        end
      else None
  | _ => None
  end.

(** A record as the upstream API sends it: a dict whose [applicationId],
    when there is one, is a number, a string, a boolean or null (or an
    empty list or dict, which is falsy and so never hashed). *)
Definition is_record (prop : json) : bool :=
  match prop with
  | JObj d =>
      match default JNull (dict_get d "applicationId") with
      | JArr (_ :: _) | JObj (_ :: _) => false
      | _ => true
      end
  | _ => false
  end.

(** [d.get(k)] *)
Fixpoint dict_find (k : dict_key) (d : list (dict_key * json)) : option json :=
  match d with
  | [] => None
  | (k', v) :: d' => if decide (k' = k) then Some v else dict_find k d'
  end.

(** What one pass of a merge loop does with a record. *)
Definition add_record (merged_dict : list (dict_key * json)) (prop : json)
  : list (dict_key * json) :=
  match identity prop with
  | Some k => dict_set k prop merged_dict
  | None => merged_dict
  end.

(** The records of a list that carry the identity [k], in order. *)
Definition records_with (k : dict_key) (props : list json) : list json :=
  filter (fun prop => identity prop = Some k) props.

End Multiprocessing.
Export Multiprocessing.

(** ** Notions used to state what the rest of the code does *)

Module Notions.

(** The loop was left in the middle of a pass, after fetching the current
    page: by [break] or by an exception. *)
Definition left_at_page (exit : loop_exit) : bool :=
  match exit with
  | Aborted | Crashed _ => true
  | Exhausted | OutOfFuel => false
  end.

(** An answer of the API after which [fetch_page_data] tries again
    whatever the answer holds: a status other than 200, 401 and 403, a 200
    whose body is not JSON, or an exception of [requests]. *)
Definition transient (o : http_outcome) : bool :=
  match o with
  | Response status_code body =>
      if status_code =? 200
      then match body with None => true | Some _ => false end
      else negb ((status_code =? 401) || (status_code =? 403))
  | Timeout | ConnectionError | OtherError => true
  end.

(** The next [n] answers of the API are transient. *)
Definition transient_for (env : Env) (n : nat) (s : State) : Prop :=
  forall i, (i < n)%nat -> transient (api env (posts s + i)) = true.

(** The cache has nothing to offer for [page]: it is switched off, or
    [get_from_cache] returns nothing truthy at the next reading of the
    clock. *)
Definition cache_miss (env : Env) (page : Z) (s : State) : Prop :=
  use_cache s = false
  \/ exists cache_key,
       get_cache_key (process env) page (request_payload page) = Ok cache_key
       /\ truthy (get_from_cache (cache_dir s) (clock env (ticks s))
                                 cache_key) = false.

(** From [s] to [s'] at most [n] attempts were made: at most [n] POSTs, no
    more writes into the cache than POSTs, no GET, and no cache file but
    [name] was touched. *)
Definition spent (n : nat) (name : string) (s s' : State) : Prop :=
  (posts s <= posts s' <= posts s + n)%nat
  /\ (writes s <= writes s')%nat
  /\ (writes s' + posts s <= writes s + posts s')%nat
  /\ (ticks s <= ticks s' <= ticks s + n)%nat
  /\ gets s' = gets s
  /\ use_cache s' = use_cache s
  /\ (use_cache s = false ->
      cache_dir s' = cache_dir s /\ writes s' = writes s
      /\ ticks s' = ticks s)
  /\ (forall other, other <> name ->
                    cache_dir s' !! other = cache_dir s !! other).

(** The next [n] answers of the API are pages with at least one record
    and without a last-page signal. *)
Definition served (env : Env) (n : nat) (s : State) : Prop :=
  forall i, (i < n)%nat ->
    exists d x items,
      api env (posts s + i) = Response 200 (Some (JObj d))
      /\ dict_get d "realStateItemModel" = Some (JArr (x :: items))
      /\ is_last_page (JObj d) = Ok (JBool false).

End Notions.
Export Notions.

(** ** The sweep of the cache ([clear_expired_cache] in
    [utils/cache_utils.py]) *)

Module Sweep.

(** [s] ends in [suffix]. *)
Fixpoint ends_with (suffix s : string) : bool :=
  String.eqb s suffix
  || match s with
     | EmptyString => false
     | String _ s' => ends_with suffix s'
     end.

(** The names that [cache_dir.glob("*.json")] yields. *)
Definition json_name (name : string) : bool := ends_with ".json" name.

(** [file_age > CACHE_EXPIRY] at [current_time] *)
Definition expired (current_time : Z) (f : cache_file) : bool :=
  CACHE_EXPIRY <? current_time - st_mtime f.

(** One pass of [for cache_file in cache_dir.glob("*.json")], over every
    file of the listing; [acc] is [count] and the directory. *)
Definition sweep_file (current_time : Z) (name : string) (f : cache_file)
    (acc : Z * gmap string cache_file) : Z * gmap string cache_file :=
  if json_name name && expired current_time f
  then (acc.1 + 1, delete name acc.2)      (* unlink(); count += 1 *)
  else acc.

(** [clear_expired_cache(cache_dir)] of an existing directory, when
    [time.time()] reads [current_time]: the count returned and the
    directory afterwards. *)
Definition clear_expired_cache (cache_dir : gmap string cache_file)
    (current_time : Z) : Z * gmap string cache_file :=
  map_fold (sweep_file current_time) (0, cache_dir) cache_dir.

End Sweep.
Export Sweep.

(** ** The last page from the metadata ([detect_last_page_from_api] and
    [estimate_last_page] in [utils/pagination_utils.py]) *)

Module Detection.

(** The operand of [> 0], [+], [-] and [//] as an integer: a [bool] is an
    [int], and with anything else next to an [int] the operation raises
    [TypeError]. *)
Definition py_int (v : json) : pyres Z :=
  match v with
  | JBool b => Ok (Z.b2z b)
  | JNum n => Ok n
  | _ => Raise TypeError
  end.

Definition detect_last_page_from_api (api_response : json) : pyres json :=
  (* if "meta" in api_response and "totalPages" in api_response["meta"] *)
  paged <- py_and (py_in "meta" api_response)
                  (meta <- py_getitem api_response "meta" ;;
                   py_in "totalPages" meta) ;;
  if paged then
    meta <- py_getitem api_response "meta" ;;
    py_getitem meta "totalPages"
  else
  (* if "meta" in api_response and "totalCount" in api_response["meta"]
        and "pageSize" in api_response["meta"] *)
  counted <- py_and (py_in "meta" api_response)
               (py_and (meta <- py_getitem api_response "meta" ;;
                        py_in "totalCount" meta)
                       (meta <- py_getitem api_response "meta" ;;
                        py_in "pageSize" meta)) ;;
  from_count <-
    (if counted then
       meta <- py_getitem api_response "meta" ;;
       total_count <- py_getitem meta "totalCount" ;;
       page_size <- py_getitem meta "pageSize" ;;
       (* if page_size > 0:
            return (total_count + page_size - 1) // page_size *)
       size <- py_int page_size ;;
       if 0 <? size then
         total <- py_int total_count ;;
         Ok (Some (JNum ((total + size - 1) `div` size)))
       else Ok None
     else Ok None) ;;
  match from_count with
  | Some pages => Ok pages
  | None =>
      (* if "pagination" in api_response *)
      paginated <- py_in "pagination" api_response ;;
      if paginated then
        pagination <- py_getitem api_response "pagination" ;;
        total <- py_in "totalPages" pagination ;;
        if total then py_getitem pagination "totalPages" else
        last <- py_in "lastPage" pagination ;;
        if last then py_getitem pagination "lastPage" else Ok JNull
      else Ok JNull
  end.

(** [estimate_last_page()] once the sitemap has been looked for:
    [parsed] is [None] when no sitemap text was found, and otherwise the
    pair that [parse_page_numbers_from_sitemap] returns for it, whose
    first component is [highest_listing]. *)
Definition estimate_last_page (parsed : option (option Z * option Z)) : Z :=
  match parsed with
  | Some (Some highest_listing, _) =>
      if 0 <? highest_listing then
        let estimated_properties := (highest_listing + 1) * 1000 in
        let page_size := 16 in
        (estimated_properties + page_size - 1) `div` page_size
      else 15972
  | _ => 15972
  end.

End Detection.
Export Detection.

(** ** The workers ([scrape_range] in [services/scraper.py] and
    [scrape_with_rate_limit] in [services/multiprocessing_scraper.py]) *)

Module Workers.

Definition set_use_cache (b : bool) (s : State) : State :=
  {| token := token s; use_cache := b; cache_dir := cache_dir s;
     checkpoint_file := checkpoint_file s; data_file := data_file s;
     failed_pages_file := failed_pages_file s; gets := gets s;
     posts := posts s; ticks := ticks s; writes := writes s;
     trace := trace s |}.

(** [RealEstateScraper(use_cache=..)], built where the files of [s] are:
    no token, and with the cache on a sweep of the cache directory. *)
Definition new_scraper (env : Env) (cache : bool) (s : State) : State :=
  let s := set_use_cache cache (set_token None s) in
  if cache then
    let current_time := clock env (ticks s) in
    set_cache_dir (clear_expired_cache (cache_dir s) current_time).2
                  (next_tick s)
  else s.

(** The line that logs [len(properties)] and the [return] after it. *)
Definition log_and_return (properties : json) : pyres json :=
  n <- py_len properties ;;
  Ok properties.

(** [scrape_range((start_page, end_page, output_dir, use_cache))]; the
    state holds the checkpoint, data and failed-pages files of this
    worker. *)
Definition scrape_range (env : Env) (range_info : Z * Z * bool) (s : State)
  : option (pyres json * State) :=
  let '(start_page, end_page, cache) := range_info in
  let s := new_scraper env cache s in
  match scrape_properties env start_page (Some end_page) 50 true true s with
  | Some (Ok properties, s) => Some (log_and_return properties, s)
  | Some (Raise e, s) => Some (Raise e, s)
  | None => None
  end.

(** [scrape_properties] for a scraper whose attribute [fetch_page_data]
    has been replaced: [fetch page check_last_page] is the call
    [self.fetch_page_data(page, check_last_page=check_last_page)]. *)
Section WithFetch.

Variable env : Env.
Variable fetch : Z -> bool -> State -> pyres (json * bool * json) * State.

Definition scrape_page_with (detect_last_page : bool) (batch_size : Z)
    (r : Run) (s : State) : step_exit * Run * State :=
  match fetch (current_page r) detect_last_page s with
  | (Raise e, s) => (Raised e, r, s)
  | (Ok (result, need_refresh, is_last), s) =>
      if need_refresh then
        let '(t, s) := get_auth_token env s in
        let s := set_token t s in
        if negb (token_ok (token s)) then (Break, r, s)
        else
          match fetch (current_page r) detect_last_page s with
          | (Raise e, s) => (Raised e, r, s)
          | (Ok (result, _, is_last), s) =>
              handle_result detect_last_page batch_size result is_last r s
          end
      else handle_result detect_last_page batch_size result is_last r s
  end.

Fixpoint scrape_loop_with (fuel : nat) (end_page : Z)
    (detect_last_page : bool) (batch_size : Z) (r : Run) (s : State)
  : loop_exit * Run * State :=
  if (current_page r <=? end_page) && negb (reached_last_page r) then
    match fuel with
    | O => (OutOfFuel, r, s)
    | S fuel' =>
        match scrape_page_with detect_last_page batch_size r s with
        | (Continue, r, s) =>
            scrape_loop_with fuel' end_page detect_last_page batch_size r s
        | (Break, r, s) => (Aborted, r, s)
        | (Raised e, r, s) => (Crashed e, r, s)
        end
    end
  else (Exhausted, r, s).

Definition scrape_properties_with (start_page : Z) (end_page : option Z)
    (batch_size : Z) (retry_failed : bool) (detect_last_page : bool)
    (s : State) : option (pyres json * State) :=
  let last_page := load_checkpoint s in
  let all_properties := load_properties s in
  let end_page := resolve_end_page env end_page detect_last_page in
  if end_page <=? last_page then Some (Ok (JArr all_properties), s)
  else
    let r := initial_run start_page s in
    let fuel := pages_ahead start_page end_page s in
    let '(t, s) := get_auth_token env s in
    let s := set_token t s in
    if negb (token_ok (token s)) then Some (Ok (JArr all_properties), s)
    else
      match scrape_loop_with fuel end_page detect_last_page batch_size r s
      with
      | (OutOfFuel, _, _) => None
      | (Crashed e, _, s) => Some (Raise e, s)
      | (Exhausted, r, s) | (Aborted, r, s) =>
          let '(v, s) := finish end_page retry_failed r s in
          Some (Ok v, s)
      end.

End WithFetch.

(** [rate_limited_fetch(page, max_retries=3)] as [scrape_properties] calls
    it, with the keyword [check_last_page]: the function has no such
    parameter, and the call raises [TypeError] before its body, and so
    [rate_limiter.wait()], is run. *)
Definition rate_limited_fetch (page : Z) (check_last_page : bool) (s : State)
  : pyres (json * bool * json) * State :=
  (Raise TypeError, s).

(** [scrape_with_rate_limit((range_info, rate_limiter))] *)
Definition scrape_with_rate_limit (env : Env) (range_info : Z * Z * bool)
    (s : State) : option (pyres json * State) :=
  let '(start_page, end_page, cache) := range_info in
  let s := new_scraper env cache s in
  match scrape_properties_with env rate_limited_fetch
          start_page (Some end_page) 50 true true s with
  | Some (Ok properties, s) => Some (log_and_return properties, s)
  | Some (Raise e, s) => Some (Raise e, s)
  | None => None
  end.

(** [reduce(self.merge_property_lists, results, [])] *)
Definition merge_results (results : list (list json)) : pyres (list json) :=
  foldl (fun merged result =>
           merged <- merged ;; merge_property_lists merged result)
        (Ok []) results.

End Workers.
Export Workers.

(** ** Retrying the failed pages ([retry_failed_pages] in [main.py]) and
    the documents of [utils/file_utils.py] *)

Module Retry.

(** [load_failed_pages(failed_pages_path)] *)
Definition load_failed_pages (s : State) : gset Z :=
  default ∅ (failed_pages_file s).

(** [sorted(failed_pages)] *)
Definition sorted_pages (failed_pages : gset Z) : list Z :=
  merge_sort Z.le (elements failed_pages).

(** How [retry_failed_pages] ends. *)
Inductive retry_result : Type :=
| Returns (all_properties : list json)
| RaisesValueError       (* too many values to unpack (expected 2) *)
| Raises (e : exn).

(** The [for page in sorted(failed_pages)] loop.  [fetch_page_data]
    returns three values, and the statement that takes them gives them
    two names: it raises [ValueError], in the first pass, and what follows
    it in the body is never run. *)
Definition retry_pages (env : Env) (pages : list Z)
    (all_properties : list json) (s : State) : retry_result * State :=
  match pages with
  | [] => (Returns all_properties, s)
  | page :: _ =>
      let '(t, s) := get_auth_token env s in
      let s := set_token t s in
      if negb (token_ok (token s)) then (Returns all_properties, s) (* break *)
      else
        (* result, need_refresh = scraper.fetch_page_data(page, max_retries=5) *)
        match fetch_page_data env page 5 false s with
        | (Raise e, s) => (Raises e, s)
        | (Ok _, s) => (RaisesValueError, s)
        end
  end.

Definition retry_failed_pages (env : Env) (cache : bool) (s : State)
  : retry_result * State :=
  let failed_pages := load_failed_pages s in
  if decide (failed_pages = ∅) then (Returns [], s)
  else
    let s := new_scraper env cache s in
    retry_pages env (sorted_pages failed_pages) [] s.

(** The documents that [save_checkpoint] and [save_failed_pages] write,
    and what [load_checkpoint] reads; [timestamp] is the text of
    [datetime.now()]. *)
Definition checkpoint_document (page : Z) (timestamp : string) : json :=
  JObj [("last_page", JNum page); ("timestamp", JStr timestamp)].

(** [load_checkpoint] of a file that holds the JSON value [data], or of
    no file *)
Definition load_checkpoint_document (file : option json) : pyres json :=
  match file with
  | Some data => py_get data "last_page" (JNum 0)
  | None => Ok (JNum 0)
  end.

Definition failed_pages_document (failed_pages : gset Z) (timestamp : string)
  : json :=
  JObj [("failed_pages", JArr (JNum <$> sorted_pages failed_pages));
        ("timestamp", JStr timestamp);
        ("count", JNum (Z.of_nat (size failed_pages)))].

End Retry.
Export Retry.

(** * Properties *)

(** ** Last-page detection *)

Section PaginationFacts.

Implicit Types (d m : list (string * json)).

Lemma py_in_dict d k :
  py_in k (JObj d) = Ok (bool_decide (is_Some (dict_get d k))).
Proof. reflexivity. Qed.

Lemma is_last_page_past_items d :
  items_not_empty d ->
  is_last_page (JObj d) =
    match dict_get d "meta" with
    | None => Ok (JBool false)
    | Some meta =>
        flagged <- py_in "isLastPage" meta ;;
        if flagged then py_getitem meta "isLastPage"
        else
          counted <- py_and (py_in "currentPage" meta)
                            (py_in "totalPages" meta) ;;
          if counted then
            current <- py_getitem meta "currentPage" ;;
            total <- py_getitem meta "totalPages" ;;
            b <- py_ge current total ;;
            Ok (JBool b)
          else Ok (JBool false)
    end.
Proof.
  intros Hitems. unfold is_last_page. rewrite !py_in_dict.
  assert (Hempty :
    py_and (Ok (bool_decide (is_Some (dict_get d "realStateItemModel"))))
           (items <- py_getitem (JObj d) "realStateItemModel" ;;
            n <- py_len items ;; Ok (n =? 0)) = Ok false).
  { destruct Hitems as [Hnone | (x & l & Hsome)].
    - rewrite Hnone. reflexivity.
    - cbn. rewrite Hsome. reflexivity. }
  rewrite Hempty. cbn [bind].
  cbn [py_getitem]. destruct (dict_get d "meta") as [meta|]; [|reflexivity].
  cbn. destruct (py_in "isLastPage" meta) as [[|]|e]; reflexivity.
Qed.

(** C6.  [is_last_page] looks at its signals in order.  (a) A response
    whose item list is empty is a last page, whatever else it holds.
    When the item list is missing or has items: (b) an [isLastPage] flag
    in [meta] is the answer, whatever the page counters say; (c) without
    the flag, [currentPage] and [totalPages] in [meta] give
    [currentPage >= totalPages], so that equal counters give true and a
    smaller [currentPage] gives false; and with none of these signals the
    answer is false. *)
Theorem is_last_page_signal_order d :
  (dict_get d "realStateItemModel" = Some (JArr []) ->
   is_last_page (JObj d) = Ok (JBool true))
  /\ (items_not_empty d ->
      (forall m flag,
          dict_get d "meta" = Some (JObj m) ->
          dict_get m "isLastPage" = Some flag ->
          is_last_page (JObj d) = Ok flag)
      /\ (forall m current total,
          dict_get d "meta" = Some (JObj m) ->
          dict_get m "isLastPage" = None ->
          dict_get m "currentPage" = Some (JNum current) ->
          dict_get m "totalPages" = Some (JNum total) ->
          is_last_page (JObj d) = Ok (JBool (total <=? current))
          /\ (current = total -> is_last_page (JObj d) = Ok (JBool true))
          /\ (current < total -> is_last_page (JObj d) = Ok (JBool false)))
      /\ (dict_get d "meta" = None ->
          is_last_page (JObj d) = Ok (JBool false))
      /\ (forall m,
          dict_get d "meta" = Some (JObj m) ->
          dict_get m "isLastPage" = None ->
          dict_get m "currentPage" = None \/ dict_get m "totalPages" = None ->
          is_last_page (JObj d) = Ok (JBool false))).
Proof.
  split.
  - intros Hitems. unfold is_last_page. rewrite py_in_dict. cbn.
    rewrite Hitems. reflexivity.
  - intros Hitems. rewrite (is_last_page_past_items d Hitems).
    split; [|split; [|split]].
    + intros m flag -> Hflag. cbn. rewrite Hflag. reflexivity.
    + intros m current total -> Hflag Hcur Htot.
      cbn. rewrite Hflag, Hcur, Htot. cbn.
      split; [reflexivity|split].
      * intros ->. rewrite Z.leb_refl. reflexivity.
      * intros Hlt. destruct (Z.leb_spec total current); [lia | reflexivity].
    + intros ->. reflexivity.
    + intros m -> Hflag [Hnone | Hnone]; cbn; rewrite Hflag; cbn.
      * rewrite Hnone. reflexivity.
      * rewrite Hnone.
        destruct (dict_get m "currentPage"); reflexivity.
Qed.

(** A witness of C6, one response for each signal. *)
Lemma is_last_page_signal_order_witness :
  is_last_page
    (JObj [("realStateItemModel", JArr []);
           ("meta", JObj [("isLastPage", JBool false)])]) = Ok (JBool true)
  /\ is_last_page
       (JObj [("realStateItemModel", JArr [JNum 7]);
              ("meta", JObj [("isLastPage", JBool true);
                             ("currentPage", JNum 2);
                             ("totalPages", JNum 9)])]) = Ok (JBool true)
  /\ is_last_page
       (JObj [("realStateItemModel", JArr [JNum 7]);
              ("meta", JObj [("currentPage", JNum 9);
                             ("totalPages", JNum 9)])]) = Ok (JBool true)
  /\ is_last_page
       (JObj [("realStateItemModel", JArr [JNum 7]);
              ("meta", JObj [("currentPage", JNum 2);
                             ("totalPages", JNum 9)])]) = Ok (JBool false)
  /\ is_last_page (JObj [("realStateItemModel", JArr [JNum 7])])
     = Ok (JBool false)
  /\ is_last_page
       (JObj [("realStateItemModel", JArr [JNum 7]);
              ("meta", JObj [("totalPages", JNum 9)])]) = Ok (JBool false).
Proof.
  assert (Hitems : forall rest,
    items_not_empty (("realStateItemModel", JArr [JNum 7]) :: rest)).
  { intros rest. right. exists (JNum 7), []. reflexivity. }
  split; [|split; [|split; [|split; [|split]]]].
  - apply (proj1 (is_last_page_signal_order _)). reflexivity.
  - apply (proj1 (proj2 (is_last_page_signal_order _) (Hitems _))
             [("isLastPage", JBool true); ("currentPage", JNum 2);
              ("totalPages", JNum 9)]); reflexivity.
  - apply (proj1 (proj2 (proj2 (is_last_page_signal_order _) (Hitems _)))
             [("currentPage", JNum 9); ("totalPages", JNum 9)] 9 9);
      reflexivity.
  - apply (proj1 (proj2 (proj2 (is_last_page_signal_order _) (Hitems _)))
             [("currentPage", JNum 2); ("totalPages", JNum 9)] 2 9);
      reflexivity.
  - apply (proj1 (proj2 (proj2 (proj2 (is_last_page_signal_order _)
                                  (Hitems _))))). reflexivity.
  - apply (proj2 (proj2 (proj2 (proj2 (is_last_page_signal_order _)
                                  (Hitems _))))
             [("totalPages", JNum 9)]); [reflexivity | reflexivity |].
    left. reflexivity.
Defined.

End PaginationFacts.

(** ** The response cache *)

Section CacheFacts.

Implicit Types (cache_dir : gmap string cache_file) (cache_key : string).

Lemma get_from_cache_fresh cache_dir cache_key f now :
  cache_dir !! cache_path cache_key = Some f ->
  now - st_mtime f <= CACHE_EXPIRY ->
  get_from_cache cache_dir now cache_key = default JNull (content f).
Proof.
  intros Hfile Hage. unfold get_from_cache. rewrite Hfile.
  destruct (Z.ltb_spec CACHE_EXPIRY (now - st_mtime f)); [lia|].
  destruct (content f); reflexivity.
Qed.

Lemma get_from_cache_expired cache_dir cache_key f now :
  cache_dir !! cache_path cache_key = Some f ->
  CACHE_EXPIRY < now - st_mtime f ->
  get_from_cache cache_dir now cache_key = JNull.
Proof.
  intros Hfile Hage. unfold get_from_cache. rewrite Hfile.
  destruct (Z.ltb_spec CACHE_EXPIRY (now - st_mtime f)); [reflexivity | lia].
Qed.

Lemma save_to_cache_written cache_dir stored o cache_key payload :
  (save_to_cache cache_dir stored o cache_key payload).1 = true ->
  (save_to_cache cache_dir stored o cache_key payload).2
    !! cache_path cache_key
  = Some {| content := Some payload; st_mtime := stored |}.
Proof.
  destruct o; cbn; intros Hok; try discriminate.
  apply lookup_insert_eq.
Qed.

(** C8.  A payload that [save_to_cache] has written at time [stored] is
    what [get_from_cache] returns for the same key as long as the age of
    the file is at most [CACHE_EXPIRY]; once the age of a cache file exceeds
    [CACHE_EXPIRY], [get_from_cache] returns [None], a miss and not an
    exception. *)
Theorem cache_round_trip :
  (forall cache_dir stored o cache_key payload now,
      (save_to_cache cache_dir stored o cache_key payload).1 = true ->
      now - stored <= CACHE_EXPIRY ->
      get_from_cache (save_to_cache cache_dir stored o cache_key payload).2
                     now cache_key = payload)
  /\ (forall cache_dir stored o cache_key payload now,
      (save_to_cache cache_dir stored o cache_key payload).1 = true ->
      CACHE_EXPIRY < now - stored ->
      get_from_cache (save_to_cache cache_dir stored o cache_key payload).2
                     now cache_key = JNull)
  /\ (forall cache_dir cache_key f now,
      cache_dir !! cache_path cache_key = Some f ->
      CACHE_EXPIRY < now - st_mtime f ->
      get_from_cache cache_dir now cache_key = JNull).
Proof.
  split; [|split].
  - intros cache_dir stored o cache_key payload now Hok Hage.
    rewrite (get_from_cache_fresh _ _ _ _
               (save_to_cache_written _ _ _ _ _ Hok)); [reflexivity|].
    exact Hage.
  - intros cache_dir stored o cache_key payload now Hok Hage.
    apply (get_from_cache_expired _ _ _ _
             (save_to_cache_written _ _ _ _ _ Hok)).
    exact Hage.
  - apply get_from_cache_expired.
Qed.

(** A witness of C8: a page written at second 1000 is read back in the same
    second and is gone a day and a second later. *)
Lemma cache_round_trip_witness :
  get_from_cache
    (save_to_cache ∅ 1000 Written "page_1_7"
       (JObj [("realStateItemModel", JArr [JNum 7])])).2 1000 "page_1_7"
  = JObj [("realStateItemModel", JArr [JNum 7])]
  /\ get_from_cache
       (save_to_cache ∅ 1000 Written "page_1_7"
          (JObj [("realStateItemModel", JArr [JNum 7])])).2 87401 "page_1_7"
     = JNull
  /\ get_from_cache
       {[ cache_path "page_1_7" :=
            {| content := Some (JNum 1); st_mtime := 0 |} ]} 86401 "page_1_7"
     = JNull.
Proof.
  split; [|split].
  - apply (proj1 cache_round_trip); [reflexivity|]. unfold CACHE_EXPIRY. lia.
  - apply (proj1 (proj2 cache_round_trip)); [reflexivity|].
    unfold CACHE_EXPIRY. lia.
  - apply (proj2 (proj2 cache_round_trip) _ _
             {| content := Some (JNum 1); st_mtime := 0 |}).
    + apply lookup_singleton_eq.
    + cbn. unfold CACHE_EXPIRY. lia.
Defined.

(** The key is a function of the process, the page and four entries of the
    parameters: page size and sub-districts do not enter it. *)
Lemma get_cache_key_relevant_fields P page (d1 d2 : list (string * json)) :
  dict_get d1 "realEstateType" = dict_get d2 "realEstateType" ->
  dict_get d1 "realEstateDealType" = dict_get d2 "realEstateDealType" ->
  dict_get d1 "cityIdList" = dict_get d2 "cityIdList" ->
  dict_get d1 "currencyId" = dict_get d2 "currencyId" ->
  get_cache_key P page (JObj d1) = get_cache_key P page (JObj d2).
Proof.
  intros H1 H2 H3 H4. unfold get_cache_key, py_get.
  rewrite H1, H2, H3, H4. reflexivity.
Qed.

(** C9, at the failing input.  The key of page 1 for the request that
    [fetch_page_data] builds, computed in two interpreter processes: the
    text differs, so the file that one run has written into the cache
    directory is not the file that the next run looks for. *)
Theorem get_cache_key_differs_between_processes :
  get_cache_key process_seed_0 1 (request_payload 1)
  = Ok "page_1_-8846050695248950507"
  /\ get_cache_key process_seed_42 1 (request_payload 1)
     = Ok "page_1_7268849266116528372"
  /\ get_cache_key process_seed_0 1 (request_payload 1)
     <> get_cache_key process_seed_42 1 (request_payload 1).
Proof.
  assert (H0 : get_cache_key process_seed_0 1 (request_payload 1)
               = Ok "page_1_-8846050695248950507") by (vm_compute; reflexivity).
  assert (H42 : get_cache_key process_seed_42 1 (request_payload 1)
                = Ok "page_1_7268849266116528372") by (vm_compute; reflexivity).
  split; [exact H0|split; [exact H42|]].
  rewrite H0, H42. discriminate.
Qed.

End CacheFacts.

(** ** The partition of the page range *)

Section PartitionFacts.

Lemma covered_worker_ranges start_page end_page num_workers ranges page :
  worker_ranges start_page end_page num_workers = Ok ranges ->
  covered ranges page <->
  exists i,
    0 <= i < num_workers
    /\ start_page + i * Z.max 1 ((end_page - start_page + 1) `div` num_workers)
       <= page
    /\ page <= end_page
    /\ page <= start_page
               + i * Z.max 1 ((end_page - start_page + 1) `div` num_workers)
               + Z.max 1 ((end_page - start_page + 1) `div` num_workers) - 1.
Proof.
  unfold worker_ranges, covered.
  destruct (num_workers =? 0); [discriminate|]. intros [= <-].
  set (w := Z.max 1 ((end_page - start_page + 1) `div` num_workers)).
  rewrite Exists_exists. split.
  - intros ([a b] & Hin & Hpage). cbn in Hpage.
    apply list_elem_of_omap in Hin as (i & Hi & Hrange).
    apply elem_of_seqZ in Hi.
    destruct (Z.leb_spec (start_page + i * w)
                (Z.min end_page (start_page + i * w + w - 1)));
      [|discriminate].
    injection Hrange as <- <-. exists i. lia.
  - intros (i & Hi & Hlo & Hend & Hhi).
    exists (start_page + i * w, Z.min end_page (start_page + i * w + w - 1)).
    split; [|cbn; lia].
    apply list_elem_of_omap. exists i. split.
    + apply elem_of_seqZ. lia.
    + destruct (Z.leb_spec (start_page + i * w)
                  (Z.min end_page (start_page + i * w + w - 1)));
        [reflexivity | lia].
Qed.

(** The pages that some worker gets: the workers take [pages_per_worker]
    pages each from [start_page] on, and what is left of the range after
    [num_workers] such blocks is given to nobody. *)
Lemma worker_ranges_cover start_page end_page num_workers ranges page :
  0 < num_workers ->
  worker_ranges start_page end_page num_workers = Ok ranges ->
  covered ranges page <->
  start_page <= page <= end_page
  /\ page < start_page
            + num_workers
              * Z.max 1 ((end_page - start_page + 1) `div` num_workers).
Proof.
  intros Hn Hranges. rewrite (covered_worker_ranges _ _ _ _ _ Hranges).
  set (w := Z.max 1 ((end_page - start_page + 1) `div` num_workers)).
  assert (Hw : 1 <= w) by (unfold w; lia).
  split.
  - intros (i & Hi & Hlo & Hend & Hhi). nia.
  - intros [[Hlo Hend] Hhi].
    exists ((page - start_page) `div` w).
    pose proof (Z.div_mod (page - start_page) w ltac:(lia)) as Hdiv.
    pose proof (Z.mod_pos_bound (page - start_page) w ltac:(lia)) as Hmod.
    assert (0 <= (page - start_page) `div` w) by (apply Z.div_pos; lia).
    assert ((page - start_page) `div` w < num_workers).
    { apply Z.div_lt_upper_bound; lia. }
    nia.
Qed.

(** No page is given to two workers: ranges that share a page are one
    range. *)
Lemma worker_ranges_disjoint start_page end_page num_workers ranges r1 r2 page :
  worker_ranges start_page end_page num_workers = Ok ranges ->
  r1 ∈ ranges -> r2 ∈ ranges ->
  r1.1 <= page <= r1.2 -> r2.1 <= page <= r2.2 ->
  r1 = r2.
Proof.
  unfold worker_ranges.
  destruct (num_workers =? 0); [discriminate|]. intros [= <-].
  set (w := Z.max 1 ((end_page - start_page + 1) `div` num_workers)).
  assert (Hw : 1 <= w) by (unfold w; lia).
  intros (i & _ & Hi)%list_elem_of_omap (j & _ & Hj)%list_elem_of_omap.
  destruct (_ <=? _) in Hi; [|discriminate].
  destruct (_ <=? _) in Hj; [|discriminate].
  injection Hi as <-. injection Hj as <-. cbn. intros H1 H2.
  assert (i = j) as -> by nia. reflexivity.
Qed.

(** C2, at the failing input.  Pages 1 to 100 for three workers: each
    worker gets 33 pages and page 100 belongs to no range. *)
Theorem worker_ranges_lose_the_remainder :
  worker_ranges 1 100 3 = Ok [(1, 33); (34, 66); (67, 99)]
  /\ ~ covered [(1, 33); (34, 66); (67, 99)] 100.
Proof.
  split; [reflexivity|].
  unfold covered. rewrite !Exists_cons, Exists_nil. cbn. lia.
Qed.

End PartitionFacts.

(** ** The merge of the workers' results *)

Section MergeFacts.

Implicit Types (d : list (dict_key * json)) (k : dict_key).
Implicit Types (prop : json) (props : list json).

Lemma add_properties_records props d :
  Forall is_record props ->
  add_properties props d = Ok (foldl add_record d props).
Proof.
  intros Hrecords. revert d.
  induction Hrecords as [|prop props Hprop _ IH]; intros d; [reflexivity|].
  cbn [add_properties foldl]. unfold add_record at 2.
  destruct prop as [| | | | |fields]; try done.
  cbn in Hprop |- *.
  destruct (default JNull (dict_get fields "applicationId"))
    as [|[|]|n|x|[|y l]|[|y l]]; cbn; try apply IH; try done.
  - destruct (n =? 0); cbn; apply IH.
  - destruct (String.eqb x EmptyString); cbn; apply IH.
Qed.

Lemma dict_find_set k k' v d :
  dict_find k (dict_set k' v d)
  = if decide (k = k') then Some v else dict_find k d.
Proof.
  induction d as [|[k0 v0] d IH]; cbn.
  - repeat case_decide; congruence.
  - repeat (case_decide; cbn); try congruence.
Qed.

Lemma dict_set_keys k v d :
  (dict_set k v d).*1 = if decide (k ∈ d.*1) then d.*1 else d.*1 ++ [k].
Proof.
  induction d as [|[k0 v0] d IH]; cbn.
  - case_decide as Hin; [by apply elem_of_nil in Hin | reflexivity].
  - destruct (decide (k0 = k)) as [->|Hne]; cbn.
    + rewrite decide_True by constructor. reflexivity.
    + rewrite IH. destruct (decide (k ∈ d.*1)) as [Hin|Hin].
      * rewrite decide_True by (by constructor). reflexivity.
      * rewrite decide_False; [reflexivity|].
        intros [?|?]%elem_of_cons; congruence.
Qed.

Lemma dict_set_NoDup k v d : NoDup d.*1 -> NoDup (dict_set k v d).*1.
Proof.
  intros Hd. rewrite dict_set_keys. case_decide as Hin; [exact Hd|].
  apply NoDup_app. split; [exact Hd|]. split; [|apply NoDup_singleton].
  intros x Hx ->%list_elem_of_singleton. contradiction.
Qed.

Lemma add_record_NoDup props d :
  NoDup d.*1 -> NoDup (foldl add_record d props).*1.
Proof.
  revert d. induction props as [|prop props IH]; intros d Hd; [exact Hd|].
  cbn. apply IH. unfold add_record.
  destruct (identity prop); [by apply dict_set_NoDup | exact Hd].
Qed.

Lemma dict_find_elem_of k v d :
  NoDup d.*1 -> (k, v) ∈ d <-> dict_find k d = Some v.
Proof.
  induction d as [|[k0 v0] d IH]; cbn; intros Hd.
  - split; [intros []%elem_of_nil | discriminate].
  - apply NoDup_cons in Hd as [Hk0 Hd]. rewrite elem_of_cons, (IH Hd).
    destruct (decide (k0 = k)) as [->|Hne].
    + split; [|intros [= ->]; by left].
      intros [[= ->]|Hfind]; [reflexivity|]. exfalso. apply Hk0.
      apply (IH Hd) in Hfind.
      apply (list_elem_of_fmap_2 fst) in Hfind. exact Hfind.
    + split; [|by right]. intros [[= ? ?]|?]; congruence.
Qed.

Lemma records_with_snoc k props prop :
  records_with k (props ++ [prop])
  = records_with k props
    ++ (if decide (identity prop = Some k) then [prop] else []).
Proof.
  unfold records_with. rewrite filter_app. reflexivity.
Qed.

(** What [merged_dict] holds under a key: the last record that came with
    that identity. *)
Lemma dict_find_add_records k props :
  dict_find k (foldl add_record [] props) = last (records_with k props).
Proof.
  induction props as [|prop props IH] using rev_ind; [reflexivity|].
  rewrite foldl_app, records_with_snoc. cbn. unfold add_record at 1.
  destruct (identity prop) as [k'|] eqn:Hid.
  - rewrite dict_find_set. destruct (decide (k = k')) as [->|Hne].
    + rewrite decide_True by reflexivity. rewrite last_snoc. reflexivity.
    + rewrite decide_False by congruence. rewrite app_nil_r. exact IH.
  - rewrite decide_False by discriminate. rewrite app_nil_r. exact IH.
Qed.

Lemma last_records_with k props prop :
  last (records_with k props) = Some prop ->
  prop ∈ props /\ identity prop = Some k.
Proof.
  intros Hlast. apply last_Some_elem_of in Hlast.
  unfold records_with in Hlast. apply list_elem_of_filter in Hlast.
  tauto.
Qed.

Lemma merged_records props prop :
  prop ∈ (foldl add_record [] props).*2 <->
  exists k, last (records_with k props) = Some prop.
Proof.
  rewrite list_elem_of_fmap. split.
  - intros ([k v] & -> & Hin). exists k. cbn.
    rewrite <- dict_find_add_records. apply dict_find_elem_of; [|exact Hin].
    apply add_record_NoDup. constructor.
  - intros (k & Hlast). exists (k, prop). split; [reflexivity|].
    apply dict_find_elem_of; [apply add_record_NoDup; constructor|].
    rewrite dict_find_add_records. exact Hlast.
Qed.

Lemma merge_property_lists_records list1 list2 :
  Forall is_record (list1 ++ list2) ->
  merge_property_lists list1 list2
  = Ok (foldl add_record [] (list1 ++ list2)).*2.
Proof.
  intros [H1 H2]%Forall_app. unfold merge_property_lists.
  rewrite (add_properties_records _ _ H1). cbn [bind].
  rewrite (add_properties_records _ _ H2). cbn [bind].
  rewrite foldl_app. reflexivity.
Qed.

Lemma merged_identities props :
  identity <$> (foldl add_record [] props).*2
  = Some <$> (foldl add_record [] props).*1.
Proof.
  rewrite <- !list_fmap_compose. apply list_fmap_ext.
  intros i [k v] Hkv. cbn.
  apply list_elem_of_lookup_2 in Hkv.
  apply dict_find_elem_of in Hkv; [|apply add_record_NoDup; constructor].
  rewrite dict_find_add_records in Hkv.
  apply last_records_with in Hkv. tauto.
Qed.

(** C10.  Merging two lists of records: the result holds only records
    of the inputs that carry an identity (a truthy [applicationId]), so a
    record without one is dropped; no identity occurs twice in it; every
    identity of the inputs occurs in it; and the record under an identity is
    the last one of [list1 + list2] with it, hence one of [list2] whenever
    [list2] has that identity. *)
Theorem merge_property_lists_by_identity list1 list2 :
  Forall is_record (list1 ++ list2) ->
  exists merged,
    merge_property_lists list1 list2 = Ok merged
    /\ (forall prop, prop ∈ merged ->
                     prop ∈ list1 ++ list2 /\ is_Some (identity prop))
    /\ (forall prop, identity prop = None -> prop ∉ merged)
    /\ NoDup (identity <$> merged)
    /\ (forall prop k,
          prop ∈ list1 ++ list2 -> identity prop = Some k ->
          exists prop', prop' ∈ merged /\ identity prop' = Some k)
    /\ (forall prop k, prop ∈ merged -> identity prop = Some k ->
                       last (records_with k (list1 ++ list2)) = Some prop)
    /\ (forall prop k, prop ∈ merged -> identity prop = Some k ->
                       records_with k list2 <> [] ->
                       last (records_with k list2) = Some prop
                       /\ prop ∈ list2).
Proof.
  intros Hrecords. eexists. split; [by apply merge_property_lists_records|].
  set (props := list1 ++ list2).
  assert (Hlast : forall prop k,
    prop ∈ (foldl add_record [] props).*2 -> identity prop = Some k ->
    last (records_with k props) = Some prop).
  { intros prop k (k' & Hk')%merged_records Hid.
    destruct (last_records_with _ _ _ Hk') as [_ Hid'].
    assert (k' = k) as -> by congruence. exact Hk'. }
  split; [|split; [|split; [|split; [|split]]]].
  - intros prop (k & Hk)%merged_records.
    apply last_records_with in Hk as [Hin Hid]. split; [exact Hin|].
    rewrite Hid. by eexists.
  - intros prop Hnone (k & Hk)%merged_records.
    apply last_records_with in Hk as [_ Hid]. congruence.
  - rewrite merged_identities. apply NoDup_fmap_2; [apply _|].
    apply add_record_NoDup. constructor.
  - intros prop k Hin Hid.
    assert (Hsome : is_Some (last (records_with k props))).
    { apply last_is_Some. intros Hnil.
      assert (Hprop : prop ∈ records_with k props).
      { apply list_elem_of_filter. tauto. }
      rewrite Hnil in Hprop. by apply elem_of_nil in Hprop. }
    destruct Hsome as [prop' Hprop']. exists prop'. split.
    + apply merged_records. by exists k.
    + by apply last_records_with in Hprop' as [_ ?].
  - exact Hlast.
  - intros prop k Hin Hid Hsecond.
    pose proof (Hlast prop k Hin Hid) as Hk.
    unfold props, records_with in Hk. rewrite filter_app, last_app in Hk.
    fold (records_with k list1) in Hk. fold (records_with k list2) in Hk.
    destruct (last (records_with k list2)) as [prop2|] eqn:Hlast2.
    + injection Hk as ->. split; [reflexivity|].
      by apply last_records_with in Hlast2 as [? _].
    + by apply last_None in Hlast2.
Qed.

(** A witness of C10: two workers' lists that share the identity 7; the
    record without [applicationId] and the one whose [applicationId] is 0
    are lost, and the second list's record for 7 is the one kept. *)
Lemma merge_property_lists_by_identity_witness :
  exists merged,
    merge_property_lists
      [JObj [("applicationId", JNum 7); ("price", JNum 100)];
       JObj [("price", JNum 300)];
       JObj [("applicationId", JNum 8)]]
      [JObj [("applicationId", JNum 0); ("price", JNum 5)];
       JObj [("applicationId", JNum 7); ("price", JNum 200)]]
    = Ok merged
    /\ NoDup (identity <$> merged).
Proof.
  destruct (merge_property_lists_by_identity
              [JObj [("applicationId", JNum 7); ("price", JNum 100)];
               JObj [("price", JNum 300)];
               JObj [("applicationId", JNum 8)]]
              [JObj [("applicationId", JNum 0); ("price", JNum 5)];
               JObj [("applicationId", JNum 7); ("price", JNum 200)]])
    as (merged & Hmerged & _ & _ & Hnodup & _).
  - repeat constructor.
  - exists merged. split; [exact Hmerged | exact Hnodup].
Defined.

End MergeFacts.

(** ** The page fetcher *)

Section FetcherFacts.

Variable env : Env.

Lemma quiet_refl s : quiet s s.
Proof. repeat split. Qed.

Lemma quiet_trans s1 s2 s3 : quiet s1 s2 -> quiet s2 s3 -> quiet s1 s3.
Proof.
  intros (Ht & Hk & Hc & Hd & Hf) (Ht' & Hk' & Hc' & Hd' & Hf').
  repeat split; congruence.
Qed.

Lemma cache_response_quiet page payload data s s1 :
  cache_response env page payload data s = Ok s1 -> quiet s s1.
Proof.
  unfold cache_response. destruct (use_cache s).
  - destruct (get_cache_key _ _ _); cbn; [|discriminate].
    intros [= <-]. repeat split.
  - intros [= <-]. apply quiet_refl.
Qed.

Lemma attempts_quiet remaining page payload check s out s' :
  attempts env remaining page payload check s = (out, s') -> quiet s s'.
Proof.
  revert s. induction remaining as [|remaining IH]; intros s; cbn [attempts].
  - intros [= _ <-]. apply quiet_refl.
  - assert (Hretry : forall s1, quiet s s1 ->
              attempts env remaining page payload check s1 = (out, s') ->
              quiet s s').
    { intros s1 H1 H. eapply quiet_trans; [exact H1 | by eapply IH]. }
    assert (Hpost : quiet s (next_post s)) by repeat split.
    intros H. repeat case_match; simplify_eq;
      try (by eapply Hretry; [|eassumption]);
      try (eapply Hretry; [|eassumption];
           eapply quiet_trans; [exact Hpost|];
           by eapply cache_response_quiet).
    + eapply quiet_trans; [exact Hpost|]. by eapply cache_response_quiet.
    + exact Hpost.
Qed.

Lemma get_auth_token_trace s t s' :
  get_auth_token env s = (t, s') ->
  trace s' = trace s ++ [EvToken] /\ token s' = token s /\ same_files s s'
  /\ (t = None \/ token_ok t = true).
Proof.
  unfold get_auth_token. intros H.
  repeat case_match; simplify_eq; repeat split; auto.
Qed.

Lemma fetch_from_network_trace page max_retries payload check s out s' :
  fetch_from_network env page max_retries payload check s = (out, s') ->
  same_files s s'
  /\ (trace s' = trace s \/ trace s' = trace s ++ [EvToken])
  /\ (token_ok (token s) = true -> trace s' = trace s /\ token s' = token s).
Proof.
  unfold fetch_from_network. intros H.
  destruct (token_ok (token s)) eqn:Hok; cbn in H.
  - apply attempts_quiet in H as (Ht & Hk & Hf). auto.
  - destruct (get_auth_token env s) as [t s1] eqn:Hauth.
    apply get_auth_token_trace in Hauth as (Ht & _ & (Hc & Hd & Hf) & _).
    cbn in H. destruct (token_ok t); cbn in H.
    + apply attempts_quiet in H as (Ht' & _ & (Hc' & Hd' & Hf')). cbn in *.
      split; [repeat split; congruence|].
      split; [right; congruence | discriminate].
    + injection H as _ <-. cbn.
      split; [repeat split; assumption|].
      split; [right; assumption | discriminate].
Qed.

(** A call of [fetch_page_data] is logged once; it asks for a token only
    when it has none, and it leaves the durable files alone. *)
Lemma fetch_page_data_trace page max_retries check s out s' :
  fetch_page_data env page max_retries check s = (out, s') ->
  same_files s s'
  /\ (trace s' = trace s ++ [EvFetch page]
      \/ trace s' = trace s ++ [EvFetch page; EvToken])
  /\ (token_ok (token s) = true ->
      trace s' = trace s ++ [EvFetch page] /\ token s' = token s).
Proof.
  unfold fetch_page_data. intros H.
  assert (Hnet : forall s1 r s2,
    trace s1 = trace s ++ [EvFetch page] -> token s1 = token s ->
    same_files s s1 ->
    fetch_from_network env page max_retries (request_payload page) check s1
      = (r, s2) ->
    same_files s s2
    /\ (trace s2 = trace s ++ [EvFetch page]
        \/ trace s2 = trace s ++ [EvFetch page; EvToken])
    /\ (token_ok (token s) = true ->
        trace s2 = trace s ++ [EvFetch page] /\ token s2 = token s)).
  { intros s1 r s2 Ht Hk (Hc & Hd & Hf) Hfetch.
    apply fetch_from_network_trace in Hfetch
      as ((Hc' & Hd' & Hf') & Htrace & Hquiet).
    split; [repeat split; congruence|]. split.
    - destruct Htrace as [-> | ->]; [left; exact Ht|right].
      rewrite Ht, <- app_assoc. reflexivity.
    - intros Hok. rewrite <- Hk in Hok. destruct (Hquiet Hok).
      split; congruence. }
  cbn [use_cache log] in H.
  destruct (use_cache s).
  - destruct (get_cache_key _ _ _) as [cache_key|e].
    + cbn [cache_dir next_tick log] in H.
      destruct (truthy _).
      * assert (Hhit : same_files s (next_tick (log (EvFetch page) s))
                  /\ trace (next_tick (log (EvFetch page) s))
                     = trace s ++ [EvFetch page]
                  /\ token (next_tick (log (EvFetch page) s)) = token s)
          by (repeat split).
        destruct Hhit as (Hfiles & Ht & Hk).
        repeat case_match; simplify_eq; auto.
      * destruct (fetch_from_network _ _ _ _ _ _) as [r s2] eqn:Hfetch.
        injection H as _ <-. eapply Hnet; [..|exact Hfetch]; repeat split.
    + injection H as _ <-. repeat split; auto.
  - destruct (fetch_from_network _ _ _ _ _ _) as [r s2] eqn:Hfetch.
    injection H as _ <-. eapply Hnet; [..|exact Hfetch]; repeat split.
Qed.

(** Only a 401 or a 403 makes [fetch_page_data] ask for a new token, and it
    then hands back no data. *)
Lemma attempts_need_refresh remaining page payload check s result is_last s' :
  attempts env remaining page payload check s = ((result, true, is_last), s')
  -> result = JNull /\ is_last = JBool false.
Proof.
  revert s. induction remaining as [|remaining IH]; intros s; cbn [attempts].
  - intros [= _ _]. 
  - intros H. repeat case_match; simplify_eq; eauto.
Qed.

Lemma fetch_page_data_need_refresh page max_retries check s result is_last s' :
  fetch_page_data env page max_retries check s
  = (Ok (result, true, is_last), s') ->
  result = JNull /\ is_last = JBool false.
Proof.
  unfold fetch_page_data, fetch_from_network. intros H.
  repeat case_match; simplify_eq;
    match goal with
    | Hatt : attempts _ _ _ _ _ _ = _ |- _ =>
        by apply attempts_need_refresh in Hatt
    end.
Qed.

(** A page that the API answers with 200 and an empty item list is fetched
    with success: no data, no token wanted, and the last-page signal. *)
Lemma fetch_page_data_empty_items page s :
  use_cache s = false ->
  token_ok (token s) = true ->
  api env (posts s) = page_with [] ->
  fetch_page_data env page MAX_RETRIES true s
  = (Ok (JArr [], false, JBool true), next_post (log (EvFetch page) s)).
Proof.
  intros Hcache Hok Hapi. unfold fetch_page_data, fetch_from_network.
  cbn [use_cache token log]. rewrite Hcache, Hok. cbn [negb].
  change (Z.to_nat MAX_RETRIES) with 3%nat. cbn [attempts].
  change (posts (log (EvFetch page) s)) with (posts s).
  rewrite Hapi. unfold page_with, cache_response.
  cbn [use_cache next_post log]. rewrite Hcache.
  reflexivity.
Qed.

End FetcherFacts.

(** ** The orchestrator *)

Section OrchestratorFacts.

Variable env : Env.

Implicit Types (r : Run) (s : State) (detect retry_failed : bool).

Lemma fetched_app t1 t2 : fetched (t1 ++ t2) = fetched t1 ++ fetched t2.
Proof. apply omap_app. Qed.

Lemma checkpointed_app t1 t2 :
  checkpointed (t1 ++ t2) = checkpointed t1 ++ checkpointed t2.
Proof. apply omap_app. Qed.

(** What the loop body does once it holds a result: it goes on to the next
    page, with the page among the failed ones exactly when the result is
    falsy, and it logs at most a checkpoint. *)
Lemma handle_result_spec detect batch_size result is_last r s exit r' s' :
  handle_result detect batch_size result is_last r s = (exit, r', s') ->
  token s' = token s
  /\ (trace s' = trace s
      \/ trace s' = trace s ++ [EvCheckpoint (current_page r)])
  /\ match exit with
     | Continue =>
         current_page r' = current_page r + 1
         /\ failed_pages r'
            = (if truthy result then failed_pages r
               else failed_pages r ∪ {[current_page r]})
     | Break => False
     | Raised _ => r' = r /\ s' = s
     end.
Proof.
  unfold handle_result, bind. intros H.
  destruct (truthy result); cbn in H;
    repeat (case_match; cbn in H); simplify_eq; cbn; auto.
Qed.

(** One pass through the loop body fetches the current page once or, after
    a refreshed token, twice, and no other page. *)
Lemma scrape_page_spec detect batch_size r s exit r' s' :
  token_ok (token s) = true ->
  scrape_page env detect batch_size r s = (exit, r', s') ->
  exists new,
    trace s' = trace s ++ new
    /\ (fetched new = [current_page r]
        \/ fetched new = [current_page r; current_page r])
    /\ match exit with
       | Continue =>
           current_page r' = current_page r + 1
           /\ token_ok (token s') = true
       | Break | Raised _ => r' = r
       end.
Proof.
  intros Hok. unfold scrape_page.
  destruct (fetch_page_data env (current_page r) MAX_RETRIES detect s)
    as [out1 s1] eqn:Hfetch1.
  destruct (fetch_page_data_trace _ _ _ _ _ _ _ Hfetch1) as (_ & _ & Hq1).
  destruct (Hq1 Hok) as [Ht1 Hk1]. clear Hq1.
  destruct out1 as [[[result need_refresh] is_last]|e].
  2:{ intros [= <- <- <-]. exists [EvFetch (current_page r)]. auto. }
  assert (Hhandle : forall result is_last s3 new3,
    trace s3 = trace s ++ new3 ->
    token_ok (token s3) = true ->
    handle_result detect batch_size result is_last r s3 = (exit, r', s') ->
    exists new,
      trace s' = trace s ++ new
      /\ fetched new = fetched new3
      /\ match exit with
         | Continue =>
             current_page r' = current_page r + 1
             /\ token_ok (token s') = true
         | Break | Raised _ => r' = r
         end).
  { intros result3 is_last3 s3 new3 Ht3 Hok3 Hres.
    apply handle_result_spec in Hres as (Hk & Htrace & Hexit).
    destruct Htrace as [Htrace | Htrace].
    - exists new3. split; [congruence|]. split; [reflexivity|].
      destruct exit; try tauto. split; [tauto|congruence].
    - exists (new3 ++ [EvCheckpoint (current_page r)]).
      split; [rewrite Htrace, Ht3, <- app_assoc; reflexivity|].
      split; [rewrite fetched_app; cbn; apply app_nil_r|].
      destruct exit; try tauto. split; [tauto|congruence]. }
  destruct need_refresh.
  - destruct (get_auth_token env s1) as [t s2] eqn:Hauth.
    apply get_auth_token_trace in Hauth as (Ht2 & _ & _ & _).
    cbn [token set_token].
    destruct (token_ok t) eqn:Hokt; cbn [negb].
    + destruct (fetch_page_data env (current_page r) MAX_RETRIES detect
                  (set_token t s2)) as [out3 s3] eqn:Hfetch3.
      destruct (fetch_page_data_trace _ _ _ _ _ _ _ Hfetch3) as (_ & _ & Hq3).
      destruct (Hq3 Hokt) as [Ht3 Hk3]. clear Hq3. cbn in Ht3, Hk3.
      assert (Htrace3 : trace s3
                = trace s ++ [EvFetch (current_page r); EvToken;
                              EvFetch (current_page r)]).
      { rewrite Ht3, Ht2, Ht1, <- !app_assoc. reflexivity. }
      destruct out3 as [[[result3 need_refresh3] is_last3]|e].
      * intros Hres.
        destruct (Hhandle _ _ _ _ Htrace3 ltac:(congruence) Hres)
          as (new & Hnew & Hfetched & Hexit).
        exists new. split; [exact Hnew|]. split; [|exact Hexit].
        right. rewrite Hfetched. reflexivity.
      * intros [= <- <- <-]. eexists. split; [exact Htrace3|]. auto.
    + intros [= <- <- <-]. exists [EvFetch (current_page r); EvToken].
      split; [|auto]. cbn. rewrite Ht2, Ht1, <- app_assoc. reflexivity.
  - intros Hres.
    destruct (Hhandle _ _ _ _ Ht1 ltac:(congruence) Hres)
      as (new & Hnew & Hfetched & Hexit).
    exists new. split; [exact Hnew|]. split; [|exact Hexit].
    left. rewrite Hfetched. reflexivity.
Qed.

(** The loop fetches pages from the current one up to [end_page] at most,
    in order; when it ends, the last page fetched is the one before the
    current page, or the current page itself if the loop was left by
    [break]; and it needs no more fuel than there are pages ahead. *)
Lemma scrape_loop_spec fuel end_page detect batch_size r s exit r' s' :
  token_ok (token s) = true ->
  scrape_loop env fuel end_page detect batch_size r s = (exit, r', s') ->
  exists new,
    trace s' = trace s ++ new
    /\ Forall (fun p => current_page r <= p <= end_page) (fetched new)
    /\ (fetched new = [] \/ head (fetched new) = Some (current_page r))
    /\ match exit with
       | Exhausted =>
           (new = [] /\ r' = r /\ s' = s)
           \/ last (fetched new) = Some (current_page r' - 1)
       | Aborted => last (fetched new) = Some (current_page r')
       | Crashed _ => True
       | OutOfFuel => (fuel < Z.to_nat (end_page + 1 - current_page r))%nat
       end.
Proof.
  revert r s.
  induction fuel as [|fuel IH]; intros r s Hok; cbn [scrape_loop];
    destruct (Z.leb_spec (current_page r) end_page) as [Hle|Hgt];
    cbn [andb]; try destruct (reached_last_page r); cbn [negb];
    try (intros [= <- <- <-]; exists []; rewrite app_nil_r; cbn;
         split_and!; auto; lia).
  destruct (scrape_page env detect batch_size r s) as [[e r1] s1] eqn:Hpage.
  apply (scrape_page_spec _ _ _ _ _ _ _ Hok) in Hpage
    as (new1 & Ht1 & Hf1 & Hexit).
  assert (Hlast1 : last (fetched new1) = Some (current_page r))
    by (destruct Hf1 as [-> | ->]; reflexivity).
  assert (Hhead1 : forall l, head (fetched new1 ++ l) = Some (current_page r))
    by (destruct Hf1 as [-> | ->]; reflexivity).
  assert (Hall1 : Forall (fun p => current_page r <= p <= end_page)
                         (fetched new1)).
  { destruct Hf1 as [-> | ->]; repeat constructor; lia. }
  destruct e as [| |e].
  - destruct Hexit as [Hnext Hok1]. intros Hloop.
    apply (IH _ _ Hok1) in Hloop as (new2 & Ht2 & Hall2 & _ & Hexit2).
    exists (new1 ++ new2). rewrite fetched_app.
    split; [rewrite Ht2, Ht1, <- app_assoc; reflexivity|].
    split.
    { apply Forall_app. split; [exact Hall1|].
      eapply Forall_impl; [exact Hall2|]. cbn. intros p. lia. }
    split; [right; apply Hhead1|].
    destruct exit.
    + right. destruct Hexit2 as [(-> & -> & ->) | Hlast2].
      * cbn. rewrite app_nil_r, Hlast1. f_equal. lia.
      * rewrite last_app, Hlast2. reflexivity.
    + rewrite last_app, Hexit2. reflexivity.
    + exact I.
    + lia.
  - subst r1. intros [= <- <- <-]. exists new1.
    split; [exact Ht1|]. split; [exact Hall1|].
    split; [right; rewrite <- (app_nil_r (fetched new1)); apply Hhead1|].
    exact Hlast1.
  - intros [= <- <- <-]. exists new1.
    split; [exact Ht1|]. split; [exact Hall1|].
    split; [right; rewrite <- (app_nil_r (fetched new1)); apply Hhead1|].
    exact I.
Qed.

(** A loop that has a page to do fetches that page first. *)
Lemma scrape_loop_first_fetch
    fuel end_page detect batch_size r s exit r' s' new :
  token_ok (token s) = true ->
  current_page r <= end_page ->
  reached_last_page r = false ->
  scrape_loop env fuel end_page detect batch_size r s = (exit, r', s') ->
  exit <> OutOfFuel ->
  trace s' = trace s ++ new ->
  head (fetched new) = Some (current_page r).
Proof.
  intros Hok Hpage Hreached.
  destruct fuel as [|fuel]; cbn [scrape_loop];
    destruct (Z.leb_spec (current_page r) end_page); try lia;
    rewrite Hreached; cbn [andb negb].
  { intros [= <- _ _] Hfuel. by destruct Hfuel. }
  destruct (scrape_page env detect batch_size r s) as [[e r1] s1] eqn:Hstep.
  apply (scrape_page_spec _ _ _ _ _ _ _ Hok) in Hstep
    as (new1 & Ht1 & Hf1 & Hexit).
  assert (Hhead1 : forall l, head (fetched (new1 ++ l))
                             = Some (current_page r)).
  { intros l. rewrite fetched_app.
    destruct Hf1 as [-> | ->]; reflexivity. }
  destruct e as [| |e].
  - destruct Hexit as [_ Hok1]. intros Hloop _ Htrace.
    apply (scrape_loop_spec _ _ _ _ _ _ _ _ _ Hok1) in Hloop
      as (new2 & Ht2 & _).
    rewrite Ht2, Ht1, <- app_assoc in Htrace.
    apply app_inv_head in Htrace as <-. apply Hhead1.
  - intros [= _ _ <-] _ Htrace. rewrite Ht1 in Htrace.
    apply app_inv_head in Htrace as <-.
    rewrite <- (app_nil_r new1). apply Hhead1.
  - intros [= _ _ <-] _ Htrace. rewrite Ht1 in Htrace.
    apply app_inv_head in Htrace as <-.
    rewrite <- (app_nil_r new1). apply Hhead1.
Qed.

(** The statements after the loop write the files when the batch is not
    empty and do nothing else. *)
Lemma finish_spec end_page retry_failed r s v s' :
  finish end_page retry_failed r s = (v, s') ->
  v = (if retry_failed && bool_decide (failed_pages r <> ∅)
       then JArr (all_properties r) else JNull)
  /\ (current_batch r = [] -> s' = s)
  /\ (current_batch r <> [] ->
      trace s' = trace s ++ [EvCheckpoint (Z.min (current_page r - 1) end_page)]
      /\ checkpoint_file s' = Some (Z.min (current_page r - 1) end_page)
      /\ data_file s' = Some (all_properties r)
      /\ failed_pages_file s' = Some (failed_pages r)).
Proof.
  unfold finish. intros H.
  destruct (current_batch r) as [|x batch]; cbn in H;
    destruct (retry_failed && _); injection H as <- <-;
    split_and!; auto; congruence.
Qed.

(** A page that was fetched with an empty item list joins the failed
    pages, like a page that could not be fetched. *)
Lemma empty_items_join_failed_pages detect batch_size is_last r s :
  exists r' s',
    handle_result detect batch_size (JArr []) is_last r s = (Continue, r', s')
    /\ current_page r' = current_page r + 1
    /\ failed_pages r' = failed_pages r ∪ {[current_page r]}.
Proof.
  destruct (handle_result detect batch_size (JArr []) is_last r s)
    as [[exit r'] s'] eqn:H.
  pose proof (handle_result_spec _ _ _ _ _ _ _ _ _ H) as (_ & _ & Hexit).
  unfold handle_result in H. cbn [truthy] in H.
  destruct exit; [|contradiction|].
  - exists r', s'. destruct Hexit. auto.
  - repeat case_match; simplify_eq.
Qed.

(** C7.  A run that finds a checkpoint at or past the end page returns
    the stored records at once: nothing is fetched, no token is asked for
    and no file is written.  Any other run returns or raises, and the pages
    it fetches lie between [max(last_page + 1, start_page)] and the end
    page; when the run gets its token and that page is not past the end
    page, the run does fetch, and the first page it fetches is
    [max(last_page + 1, start_page)]; it fetches nothing only without a
    token or with that page past the end page.  So no page at or below the
    checkpoint is fetched again. *)
Theorem resume_after_checkpoint
    start_page end_page batch_size retry_failed detect s :
  (resolve_end_page env end_page detect <= load_checkpoint s ->
   scrape_properties env start_page end_page batch_size retry_failed detect s
   = Some (Ok (JArr (load_properties s)), s))
  /\ (load_checkpoint s < resolve_end_page env end_page detect ->
      exists result s' new,
        scrape_properties env start_page end_page batch_size retry_failed
                          detect s = Some (result, s')
        /\ trace s' = trace s ++ new
        /\ Forall (fun p => Z.max (load_checkpoint s + 1) start_page <= p
                            /\ p <= resolve_end_page env end_page detect
                            /\ load_checkpoint s < p)
                  (fetched new)
        /\ (token_ok (get_auth_token env s).1 = true ->
            Z.max (load_checkpoint s + 1) start_page
            <= resolve_end_page env end_page detect ->
            head (fetched new)
            = Some (Z.max (load_checkpoint s + 1) start_page))
        /\ (token_ok (get_auth_token env s).1 = false
            \/ resolve_end_page env end_page detect
               < Z.max (load_checkpoint s + 1) start_page ->
            fetched new = [])).
Proof.
  unfold scrape_properties, scrape_properties_fuel, pages_ahead.
  set (final_page := resolve_end_page env end_page detect).
  destruct (Z.leb_spec final_page (load_checkpoint s)) as [Hdone|Hmore].
  { split; [reflexivity | lia]. }
  split; [lia|]. intros _.
  destruct (get_auth_token env s) as [t s1] eqn:Hauth.
  apply get_auth_token_trace in Hauth as (Ht1 & _ & _ & _).
  cbn [token set_token fst].
  destruct (token_ok t) eqn:Hok; cbn [negb].
  2:{ eexists _, _, [EvToken]. split; [reflexivity|]. cbn.
      split; [exact Ht1|]. split; [constructor|].
      split; [discriminate | reflexivity]. }
  destruct (scrape_loop env _ final_page detect batch_size
              (initial_run start_page s) (set_token t s1))
    as [[exit r] s2] eqn:Hloop.
  pose proof Hloop as Hrun.
  apply scrape_loop_spec in Hloop as (new & Ht2 & Hall & _ & Hexit);
    [|exact Hok].
  assert (Hfirst :
    Z.max (load_checkpoint s + 1) start_page <= final_page ->
    exit <> OutOfFuel ->
    head (fetched new) = Some (Z.max (load_checkpoint s + 1) start_page)).
  { intros Hpage Hfuel.
    exact (scrape_loop_first_fetch _ _ _ _ (initial_run start_page s)
             (set_token t s1) exit r s2 new Hok Hpage eq_refl Hrun Hfuel
             Ht2). }
  cbn [trace set_token current_page initial_run] in Ht2, Hall, Hexit.
  assert (Hpages :
    Forall (fun p => Z.max (load_checkpoint s + 1) start_page <= p
                     /\ p <= final_page /\ load_checkpoint s < p)
           (fetched new)).
  { eapply Forall_impl; [exact Hall|]. cbn. intros p. lia. }
  assert (Hnone :
    true = false \/ final_page < Z.max (load_checkpoint s + 1) start_page ->
    fetched new = []).
  { intros [Hfalse | Hpast]; [discriminate|].
    destruct (fetched new) as [|p l]; [reflexivity|].
    rewrite Forall_cons in Hall. lia. }
  assert (Htrace2 : trace s2 = trace s ++ EvToken :: new).
  { rewrite Ht2, Ht1, <- app_assoc. reflexivity. }
  assert (Hfinish : forall v s',
    finish final_page retry_failed r s2 = (v, s') ->
    exists new', trace s' = trace s ++ new' /\ fetched new' = fetched new).
  { intros v s' (_ & Hempty & Hbatch)%finish_spec.
    destruct (current_batch r) as [|x batch].
    - rewrite (Hempty eq_refl). eexists. split; [exact Htrace2|reflexivity].
    - destruct (Hbatch ltac:(discriminate)) as (Ht3 & _).
      eexists. split; [rewrite Ht3, Htrace2, <- app_assoc; reflexivity|].
      cbn. change (EvToken :: ?l) with ([EvToken] ++ l).
      rewrite !fetched_app. cbn. apply app_nil_r. }
  destruct exit as [| |e|].
  - destruct (finish final_page retry_failed r s2) as [v s'] eqn:Hfin.
    destruct (Hfinish _ _ eq_refl) as (new' & Hnew' & Hfetched).
    eexists _, _, new'. rewrite Hfetched.
    split; [reflexivity|]. split; [exact Hnew'|]. split; [exact Hpages|].
    split; [|exact Hnone].
    intros _ Hpage. apply Hfirst; [exact Hpage | discriminate].
  - destruct (finish final_page retry_failed r s2) as [v s'] eqn:Hfin.
    destruct (Hfinish _ _ eq_refl) as (new' & Hnew' & Hfetched).
    eexists _, _, new'. rewrite Hfetched.
    split; [reflexivity|]. split; [exact Hnew'|]. split; [exact Hpages|].
    split; [|exact Hnone].
    intros _ Hpage. apply Hfirst; [exact Hpage | discriminate].
  - eexists _, _, (EvToken :: new).
    split; [reflexivity|]. split; [exact Htrace2|].
    change (fetched (EvToken :: new)) with (fetched new).
    split; [exact Hpages|]. split; [|exact Hnone].
    intros _ Hpage. apply Hfirst; [exact Hpage | discriminate].
  - lia.
Qed.

(** C3, as the code has it.  Take a run that has entered the loop with an
    empty batch and has left it, by the loop condition or by [break].  If
    the batch is not empty then, the final save writes the checkpoint
    [current_page - 1]: that is the last page fetched when the loop ended by
    its condition, and the page before the last one fetched when it ended
    by [break].  If the batch is empty, the statements after the loop write
    nothing. *)
Theorem final_save_records_last_page
    fuel end_page detect batch_size retry_failed r0 s exit r s1 v s' :
  token_ok (token s) = true ->
  current_batch r0 = [] ->
  scrape_loop env fuel end_page detect batch_size r0 s = (exit, r, s1) ->
  exit = Exhausted \/ exit = Aborted ->
  finish end_page retry_failed r s1 = (v, s') ->
  (current_batch r <> [] ->
   checkpoint_file s' = Some (current_page r - 1)
   /\ last (checkpointed (trace s')) = Some (current_page r - 1)
   /\ (exit = Exhausted ->
       last (fetched (trace s')) = Some (current_page r - 1))
   /\ (exit = Aborted -> last (fetched (trace s')) = Some (current_page r)))
  /\ (current_batch r = [] -> s' = s1).
Proof.
  intros Hok Hbatch0 Hloop Hexit Hfin.
  apply finish_spec in Hfin as (_ & Hempty & Hbatch).
  split; [|exact Hempty]. intros Hne.
  destruct (Hbatch Hne) as (Ht & Hfile & _). clear Hbatch.
  apply scrape_loop_spec in Hloop as (new & Hnew & Hall & _ & Hlast);
    [|exact Hok].
  assert (Hfetched : last (fetched (trace s')) = last (fetched new)
                     \/ fetched new = []).
  { rewrite Ht, Hnew, !fetched_app. cbn. rewrite app_nil_r, last_app.
    destruct (last (fetched new)) eqn:Hl; [left; reflexivity|].
    right. by apply last_None. }
  assert (Hmin : forall p, last (fetched new) = Some p -> p <= end_page).
  { intros p Hp%last_Some_elem_of.
    rewrite Forall_forall in Hall. apply Hall in Hp. lia. }
  assert (Hpage : Z.min (current_page r - 1) end_page = current_page r - 1
                  /\ (exit = Exhausted ->
                      last (fetched new) = Some (current_page r - 1))
                  /\ (exit = Aborted ->
                      last (fetched new) = Some (current_page r))).
  { destruct Hexit as [-> | ->].
    - destruct Hlast as [(_ & -> & _) | Hlast]; [congruence|].
      pose proof (Hmin _ Hlast). split; [lia|]. split; [auto|discriminate].
    - pose proof (Hmin _ Hlast). split; [lia|]. split; [discriminate|auto]. }
  destruct Hpage as (Hmin' & Hexh & Habo). rewrite Hmin' in Ht, Hfile.
  split; [exact Hfile|]. split.
  { rewrite Ht, checkpointed_app. cbn. apply last_snoc. }
  destruct Hfetched as [Heq | Hnil].
  - rewrite Heq. auto.
  - rewrite Hnil in Hexh, Habo. cbn in Hexh, Habo.
    split; intros He; [specialize (Hexh He)|specialize (Habo He)];
      discriminate.
Qed.

(** C4, as the code has it.  The loop is at a page whose fetch asks for a
    new token.  The token is asked for once.  If none comes, the loop ends
    by [break]: nothing more is fetched.  If one comes, the page is fetched
    once more and the answer is handled whatever it says about the token;
    when that second fetch asks for a new token again, the page joins the
    failed pages and the loop goes on with the next page. *)
Theorem auth_expired_is_retried_once
    fuel end_page detect batch_size r s result is_last s1 t s2 :
  token_ok (token s) = true ->
  current_page r <= end_page ->
  reached_last_page r = false ->
  fetch_page_data env (current_page r) MAX_RETRIES detect s
  = (Ok (result, true, is_last), s1) ->
  get_auth_token env s1 = (t, s2) ->
  (token_ok t = false ->
   scrape_loop env (S fuel) end_page detect batch_size r s
   = (Aborted, r, set_token t s2)
   /\ trace (set_token t s2)
      = trace s ++ [EvFetch (current_page r); EvToken])
  /\ (token_ok t = true ->
      forall out s3,
        fetch_page_data env (current_page r) MAX_RETRIES detect
                        (set_token t s2) = (out, s3) ->
        trace s3 = trace s ++ [EvFetch (current_page r); EvToken;
                               EvFetch (current_page r)]
        /\ scrape_page env detect batch_size r s
           = match out with
             | Raise e => (Raised e, r, s3)
             | Ok (result', _, is_last') =>
                 handle_result detect batch_size result' is_last' r s3
             end)
  /\ (token_ok t = true ->
      forall result' is_last' s3,
        fetch_page_data env (current_page r) MAX_RETRIES detect
                        (set_token t s2)
        = (Ok (result', true, is_last'), s3) ->
        exists r' s',
          scrape_loop env (S fuel) end_page detect batch_size r s
          = scrape_loop env fuel end_page detect batch_size r' s'
          /\ current_page r' = current_page r + 1
          /\ reached_last_page r' = false
          /\ failed_pages r' = failed_pages r ∪ {[current_page r]}
          /\ (trace s' = trace s ++ [EvFetch (current_page r); EvToken;
                                     EvFetch (current_page r)]
              \/ trace s' = trace s ++ [EvFetch (current_page r); EvToken;
                                        EvFetch (current_page r);
                                        EvCheckpoint (current_page r)])).
Proof.
  intros Hok Hle Hreached Hfetch1 Hauth.
  destruct (fetch_page_data_trace _ _ _ _ _ _ _ Hfetch1) as (_ & _ & Hq1).
  destruct (Hq1 Hok) as [Ht1 _]. clear Hq1.
  destruct (get_auth_token_trace _ _ _ _ Hauth) as (Ht2 & _ & _ & _).
  assert (Htrace2 : trace (set_token t s2)
                    = trace s ++ [EvFetch (current_page r); EvToken]).
  { cbn. rewrite Ht2, Ht1, <- app_assoc. reflexivity. }
  assert (Hcond : (current_page r <=? end_page)
                  && negb (reached_last_page r) = true).
  { rewrite Hreached. destruct (Z.leb_spec (current_page r) end_page);
      [reflexivity | lia]. }
  assert (Htrace3 : forall out s3,
    token_ok t = true ->
    fetch_page_data env (current_page r) MAX_RETRIES detect (set_token t s2)
    = (out, s3) ->
    trace s3 = trace s ++ [EvFetch (current_page r); EvToken;
                           EvFetch (current_page r)]).
  { intros out s3 Hgood Hfetch3.
    destruct (fetch_page_data_trace _ _ _ _ _ _ _ Hfetch3) as (_ & _ & Hq3).
    destruct (Hq3 Hgood) as [Ht3 _].
    rewrite Htrace2, <- app_assoc in Ht3. exact Ht3. }
  split; [|split].
  - intros Hbad. split; [|exact Htrace2].
    cbn [scrape_loop]. rewrite Hcond. unfold scrape_page.
    rewrite Hfetch1, Hauth. cbn [token set_token]. rewrite Hbad.
    reflexivity.
  - intros Hgood out s3 Hfetch3. split; [by eapply Htrace3|].
    unfold scrape_page.
    rewrite Hfetch1, Hauth. cbn [token set_token]. rewrite Hgood.
    cbn [negb]. rewrite Hfetch3.
    destruct out as [[[result' need_refresh'] is_last']|e]; reflexivity.
  - intros Hgood result' is_last' s3 Hfetch3.
    destruct (fetch_page_data_need_refresh _ _ _ _ _ _ _ _ Hfetch3)
      as [-> ->].
    pose proof (Htrace3 _ _ Hgood Hfetch3) as Ht3.
    cbn [scrape_loop]. rewrite Hcond. unfold scrape_page.
    rewrite Hfetch1, Hauth. cbn [token set_token]. rewrite Hgood.
    cbn [negb]. rewrite Hfetch3.
    unfold handle_result. cbn [truthy bind].
    destruct ((batch_size <=? Z.of_nat (length (current_batch r)))
              || (current_page r `mod` CHECKPOINT_INTERVAL =? 0)).
    + eexists _, _. split; [reflexivity|]. cbn.
      split; [reflexivity|]. split; [exact Hreached|].
      split; [reflexivity|]. right. rewrite Ht3, <- app_assoc. reflexivity.
    + eexists _, _. split; [reflexivity|]. cbn.
      split; [reflexivity|]. split; [exact Hreached|].
      split; [reflexivity|]. left. exact Ht3.
Qed.

(** [scrape_properties] in terms of its loop and of the statements after
    it, for a run that gets its token. *)
Lemma scrape_properties_unfold
    start_page end_page batch_size retry_failed detect s t s1 exit r s2 :
  load_checkpoint s < resolve_end_page env end_page detect ->
  get_auth_token env s = (t, s1) ->
  token_ok t = true ->
  scrape_loop env
    (pages_ahead start_page (resolve_end_page env end_page detect) s)
    (resolve_end_page env end_page detect) detect batch_size
    (initial_run start_page s) (set_token t s1) = (exit, r, s2) ->
  scrape_properties env start_page end_page batch_size retry_failed detect s
  = match exit with
    | Exhausted | Aborted =>
        Some (Ok (finish (resolve_end_page env end_page detect)
                         retry_failed r s2).1,
              (finish (resolve_end_page env end_page detect)
                      retry_failed r s2).2)
    | Crashed e => Some (Raise e, s2)
    | OutOfFuel => None
    end.
Proof.
  intros Hmore Hauth Hok Hloop.
  unfold scrape_properties, scrape_properties_fuel.
  destruct (Z.leb_spec (resolve_end_page env end_page detect)
                       (load_checkpoint s)); [lia|].
  rewrite Hauth. cbn [token set_token]. rewrite Hok. cbn [negb].
  rewrite Hloop.
  destruct exit; try reflexivity;
    destruct (finish _ retry_failed r s2); reflexivity.
Qed.

(** A run whose loop ends without a failed page returns [None]. *)
Lemma run_without_failed_page_returns_none
    start_page end_page batch_size retry_failed detect s t s1 exit r s2 :
  load_checkpoint s < resolve_end_page env end_page detect ->
  get_auth_token env s = (t, s1) ->
  token_ok t = true ->
  scrape_loop env
    (pages_ahead start_page (resolve_end_page env end_page detect) s)
    (resolve_end_page env end_page detect) detect batch_size
    (initial_run start_page s) (set_token t s1) = (exit, r, s2) ->
  exit = Exhausted \/ exit = Aborted ->
  failed_pages r = ∅ ->
  exists s',
    scrape_properties env start_page end_page batch_size retry_failed
                      detect s = Some (Ok JNull, s').
Proof.
  intros Hmore Hauth Hok Hloop Hexit Hfailed.
  rewrite (scrape_properties_unfold _ _ _ _ _ _ _ _ _ _ _
             Hmore Hauth Hok Hloop).
  destruct (finish (resolve_end_page env end_page detect) retry_failed r s2)
    as [v s'] eqn:Hfin.
  apply finish_spec in Hfin as (Hv & _).
  rewrite Hfailed in Hv.
  rewrite bool_decide_false, andb_false_r in Hv by (intros H; by apply H).
  subst v. destruct Hexit as [-> | ->]; eexists; reflexivity.
Qed.

(** [scrape_properties] ends: the fuel that the model gives the loop is
    enough. *)
Lemma scrape_properties_total
    start_page end_page batch_size retry_failed detect s :
  exists result s',
    scrape_properties env start_page end_page batch_size retry_failed
                      detect s = Some (result, s').
Proof.
  unfold scrape_properties, scrape_properties_fuel, pages_ahead.
  destruct (_ <=? _); [eexists _, _; reflexivity|].
  destruct (get_auth_token env s) as [t s1].
  cbn [token set_token].
  destruct (token_ok t) eqn:Hok; cbn [negb]; [|eexists _, _; reflexivity].
  destruct (scrape_loop env _ _ detect batch_size
              (initial_run start_page s) (set_token t s1))
    as [[exit r] s2] eqn:Hloop.
  apply scrape_loop_spec in Hloop as (new & _ & _ & _ & Hexit);
    [|exact Hok].
  destruct exit; try (destruct (finish _ retry_failed r s2));
    try (eexists _, _; reflexivity).
  cbn [current_page initial_run] in Hexit. lia.
Qed.

End OrchestratorFacts.

(** ** Runs against scripted environments *)

Section Scenarios.

(** A witness of C7: with a checkpoint at page 5, a run to page 5 returns
    at once and a run to page 7 fetches page 6 first and nothing below
    it. *)
Lemma resume_after_checkpoint_witness :
  scrape_properties (env_of [] []) 1 (Some 5) 100 true true
                    (resumed 5 [JNum 1])
  = Some (Ok (JArr [JNum 1]), resumed 5 [JNum 1])
  /\ exists result s' new,
       scrape_properties (env_of [] []) 1 (Some 7) 100 true true
                         (resumed 5 [JNum 1]) = Some (result, s')
       /\ trace s' = new
       /\ Forall (fun p => 6 <= p /\ p <= 7 /\ 5 < p) (fetched new)
       /\ head (fetched new) = Some 6.
Proof.
  split.
  - apply (proj1 (resume_after_checkpoint (env_of [] []) 1 (Some 5) 100
                    true true (resumed 5 [JNum 1]))).
    cbn. lia.
  - destruct (proj2 (resume_after_checkpoint (env_of [] []) 1 (Some 7) 100
                       true true (resumed 5 [JNum 1])))
      as (result & s' & new & Hrun & Htrace & Hpages & Hfirst & _).
    + cbn. lia.
    + exists result, s', new.
      split; [exact Hrun|]. split; [exact Htrace|]. split; [exact Hpages|].
      apply Hfirst; [reflexivity | cbn; lia].
Defined.

(** A witness of C3: one page with one record; the loop ends with that
    record in the batch and the final save writes checkpoint 1. *)
Lemma final_save_records_last_page_witness :
  let E := env_of [page_with [listing 1]] [] in
  let s := set_token (Some "t") (fresh false) in
  let out := scrape_loop E 1 1 true 100 (initial_run 1 s) s in
  let fin := finish 1 true out.1.2 out.2 in
  checkpoint_file fin.2 = Some 1
  /\ last (fetched (trace fin.2)) = Some 1.
Proof.
  intros E s out fin.
  destruct (final_save_records_last_page E 1 1 true 100 true
              (initial_run 1 s) s Exhausted out.1.2 out.2 fin.1 fin.2)
    as [Hbatch _].
  - reflexivity.
  - reflexivity.
  - vm_compute. reflexivity.
  - left. reflexivity.
  - vm_compute. reflexivity.
  - destruct Hbatch as (Hfile & _ & Hlast & _).
    + vm_compute. discriminate.
    + split; [exact Hfile | exact (Hlast eq_refl)].
Defined.

(** C3 fails as stated.  With a batch size of 1 the record of page 1 is
    saved at page 1 and the batch is cleared; page 2 cannot be fetched; the
    run ends with an empty batch and writes nothing more: the last page
    attempted is 2 and the checkpoint says 1. *)
Lemma final_checkpoint_lags_behind :
  exists result s',
    scrape_properties (env_of [page_with [listing 1]] []) 1 (Some 2) 1
                      true true (fresh false) = Some (result, s')
    /\ last (fetched (trace s')) = Some 2
    /\ checkpointed (trace s') = [1]
    /\ checkpoint_file s' = Some 1.
Proof.
  eexists _, _. split; [vm_compute; reflexivity|].
  vm_compute. auto.
Qed.

(** A witness of C4: page 1 is answered 401 twice.  With a second token
    the page is fetched again, joins the failed pages and the loop goes on
    with page 2; without one the loop ends. *)
Lemma auth_expired_is_retried_once_witness :
  let E := env_of [Response 401 None; Response 401 None] [] in
  let E' := env_of [Response 401 None] [Cookies None] in
  let s := set_token (Some "t") (fresh false) in
  let r := initial_run 1 s in
  (exists r' s',
      scrape_loop E 1 2 true 100 r s = scrape_loop E 0 2 true 100 r' s'
      /\ current_page r' = 2
      /\ failed_pages r' = ∅ ∪ {[1]})
  /\ scrape_loop E' 1 2 true 100 r s
     = (Aborted, r,
        set_token None
          (get_auth_token E' (fetch_page_data E' 1 MAX_RETRIES true s).2).2).
Proof.
  intros E E' s r. split.
  - destruct (proj2 (proj2 (auth_expired_is_retried_once E 0 2 true 100 r s
                       JNull (JBool false)
                       (fetch_page_data E 1 MAX_RETRIES true s).2
                       (Some "t")
                       (get_auth_token E
                          (fetch_page_data E 1 MAX_RETRIES true s).2).2
                       eq_refl ltac:(vm_compute; discriminate) eq_refl
                       ltac:(vm_compute; reflexivity)
                       ltac:(vm_compute; reflexivity)))
                    eq_refl JNull (JBool false)
                    (fetch_page_data E 1 MAX_RETRIES true
                       (set_token (Some "t")
                          (get_auth_token E
                             (fetch_page_data E 1 MAX_RETRIES true s).2).2)).2
                    ltac:(vm_compute; reflexivity))
      as (r' & s' & Hloop & Hpage & _ & Hfailed & _).
    exists r', s'. split; [exact Hloop|]. split; [exact Hpage|exact Hfailed].
  - apply (proj1 (auth_expired_is_retried_once E' 0 2 true 100 r s
                    JNull (JBool false)
                    (fetch_page_data E' 1 MAX_RETRIES true s).2
                    None
                    (get_auth_token E'
                       (fetch_page_data E' 1 MAX_RETRIES true s).2).2
                    eq_refl ltac:(vm_compute; discriminate) eq_refl
                    ltac:(vm_compute; reflexivity)
                    ltac:(vm_compute; reflexivity))
                 eq_refl).
Defined.

(** C4 fails as stated.  Both fetches of page 1 are answered 401 and a
    token is there each time: the run is not aborted, page 2 is fetched. *)
Lemma second_auth_expired_goes_on :
  exists result s',
    scrape_properties
      (env_of [Response 401 None; Response 401 None; page_with [listing 1]] [])
      1 (Some 2) 100 true true (fresh false) = Some (result, s')
    /\ trace s' = [EvToken; EvFetch 1; EvToken; EvFetch 1; EvFetch 2;
                   EvCheckpoint 2]
    /\ failed_pages_file s' = Some {[1]}.
Proof.
  eexists _, _. split; [vm_compute; reflexivity|].
  vm_compute. auto.
Qed.

(** C5, at the failing input.  Page 40 has a record and page 41 is answered
    200 with an empty item list: the run stops there, as it should, and
    writes page 41 into the failed pages. *)
Theorem empty_page_is_recorded_as_failed :
  exists result s',
    scrape_properties (env_of [page_with [listing 1]; page_with []] [])
                      40 (Some 45) 100 true true (fresh false)
    = Some (result, s')
    /\ fetched (trace s') = [40; 41]
    /\ failed_pages_file s' = Some {[41]}.
Proof.
  eexists _, _. split; [vm_compute; reflexivity|].
  vm_compute. auto.
Qed.

(** C1, at the failing inputs.  A run of one page that is fetched without
    any failure returns [None], and so does a run whose token cannot be
    refreshed at page 2. *)
Theorem scrape_properties_returns_none :
  (exists s',
      scrape_properties (env_of [page_with [listing 1]] []) 1 (Some 1) 100
                        true true (fresh false) = Some (Ok JNull, s')
      /\ trace s' = [EvToken; EvFetch 1; EvCheckpoint 1]
      /\ data_file s' = Some [listing 1])
  /\ (exists s',
         scrape_properties
           (env_of [page_with [listing 1]; Response 401 None]
                   [Cookies (Some "t"); Cookies None])
           1 (Some 3) 100 true true (fresh false) = Some (Ok JNull, s')
         /\ trace s' = [EvToken; EvFetch 1; EvFetch 2; EvToken;
                        EvCheckpoint 1]).
Proof.
  split; eexists; (split; [vm_compute; reflexivity|]); vm_compute; auto.
Qed.

End Scenarios.

(** * More of the code *)

(** ** The loop of the orchestrator, pass by pass *)

Section LoopFacts.

Variable env : Env.

Implicit Types (r : Run) (s : State) (detect : bool).

(** What the part of the body after the fetch changes. *)
Lemma handle_result_effects detect batch_size result is_last r s exit r' s' :
  handle_result detect batch_size result is_last r s = (exit, r', s') ->
  match exit with
  | Continue =>
      current_page r' = current_page r + 1
      /\ token s' = token s
      /\ (reached_last_page r = true \/ truthy is_last = true ->
          reached_last_page r' = true)
      /\ (exists items,
             all_properties r' = all_properties r ++ items
             /\ (current_batch r' = []
                 \/ current_batch r' = current_batch r ++ items))
      /\ failed_pages r'
         = (if truthy result then failed_pages r
            else failed_pages r ∪ {[current_page r]})
      /\ ((trace s' = trace s /\ same_files s s')
          \/ (trace s' = trace s ++ [EvCheckpoint (current_page r)]
              /\ current_batch r' = []
              /\ checkpoint_file s' = Some (current_page r)
              /\ data_file s' = Some (all_properties r')
              /\ failed_pages_file s' = Some (failed_pages r')))
  | Break => False
  | Raised _ => r' = r /\ s' = s
  end.
Proof.
  unfold handle_result, bind. intros H.
  destruct (truthy result); cbn in H;
    repeat (case_match; cbn in H); simplify_eq; cbn;
    split_and!; auto;
    try (by intros [? | ?]; congruence);
    try (by eexists; split; [reflexivity | auto]);
    try (by exists []; rewrite !app_nil_r; auto);
    try (by left; repeat split);
    try (by right; repeat split).
Qed.

(** What one pass through the loop body changes. *)
Lemma scrape_page_effects detect batch_size r s exit r' s' :
  token_ok (token s) = true ->
  scrape_page env detect batch_size r s = (exit, r', s') ->
  exists new,
    trace s' = trace s ++ new
    /\ (fetched new = [current_page r]
        \/ fetched new = [current_page r; current_page r])
    /\ match exit with
       | Continue =>
           current_page r' = current_page r + 1
           /\ token_ok (token s') = true
           /\ (reached_last_page r = true -> reached_last_page r' = true)
           /\ (exists items,
                  all_properties r' = all_properties r ++ items
                  /\ (current_batch r' = []
                      \/ current_batch r' = current_batch r ++ items))
           /\ failed_pages r ⊆ failed_pages r'
           /\ failed_pages r' ⊆ failed_pages r ∪ {[current_page r]}
           /\ ((checkpointed new = [] /\ same_files s s')
               \/ (checkpointed new = [current_page r]
                   /\ current_batch r' = []
                   /\ checkpoint_file s' = Some (current_page r)
                   /\ data_file s' = Some (all_properties r')
                   /\ failed_pages_file s' = Some (failed_pages r')))
       | Break | Raised _ =>
           r' = r /\ checkpointed new = [] /\ same_files s s'
       end.
Proof.
  intros Hok. unfold scrape_page.
  destruct (fetch_page_data env (current_page r) MAX_RETRIES detect s)
    as [out1 s1] eqn:Hfetch1.
  destruct (fetch_page_data_trace _ _ _ _ _ _ _ Hfetch1) as (Hf1 & _ & Hq1).
  destruct (Hq1 Hok) as [Ht1 Hk1]. clear Hq1.
  destruct out1 as [[[result need_refresh] is_last]|e].
  2:{ intros [= <- <- <-]. exists [EvFetch (current_page r)]. auto. }
  assert (Hhandle : forall result is_last s3 new3,
    trace s3 = trace s ++ new3 ->
    checkpointed new3 = [] ->
    same_files s s3 ->
    token_ok (token s3) = true ->
    handle_result detect batch_size result is_last r s3 = (exit, r', s') ->
    exists new,
      trace s' = trace s ++ new
      /\ fetched new = fetched new3
      /\ match exit with
         | Continue =>
             current_page r' = current_page r + 1
             /\ token_ok (token s') = true
             /\ (reached_last_page r = true -> reached_last_page r' = true)
             /\ (exists items,
                    all_properties r' = all_properties r ++ items
                    /\ (current_batch r' = []
                        \/ current_batch r' = current_batch r ++ items))
             /\ failed_pages r ⊆ failed_pages r'
             /\ failed_pages r' ⊆ failed_pages r ∪ {[current_page r]}
             /\ ((checkpointed new = [] /\ same_files s s')
                 \/ (checkpointed new = [current_page r]
                     /\ current_batch r' = []
                     /\ checkpoint_file s' = Some (current_page r)
                     /\ data_file s' = Some (all_properties r')
                     /\ failed_pages_file s' = Some (failed_pages r')))
         | Break | Raised _ =>
             r' = r /\ checkpointed new = [] /\ same_files s s'
         end).
  { intros result3 is_last3 s3 new3 Ht3 Hc3 Hf3 Hok3 Hres.
    apply handle_result_effects in Hres.
    destruct exit as [| |e]; [|contradiction|].
    - destruct Hres as (Hpage & Hk & Hreach & Hitems & Hfailed & Hsave).
      assert (Hsub : failed_pages r ⊆ failed_pages r'
                     /\ failed_pages r' ⊆ failed_pages r ∪ {[current_page r]}).
      { rewrite Hfailed.
        destruct (truthy result3); split;
          (reflexivity || apply union_subseteq_l). }
      destruct Hsave as [[Htrace Hfiles] | (Htrace & Hsaved)].
      + exists new3. split; [congruence|]. split; [reflexivity|].
        split_and!; try tauto; [congruence|]. left. split; [exact Hc3|].
        destruct Hf3 as (? & ? & ?), Hfiles as (? & ? & ?).
        repeat split; congruence.
      + exists (new3 ++ [EvCheckpoint (current_page r)]).
        split; [rewrite Htrace, Ht3, <- app_assoc; reflexivity|].
        split; [rewrite fetched_app; cbn; apply app_nil_r|].
        split_and!; try tauto; [congruence|]. right.
        rewrite checkpointed_app, Hc3. tauto.
    - destruct Hres as [-> ->]. exists new3. auto. }
  destruct need_refresh.
  - destruct (get_auth_token env s1) as [t s2] eqn:Hauth.
    apply get_auth_token_trace in Hauth as (Ht2 & _ & Hf2 & _).
    assert (Hfiles2 : same_files s (set_token t s2)).
    { destruct Hf1 as (? & ? & ?), Hf2 as (? & ? & ?).
      repeat split; cbn; congruence. }
    cbn [token set_token].
    destruct (token_ok t) eqn:Hokt; cbn [negb].
    + destruct (fetch_page_data env (current_page r) MAX_RETRIES detect
                  (set_token t s2)) as [out3 s3] eqn:Hfetch3.
      destruct (fetch_page_data_trace _ _ _ _ _ _ _ Hfetch3)
        as (Hf3 & _ & Hq3).
      destruct (Hq3 Hokt) as [Ht3 Hk3]. clear Hq3. cbn in Ht3, Hk3.
      assert (Htrace3 : trace s3
                = trace s ++ [EvFetch (current_page r); EvToken;
                              EvFetch (current_page r)]).
      { rewrite Ht3, Ht2, Ht1, <- !app_assoc. reflexivity. }
      assert (Hfiles3 : same_files s s3).
      { destruct Hfiles2 as (? & ? & ?), Hf3 as (? & ? & ?).
        repeat split; congruence. }
      destruct out3 as [[[result3 need_refresh3] is_last3]|e].
      * intros Hres.
        destruct (Hhandle _ _ _ _ Htrace3 eq_refl Hfiles3
                    ltac:(congruence) Hres)
          as (new & Hnew & Hfetched & Hexit).
        exists new. split; [exact Hnew|]. split; [|exact Hexit].
        right. rewrite Hfetched. reflexivity.
      * intros [= <- <- <-]. eexists. split; [exact Htrace3|]. auto.
    + intros [= <- <- <-]. exists [EvFetch (current_page r); EvToken].
      split; [cbn; rewrite Ht2, Ht1, <- app_assoc; reflexivity|]. auto.
  - intros Hres.
    destruct (Hhandle _ _ _ _ Ht1 eq_refl Hf1 ltac:(congruence) Hres)
      as (new & Hnew & Hfetched & Hexit).
    exists new. split; [exact Hnew|]. split; [|exact Hexit].
    left. rewrite Hfetched. reflexivity.
Qed.

(** Induction over the passes of the loop. *)
Lemma scrape_loop_rec end_page detect batch_size
    (P : Run -> State -> loop_exit -> Run -> State -> Prop) :
  (forall r s,
      (current_page r <=? end_page) && negb (reached_last_page r) = false ->
      P r s Exhausted r s) ->
  (forall r s,
      (current_page r <=? end_page) && negb (reached_last_page r) = true ->
      P r s OutOfFuel r s) ->
  (forall r s r1 s1 exit r' s',
      token_ok (token s) = true ->
      (current_page r <=? end_page) && negb (reached_last_page r) = true ->
      scrape_page env detect batch_size r s = (Continue, r1, s1) ->
      token_ok (token s1) = true ->
      (exists fuel,
          scrape_loop env fuel end_page detect batch_size r1 s1
          = (exit, r', s')) ->
      P r1 s1 exit r' s' -> P r s exit r' s') ->
  (forall r s r1 s1,
      token_ok (token s) = true ->
      (current_page r <=? end_page) && negb (reached_last_page r) = true ->
      scrape_page env detect batch_size r s = (Break, r1, s1) ->
      P r s Aborted r1 s1) ->
  (forall r s e r1 s1,
      token_ok (token s) = true ->
      (current_page r <=? end_page) && negb (reached_last_page r) = true ->
      scrape_page env detect batch_size r s = (Raised e, r1, s1) ->
      P r s (Crashed e) r1 s1) ->
  forall fuel r s exit r' s',
    token_ok (token s) = true ->
    scrape_loop env fuel end_page detect batch_size r s = (exit, r', s') ->
    P r s exit r' s'.
Proof.
  intros Hdone Hfuel Hstep Hbreak Hraise fuel.
  induction fuel as [|fuel IH]; intros r s exit r' s' Hok;
    cbn [scrape_loop];
    destruct ((current_page r <=? end_page) && negb (reached_last_page r))
      eqn:Hcond;
    try (intros [= <- <- <-]; auto).
  destruct (scrape_page env detect batch_size r s) as [[e r1] s1] eqn:Hpage.
  destruct e as [| |e].
  - intros Hloop.
    destruct (scrape_page_effects _ _ _ _ _ _ _ Hok Hpage)
      as (new & _ & _ & _ & Hok1 & _).
    eapply Hstep; eauto.
  - intros [= <- <- <-]. eauto.
  - intros [= <- <- <-]. eauto.
Qed.

(** The pages, the records and the failed pages across the loop: the page
    counter does not go back; records are only appended; a page joins the
    failed pages only in its own pass; and when the loop ends by its
    condition, the counter is past the end page or the last page was
    reached. *)
Lemma scrape_loop_progress fuel end_page detect batch_size r s exit r' s' :
  token_ok (token s) = true ->
  scrape_loop env fuel end_page detect batch_size r s = (exit, r', s') ->
  (r' = r \/ current_page r < current_page r')
  /\ (exists more, all_properties r' = all_properties r ++ more)
  /\ failed_pages r ⊆ failed_pages r'
  /\ (forall p, p ∈ failed_pages r' ->
                p ∈ failed_pages r \/ current_page r <= p < current_page r')
  /\ (exit = Exhausted ->
      end_page < current_page r' \/ reached_last_page r' = true)
  /\ (exit <> Exhausted -> current_page r' <= end_page).
Proof.
  apply (scrape_loop_rec end_page detect batch_size
           (fun r s exit r' s' =>
              (r' = r \/ current_page r < current_page r')
              /\ (exists more, all_properties r' = all_properties r ++ more)
              /\ failed_pages r ⊆ failed_pages r'
              /\ (forall p, p ∈ failed_pages r' ->
                     p ∈ failed_pages r
                     \/ current_page r <= p < current_page r')
              /\ (exit = Exhausted ->
                  end_page < current_page r' \/ reached_last_page r' = true)
              /\ (exit <> Exhausted -> current_page r' <= end_page))).
  - intros r0 s0 Hcond. split_and!; auto.
    + exists []. by rewrite app_nil_r.
    + intros _. apply andb_false_iff in Hcond as [Hle | Hreached].
      * left. by apply Z.leb_gt.
      * right. by apply negb_false_iff.
    + congruence.
  - intros r0 s0 Hcond. split_and!; auto.
    + exists []. by rewrite app_nil_r.
    + discriminate.
    + intros _. apply andb_true_iff in Hcond as [Hle _]. by apply Z.leb_le.
  - intros r0 s0 r1 s1 ex r2 s2 Hok Hcond Hpage Hok1 _
      (Hmove & (more & Hmore) & Hsub & Hfailed & Hdone & Hnot).
    destruct (scrape_page_effects _ _ _ _ _ _ _ Hok Hpage)
      as (new & _ & _ & Hnext & _ & _ & (items & Hitems & _) & Hsub1
          & Hfailed1 & _).
    split_and!; auto.
    + right. destruct Hmove as [-> | ?]; lia.
    + exists (items ++ more). rewrite Hmore, Hitems, app_assoc. reflexivity.
    + etrans; eassumption.
    + intros p [Hp | Hp]%Hfailed.
      * apply Hfailed1 in Hp.
        apply elem_of_union in Hp as [Hp | ->%elem_of_singleton];
          [by left|].
        right. destruct Hmove as [-> | ?]; lia.
      * right. lia.
  - intros r0 s0 r1 s1 Hok Hcond Hpage.
    destruct (scrape_page_effects _ _ _ _ _ _ _ Hok Hpage)
      as (new & _ & _ & -> & _).
    split_and!; auto.
    + exists []. by rewrite app_nil_r.
    + discriminate.
    + intros _. apply andb_true_iff in Hcond as [Hle _]. by apply Z.leb_le.
  - intros r0 s0 e r1 s1 Hok Hcond Hpage.
    destruct (scrape_page_effects _ _ _ _ _ _ _ Hok Hpage)
      as (new & _ & _ & -> & _).
    split_and!; auto.
    + exists []. by rewrite app_nil_r.
    + discriminate.
    + intros _. apply andb_true_iff in Hcond as [Hle _]. by apply Z.leb_le.
Qed.

(** The calls across the loop.  Pages are fetched in order and none is
    skipped; checkpoints are written at increasing pages, each before the
    current page, and when records wait in the batch the last checkpoint is
    older than the last pass; the files are untouched, or they hold the
    last checkpoint, a prefix of the records and failed pages of the
    run. *)
Lemma scrape_loop_calls fuel end_page detect batch_size r s exit r' s' :
  token_ok (token s) = true ->
  scrape_loop env fuel end_page detect batch_size r s = (exit, r', s') ->
  exists new,
    trace s' = trace s ++ new
    /\ StronglySorted Z.le (fetched new)
    /\ (forall p, p ∈ fetched new <->
                  current_page r <= p < current_page r'
                  \/ (left_at_page exit = true /\ p = current_page r'))
    /\ StronglySorted Z.lt (checkpointed new)
    /\ Forall (fun q => current_page r <= q < current_page r')
              (checkpointed new)
    /\ (current_batch r' <> [] ->
        Forall (fun q => q < current_page r' - 1) (checkpointed new))
    /\ ((checkpointed new = [] /\ same_files s s')
        \/ (exists q more1 more2 fp,
               last (checkpointed new) = Some q
               /\ checkpoint_file s' = Some q
               /\ data_file s' = Some (all_properties r ++ more1)
               /\ all_properties r' = all_properties r ++ more1 ++ more2
               /\ failed_pages_file s' = Some fp
               /\ fp ⊆ failed_pages r')).
Proof.
  apply (scrape_loop_rec end_page detect batch_size
           (fun r s exit r' s' =>
              exists new,
                trace s' = trace s ++ new
                /\ StronglySorted Z.le (fetched new)
                /\ (forall p, p ∈ fetched new <->
                       current_page r <= p < current_page r'
                       \/ (left_at_page exit = true /\ p = current_page r'))
                /\ StronglySorted Z.lt (checkpointed new)
                /\ Forall (fun q => current_page r <= q < current_page r')
                          (checkpointed new)
                /\ (current_batch r' <> [] ->
                    Forall (fun q => q < current_page r' - 1)
                           (checkpointed new))
                /\ ((checkpointed new = [] /\ same_files s s')
                    \/ (exists q more1 more2 fp,
                           last (checkpointed new) = Some q
                           /\ checkpoint_file s' = Some q
                           /\ data_file s' = Some (all_properties r ++ more1)
                           /\ all_properties r'
                              = all_properties r ++ more1 ++ more2
                           /\ failed_pages_file s' = Some fp
                           /\ fp ⊆ failed_pages r')))).
  - intros r0 s0 _. exists []. rewrite app_nil_r. cbn.
    split; [reflexivity|]. split; [constructor|]. split.
    { intros p. rewrite elem_of_nil. split; [done|].
      intros [? | [? _]]; [lia | discriminate]. }
    split; [constructor|]. split; [constructor|].
    split; [intros _; constructor|]. left. repeat split.
  - intros r0 s0 _. exists []. rewrite app_nil_r. cbn.
    split; [reflexivity|]. split; [constructor|]. split.
    { intros p. rewrite elem_of_nil. split; [done|].
      intros [? | [? _]]; [lia | discriminate]. }
    split; [constructor|]. split; [constructor|].
    split; [intros _; constructor|]. left. repeat split.
  - intros r0 s0 r1 s1 ex r2 s2 Hok Hcond Hpage Hok1 [fuel' Hrest]
      (new2 & Ht2 & Hsorted2 & Hmem2 & Hcsorted2 & Hcall2 & Hbatch2 & Hfiles2).
    destruct (scrape_loop_progress _ _ _ _ _ _ _ _ _ Hok1 Hrest)
      as (Hmove & (more & Hmore) & Hsub & _).
    destruct (scrape_page_effects _ _ _ _ _ _ _ Hok Hpage)
      as (new1 & Ht1 & Hf1 & Hnext & _ & _ & (items & Hitems & _) & Hsub1
          & _ & Hsave1).
    assert (Hge : current_page r0 + 1 <= current_page r2)
      by (destruct Hmove as [-> | ?]; lia).
    assert (Hmem1 : forall p, p ∈ fetched new1 <-> p = current_page r0).
    { intros p. destruct Hf1 as [-> | ->]; set_unfold; tauto. }
    assert (Hsorted1 : StronglySorted Z.le (fetched new1)).
    { destruct Hf1 as [-> | ->]; repeat constructor; lia. }
    exists (new1 ++ new2). rewrite fetched_app, checkpointed_app.
    split; [rewrite Ht2, Ht1, <- app_assoc; reflexivity|].
    split.
    { apply StronglySorted_app_2; [|exact Hsorted1|exact Hsorted2].
      intros x1 x2 ->%Hmem1 [? | [_ ->]]%Hmem2; lia. }
    split.
    { intros p. rewrite elem_of_app, Hmem1, Hmem2. rewrite Hnext. split.
      - intros [-> | [? | ?]]; [left; lia | left; lia | by right].
      - intros [? | ?]; [|by right; right].
        destruct (decide (p = current_page r0)); [by left|].
        right. left. lia. }
    assert (Hc1 : checkpointed new1 = []
                  \/ checkpointed new1 = [current_page r0]) by tauto.
    split.
    { apply StronglySorted_app_2; [| |exact Hcsorted2].
      - intros x1 x2 Hx1 Hx2. rewrite Forall_forall in Hcall2.
        apply Hcall2 in Hx2. destruct Hc1 as [Hc | Hc]; rewrite Hc in Hx1.
        + by apply elem_of_nil in Hx1.
        + apply list_elem_of_singleton in Hx1. lia.
      - destruct Hc1 as [-> | ->]; repeat constructor. }
    split.
    { apply Forall_app. split.
      - destruct Hc1 as [-> | ->]; repeat constructor; lia.
      - eapply Forall_impl; [exact Hcall2|]. cbn. intros q. lia. }
    split.
    { intros Hne. apply Forall_app. split; [|by apply Hbatch2].
      destruct Hsave1 as [[-> _] | (-> & Hempty & _)]; [constructor|].
      repeat constructor. destruct Hmove as [-> | ?]; [congruence | lia]. }
    destruct Hfiles2 as [[Hc2 Hsame2] | (q & m1 & m2 & fp & Hq & Hck & Hd
                                         & Hall & Hfp & Hfpsub)].
    + rewrite Hc2, app_nil_r.
      destruct Hsave1 as [[Hc Hsame1] | (Hc & _ & Hck & Hd & Hfp)].
      * left. split; [exact Hc|].
        destruct Hsame1 as (? & ? & ?), Hsame2 as (? & ? & ?).
        repeat split; congruence.
      * right. destruct Hsame2 as (Hck2 & Hd2 & Hfp2).
        exists (current_page r0), items, more, (failed_pages r1).
        rewrite Hc. split; [reflexivity|].
        split; [congruence|]. split; [congruence|].
        split; [rewrite Hmore, Hitems, app_assoc; reflexivity|].
        split; [congruence | exact Hsub].
    + right. exists q, (items ++ m1), m2, fp.
      split; [rewrite last_app, Hq; reflexivity|].
      split; [exact Hck|].
      split; [rewrite Hd, Hitems, app_assoc; reflexivity|].
      split; [rewrite Hall, Hitems, <- !app_assoc; reflexivity|].
      split; [exact Hfp | exact Hfpsub].
  - intros r0 s0 r1 s1 Hok Hcond Hpage.
    destruct (scrape_page_effects _ _ _ _ _ _ _ Hok Hpage)
      as (new1 & Ht1 & Hf1 & -> & Hc1 & Hsame1).
    exists new1. rewrite Hc1. split; [exact Ht1|].
    split; [destruct Hf1 as [-> | ->]; repeat constructor; lia|].
    split.
    { intros p. destruct Hf1 as [-> | ->]; set_unfold; cbn; intuition lia. }
    split; [constructor|]. split; [constructor|].
    split; [intros _; constructor|]. left. split; [reflexivity|exact Hsame1].
  - intros r0 s0 e r1 s1 Hok Hcond Hpage.
    destruct (scrape_page_effects _ _ _ _ _ _ _ Hok Hpage)
      as (new1 & Ht1 & Hf1 & -> & Hc1 & Hsame1).
    exists new1. rewrite Hc1. split; [exact Ht1|].
    split; [destruct Hf1 as [-> | ->]; repeat constructor; lia|].
    split.
    { intros p. destruct Hf1 as [-> | ->]; set_unfold; cbn; intuition lia. }
    split; [constructor|]. split; [constructor|].
    split; [intros _; constructor|]. left. split; [reflexivity|exact Hsame1].
Qed.

(** The page counter stays within one page of the end page. *)
Lemma scrape_loop_bound fuel end_page detect batch_size r s exit r' s' :
  token_ok (token s) = true ->
  scrape_loop env fuel end_page detect batch_size r s = (exit, r', s') ->
  r' = r \/ current_page r' <= end_page + 1.
Proof.
  apply (scrape_loop_rec end_page detect batch_size
           (fun r s exit r' s' =>
              r' = r \/ current_page r' <= end_page + 1)); auto.
  - intros r0 s0 r1 s1 ex r2 s2 Hok Hcond Hpage _ _ [-> | Hle];
      [|by right].
    destruct (scrape_page_effects _ _ _ _ _ _ _ Hok Hpage)
      as (new & _ & _ & Hnext & _).
    apply andb_true_iff in Hcond as [Hle%Z.leb_le _]. right. lia.
  - intros r0 s0 r1 s1 Hok Hcond Hpage.
    destruct (scrape_page_effects _ _ _ _ _ _ _ Hok Hpage)
      as (new & _ & _ & -> & _). by left.
  - intros r0 s0 e r1 s1 Hok Hcond Hpage.
    destruct (scrape_page_effects _ _ _ _ _ _ _ Hok Hpage)
      as (new & _ & _ & -> & _). by left.
Qed.

(** The ways through [scrape_properties]. *)
Lemma scrape_properties_cases
    start_page end_page batch_size retry_failed detect s :
  (resolve_end_page env end_page detect <= load_checkpoint s
   /\ scrape_properties env start_page end_page batch_size retry_failed
                        detect s
      = Some (Ok (JArr (load_properties s)), s))
  \/ (load_checkpoint s < resolve_end_page env end_page detect
      /\ exists t s1,
          get_auth_token env s = (t, s1)
          /\ ((token_ok t = false
               /\ scrape_properties env start_page end_page batch_size
                                    retry_failed detect s
                  = Some (Ok (JArr (load_properties s)), set_token t s1))
              \/ (token_ok t = true
                  /\ exists exit r s2,
                      scrape_loop env
                        (pages_ahead start_page
                           (resolve_end_page env end_page detect) s)
                        (resolve_end_page env end_page detect) detect
                        batch_size (initial_run start_page s)
                        (set_token t s1) = (exit, r, s2)
                      /\ exit <> OutOfFuel
                      /\ scrape_properties env start_page end_page
                                           batch_size retry_failed detect s
                         = match exit with
                           | Crashed e => Some (Raise e, s2)
                           | _ =>
                               Some (Ok (finish
                                           (resolve_end_page env end_page
                                                             detect)
                                           retry_failed r s2).1,
                                     (finish
                                        (resolve_end_page env end_page detect)
                                        retry_failed r s2).2)
                           end))).
Proof.
  destruct (Z.le_gt_cases (resolve_end_page env end_page detect)
                          (load_checkpoint s)) as [Hdone | Hmore].
  { left. split; [exact Hdone|].
    unfold scrape_properties, scrape_properties_fuel.
    destruct (Z.leb_spec (resolve_end_page env end_page detect)
                         (load_checkpoint s)); [reflexivity | lia]. }
  right. split; [exact Hmore|].
  destruct (get_auth_token env s) as [t s1] eqn:Hauth. exists t, s1.
  split; [reflexivity|].
  destruct (token_ok t) eqn:Hok.
  - right. split; [reflexivity|].
    destruct (scrape_loop env
                (pages_ahead start_page
                   (resolve_end_page env end_page detect) s)
                (resolve_end_page env end_page detect) detect
                batch_size (initial_run start_page s) (set_token t s1))
      as [[exit r] s2] eqn:Hloop.
    exists exit, r, s2. split; [reflexivity|].
    assert (Hfuel : exit <> OutOfFuel).
    { intros ->.
      apply scrape_loop_spec in Hloop as (new & _ & _ & _ & Hexit);
        [|exact Hok].
      unfold pages_ahead in Hexit. cbn [current_page initial_run] in Hexit.
      lia. }
    split; [exact Hfuel|].
    rewrite (scrape_properties_unfold _ _ _ _ _ _ _ _ _ _ _ _
               Hmore Hauth Hok Hloop).
    destruct exit; try reflexivity. congruence.
  - left. split; [reflexivity|].
    unfold scrape_properties, scrape_properties_fuel.
    destruct (Z.leb_spec (resolve_end_page env end_page detect)
                         (load_checkpoint s)); [lia|].
    rewrite Hauth. cbn [token set_token]. rewrite Hok. reflexivity.
Qed.

(** What a whole run does to the trace and to the files. *)
Lemma scrape_properties_summary
    start_page end_page batch_size retry_failed detect s :
  exists result s' new,
    scrape_properties env start_page end_page batch_size retry_failed
                      detect s = Some (result, s')
    /\ trace s' = trace s ++ new
    /\ StronglySorted Z.le (fetched new)
    /\ Forall (fun p => Z.max (load_checkpoint s + 1) start_page <= p
                        /\ p <= resolve_end_page env end_page detect)
              (fetched new)
    /\ (forall p q,
          p ∈ fetched new ->
          Z.max (load_checkpoint s + 1) start_page <= q <= p ->
          q ∈ fetched new)
    /\ StronglySorted Z.lt (checkpointed new)
    /\ Forall (fun q => Z.max (load_checkpoint s + 1) start_page <= q
                        /\ q <= resolve_end_page env end_page detect)
              (checkpointed new)
    /\ checkpoint_file s'
       = from_option Some (checkpoint_file s) (last (checkpointed new))
    /\ (exists more, load_properties s' = load_properties s ++ more)
    /\ (forall l, result = Ok (JArr l) ->
                  exists more, l = load_properties s ++ more)
    /\ (failed_pages_file s' = failed_pages_file s
        \/ exists fp, failed_pages_file s' = Some fp
                      /\ forall p, p ∈ fp -> p ∈ fetched new).
Proof.
  set (final := resolve_end_page env end_page detect).
  set (first := Z.max (load_checkpoint s + 1) start_page).
  destruct (scrape_properties_cases start_page end_page batch_size
              retry_failed detect s)
    as [[_ Hrun] | (Hmore & t & s1 & Hauth & Hrun)].
  { eexists _, _, []. split; [exact Hrun|]. rewrite app_nil_r. cbn.
    split; [reflexivity|]. split; [constructor|]. split; [constructor|].
    split; [intros p q []%elem_of_nil|].
    split; [constructor|]. split; [constructor|]. split; [reflexivity|].
    split; [exists []; by rewrite app_nil_r|].
    split; [|by left].
    intros l [= <-]. exists []. by rewrite app_nil_r. }
  apply get_auth_token_trace in Hauth as (Ht1 & _ & Hfiles1 & _).
  destruct Hrun as [[_ Hrun] | (Hok & exit & r & s2 & Hloop & Hfuel & Hrun)].
  { eexists _, _, [EvToken]. split; [exact Hrun|]. cbn.
    destruct Hfiles1 as (Hc1 & Hd1 & Hf1).
    split; [exact Ht1|]. split; [constructor|]. split; [constructor|].
    split; [intros p q []%elem_of_nil|].
    split; [constructor|]. split; [constructor|]. split; [exact Hc1|].
    split; [exists []; unfold load_properties; cbn;
            by rewrite Hd1, app_nil_r|].
    split; [|by left].
    intros l [= <-]. exists []. by rewrite app_nil_r. }
  fold final in Hloop, Hrun.
  change (token_ok (token (set_token t s1)) = true) in Hok.
  destruct (scrape_loop_progress _ _ _ _ _ _ _ _ _ Hok Hloop)
    as (Hmove & (more & Hrecords) & _ & Hfailed & _ & Hinside).
  pose proof (scrape_loop_bound _ _ _ _ _ _ _ _ _ Hok Hloop) as Hbound.
  destruct (scrape_loop_calls _ _ _ _ _ _ _ _ _ Hok Hloop)
    as (new2 & Ht2 & Hsorted & Hmem & Hcsorted & Hcall & Hbatch & Hfiles2).
  cbn [current_page all_properties failed_pages initial_run trace set_token]
    in Hmove, Hrecords, Hfailed, Hbound, Ht2, Hmem, Hcall, Hfiles2.
  assert (Hfbound : Forall (fun p => first <= p /\ p <= final)
                           (fetched new2)).
  { apply Forall_forall. intros p [Hp | [Hexit ->]]%Hmem.
    - destruct Hbound as [-> | ?]; cbn in *; lia.
    - assert (current_page r <= final)
        by (apply Hinside; intros ->; discriminate).
      destruct Hmove as [-> | ?]; cbn in *; lia. }
  fold first in Hmove, Hbound, Hmem, Hcall.
  assert (Htrace2 : trace s2 = trace s ++ EvToken :: new2).
  { rewrite Ht2, Ht1, <- app_assoc. reflexivity. }
  assert (Hgaps : forall p q,
             p ∈ fetched new2 -> first <= q <= p -> q ∈ fetched new2).
  { intros p q [Hp | [Hleft ->]]%Hmem Hq; apply Hmem.
    - left. lia.
    - destruct (decide (q = current_page r)) as [-> | ?];
        [by right | left; lia]. }
  assert (Hfailed2 : forall p, p ∈ failed_pages r -> p ∈ fetched new2).
  { intros p [[]%elem_of_empty | Hp]%Hfailed. apply Hmem. by left. }
  assert (Hcall' : Forall (fun q => first <= q /\ q <= final)
                          (checkpointed new2)).
  { eapply Forall_impl; [exact Hcall|]. cbn. intros q Hq.
    destruct Hbound as [-> | ?]; cbn in *; lia. }
  (* the state that the loop leaves, when nothing is written after it *)
  assert (Hloop_only :
    checkpoint_file s2
    = from_option Some (checkpoint_file s) (last (checkpointed new2))
    /\ (exists more, load_properties s2 = load_properties s ++ more)
    /\ (failed_pages_file s2 = failed_pages_file s
        \/ exists fp, failed_pages_file s2 = Some fp
                      /\ forall p, p ∈ fp -> p ∈ fetched new2)).
  { destruct Hfiles1 as (Hc1 & Hd1 & Hf1).
    destruct Hfiles2 as [[-> (Hc2 & Hd2 & Hf2)]
                        | (q & m1 & m2 & fp & Hq & Hck & Hd & _ & Hfp & Hsub)].
    - cbn in Hc2, Hd2, Hf2. split; [cbn; congruence|].
      split; [|left; congruence].
      exists []. unfold load_properties. rewrite app_nil_r. congruence.
    - rewrite Hq. split; [exact Hck|]. split.
      + exists m1. unfold load_properties at 1. rewrite Hd. reflexivity.
      + right. exists fp. split; [exact Hfp|].
        intros p Hp. apply Hfailed2, Hsub, Hp. }
  assert (Hno_save : forall result,
    (forall l, result = Ok (JArr l) ->
               exists more, l = load_properties s ++ more) ->
    exists new,
      trace s2 = trace s ++ new
      /\ StronglySorted Z.le (fetched new)
      /\ Forall (fun p => first <= p /\ p <= final) (fetched new)
      /\ (forall p q, p ∈ fetched new -> first <= q <= p -> q ∈ fetched new)
      /\ StronglySorted Z.lt (checkpointed new)
      /\ Forall (fun q => first <= q /\ q <= final) (checkpointed new)
      /\ checkpoint_file s2
         = from_option Some (checkpoint_file s) (last (checkpointed new))
      /\ (exists more, load_properties s2 = load_properties s ++ more)
      /\ (forall l, result = Ok (JArr l) ->
                    exists more, l = load_properties s ++ more)
      /\ (failed_pages_file s2 = failed_pages_file s
          \/ exists fp, failed_pages_file s2 = Some fp
                        /\ forall p, p ∈ fp -> p ∈ fetched new)).
  { intros result Hresult. destruct Hloop_only as (Hck & Hdata & Hfp).
    exists (EvToken :: new2). cbn. split_and!; auto. }
  assert (Hreturned : forall l,
    Ok (finish final retry_failed r s2).1 = Ok (JArr l) ->
    exists more, l = load_properties s ++ more).
  { intros l [= Hv].
    destruct (finish final retry_failed r s2) as [v s'] eqn:Hfin.
    apply finish_spec in Hfin as (-> & _). cbn in Hv.
    destruct (retry_failed && _); [|discriminate].
    injection Hv as <-. exists more. exact Hrecords. }
  assert (Hexit : (exists e, exit = Crashed e)
                  \/ exit = Exhausted \/ exit = Aborted)
    by (destruct exit; eauto; congruence).
  destruct Hexit as [[e ->] | Hexit].
  { destruct (Hno_save (Raise e)) as (new & Hnew); [discriminate|].
    eexists _, _, new. split; [exact Hrun | exact Hnew]. }
  assert (Hrun' : scrape_properties env start_page end_page batch_size
                    retry_failed detect s
                  = Some (Ok (finish final retry_failed r s2).1,
                          (finish final retry_failed r s2).2)).
  { destruct Hexit as [-> | ->]; exact Hrun. }
  clear Hrun.
  destruct (finish final retry_failed r s2) as [v s'] eqn:Hfin.
  pose proof (finish_spec _ _ _ _ _ _ Hfin) as (_ & Hempty & Hsaved).
  destruct (current_batch r) as [|x batch] eqn:Hb.
  { cbn [fst snd] in *. rewrite (Hempty eq_refl) in Hrun'.
    destruct (Hno_save (Ok v) Hreturned) as (new & Hnew).
    eexists _, _, new. split; [exact Hrun' | exact Hnew]. }
  destruct (Hsaved ltac:(discriminate)) as (Ht3 & Hck3 & Hd3 & Hf3).
  assert (Hprogress : first < current_page r
                      /\ current_page r <= final + 1).
  { destruct Hmove as [-> | ?]; [discriminate|].
    destruct Hbound as [-> | ?]; [discriminate|]. lia. }
  assert (Hmin : Z.min (current_page r - 1) final = current_page r - 1)
    by lia.
  rewrite Hmin in Ht3, Hck3.
  exists (Ok v), s', (EvToken :: new2 ++ [EvCheckpoint (current_page r - 1)]).
  split; [exact Hrun'|].
  split; [rewrite Ht3, Htrace2, <- app_assoc; reflexivity|].
  assert (Hfetched :
    fetched (EvToken :: new2 ++ [EvCheckpoint (current_page r - 1)])
    = fetched new2).
  { cbn. rewrite fetched_app. cbn. apply app_nil_r. }
  assert (Hcheckpointed :
    checkpointed (EvToken :: new2 ++ [EvCheckpoint (current_page r - 1)])
    = checkpointed new2 ++ [current_page r - 1]).
  { cbn. rewrite checkpointed_app. reflexivity. }
  rewrite Hfetched, Hcheckpointed.
  split; [exact Hsorted|]. split; [exact Hfbound|]. split; [exact Hgaps|].
  split.
  { apply StronglySorted_app_2; [|exact Hcsorted|repeat constructor].
    intros q1 q2 Hq1 ->%list_elem_of_singleton.
    specialize (Hbatch ltac:(discriminate)).
    rewrite Forall_forall in Hbatch. by apply Hbatch. }
  split.
  { apply Forall_app. split; [exact Hcall'|]. repeat constructor; lia. }
  split; [rewrite last_snoc; exact Hck3|].
  split; [exists more; unfold load_properties at 1;
          rewrite Hd3; exact Hrecords|].
  split; [exact Hreturned|].
  right. exists (failed_pages r). split; [exact Hf3 | exact Hfailed2].
Qed.

(** ** Whole runs of [scrape_properties] *)

(** X1. Checkpoints only advance.  In every run of [scrape_properties] the
    pages handed to [save_checkpoint] are strictly increasing, each is past
    the checkpoint the run started from, not before the start page and not
    past the end page; the checkpoint file ends as the last of them (or as
    it was, if there was none), so the page a later run resumes after is
    never smaller. *)
Theorem checkpoints_only_advance
    start_page end_page batch_size retry_failed detect s :
  exists result s' new,
    scrape_properties env start_page end_page batch_size retry_failed
                      detect s = Some (result, s')
    /\ trace s' = trace s ++ new
    /\ StronglySorted Z.lt (checkpointed new)
    /\ Forall (fun q => load_checkpoint s < q /\ start_page <= q
                        /\ q <= resolve_end_page env end_page detect)
              (checkpointed new)
    /\ checkpoint_file s'
       = from_option Some (checkpoint_file s) (last (checkpointed new))
    /\ load_checkpoint s <= load_checkpoint s'.
Proof.
  destruct (scrape_properties_summary start_page end_page batch_size
              retry_failed detect s)
    as (result & s' & new & Hrun & Ht & _ & _ & _ & Hsorted & Hall & Hfile
        & _).
  exists result, s', new.
  split; [exact Hrun|]. split; [exact Ht|]. split; [exact Hsorted|].
  split; [eapply Forall_impl; [exact Hall|]; intros q [? ?]; lia|].
  split; [exact Hfile|].
  unfold load_checkpoint at 2. rewrite Hfile.
  destruct (last (checkpointed new)) as [q|] eqn:Hlast.
  - change (load_checkpoint s <= q).
    apply last_Some in Hlast as [l Hl]. rewrite Hl in Hall.
    rewrite Forall_app, Forall_singleton in Hall. lia.
  - reflexivity.
Qed.

(** X2. The records of earlier runs are kept.  Whatever a run of
    [scrape_properties] does, the data file afterwards holds the records
    it held before, followed by what the run added, and a list that the
    run returns starts with them too. *)
Theorem stored_records_are_kept
    start_page end_page batch_size retry_failed detect s :
  exists result s',
    scrape_properties env start_page end_page batch_size retry_failed
                      detect s = Some (result, s')
    /\ (exists more, load_properties s' = load_properties s ++ more)
    /\ (forall l, result = Ok (JArr l) ->
                  exists more, l = load_properties s ++ more).
Proof.
  destruct (scrape_properties_summary start_page end_page batch_size
              retry_failed detect s)
    as (result & s' & new & Hrun & _ & _ & _ & _ & _ & _ & _ & Hdata
        & Hresult & _).
  exists result, s'. split; [exact Hrun|]. split; assumption.
Qed.

(** X3. Pages are fetched in order and without gaps.  The pages of the
    [fetch_page_data] calls of a run never decrease, lie between the first
    page of the run (one past the checkpoint, or the start page if that is
    larger) and the end page, and every page from the first one up to a
    fetched page was fetched as well. *)
Theorem pages_are_fetched_in_order
    start_page end_page batch_size retry_failed detect s :
  exists result s' new,
    scrape_properties env start_page end_page batch_size retry_failed
                      detect s = Some (result, s')
    /\ trace s' = trace s ++ new
    /\ StronglySorted Z.le (fetched new)
    /\ (forall p, p ∈ fetched new ->
                  load_checkpoint s < p /\ start_page <= p
                  /\ p <= resolve_end_page env end_page detect)
    /\ (forall p q, p ∈ fetched new ->
                    load_checkpoint s < q -> start_page <= q -> q <= p ->
                    q ∈ fetched new).
Proof.
  destruct (scrape_properties_summary start_page end_page batch_size
              retry_failed detect s)
    as (result & s' & new & Hrun & Ht & Hsorted & Hbound & Hgaps & _).
  exists result, s', new.
  split; [exact Hrun|]. split; [exact Ht|]. split; [exact Hsorted|]. split.
  - intros p Hp. rewrite Forall_forall in Hbound.
    specialize (Hbound p Hp). lia.
  - intros p q Hp Hlast Hstart Hq. apply (Hgaps p q Hp). lia.
Qed.

(** X4. The failed-pages file is rewritten, not extended.  When a run of
    [scrape_properties] touches the failed-pages file, the file afterwards
    lists only pages that this run fetched, all of them past the
    checkpoint the run started from: what an earlier run had recorded
    there is gone. *)
Theorem failed_pages_file_is_rewritten
    start_page end_page batch_size retry_failed detect s :
  exists result s' new,
    scrape_properties env start_page end_page batch_size retry_failed
                      detect s = Some (result, s')
    /\ trace s' = trace s ++ new
    /\ (failed_pages_file s' = failed_pages_file s
        \/ exists fp,
             failed_pages_file s' = Some fp
             /\ forall p, p ∈ fp ->
                          p ∈ fetched new /\ load_checkpoint s < p).
Proof.
  destruct (scrape_properties_summary start_page end_page batch_size
              retry_failed detect s)
    as (result & s' & new & Hrun & Ht & _ & Hbound & _ & _ & _ & _ & _ & _
        & Hfile).
  exists result, s', new. split; [exact Hrun|]. split; [exact Ht|].
  destruct Hfile as [Hsame | (fp & Hfp & Hsub)]; [by left|].
  right. exists fp. split; [exact Hfp|].
  intros p Hp. split; [by apply Hsub|].
  rewrite Forall_forall in Hbound. specialize (Hbound p (Hsub p Hp)). lia.
Qed.

End LoopFacts.

(** ** Single calls of [fetch_page_data] *)

Section FetchFacts.

Variable env : Env.

(** The payload of a request always has a cache key. *)
Lemma get_cache_key_request page :
  exists key,
    get_cache_key (process env) page (request_payload page) = Ok key.
Proof. eexists. reflexivity. Qed.

Lemma spent_refl name s : spent 0 name s s.
Proof. unfold spent. split_and!; auto; lia. Qed.

Lemma spent_mono n m name s s' :
  (n <= m)%nat -> spent n name s s' -> spent m name s s'.
Proof. unfold spent. intros Hnm H. split_and!; try apply H; lia. Qed.

Lemma spent_trans n m name s1 s2 s3 :
  spent n name s1 s2 -> spent m name s2 s3 -> spent (n + m) name s1 s3.
Proof.
  unfold spent.
  intros (Hp & Hw & Hwp & Ht & Hg & Hu & Hoff & Hdir)
         (Hp' & Hw' & Hwp' & Ht' & Hg' & Hu' & Hoff' & Hdir').
  split_and!; try lia; try congruence.
  - intros Hc. destruct (Hoff Hc) as (? & ? & ?).
    destruct Hoff' as (? & ? & ?); [congruence|]. split_and!; congruence.
  - intros other Hother. rewrite Hdir', Hdir; auto.
Qed.

Lemma next_post_spent name s : spent 1 name s (next_post s).
Proof. unfold spent. cbn. split_and!; auto; lia. Qed.

Lemma cache_response_spent page payload data name s s1 :
  (forall key, get_cache_key (process env) page payload = Ok key ->
               name = cache_path key) ->
  cache_response env page payload data (next_post s) = Ok s1 ->
  spent 1 name s s1.
Proof.
  unfold cache_response. cbn [use_cache next_post]. intros Hname.
  destruct (use_cache s) eqn:Hcache.
  - destruct (get_cache_key _ _ _) as [key|e]; cbn; [|discriminate].
    intros [= <-]. unfold spent. cbn. rewrite Hcache.
    split_and!; try lia; try done.
    intros other Hother. rewrite (Hname key eq_refl) in Hother.
    destruct (disk env (writes s)); cbn; try reflexivity;
      by apply lookup_insert_ne.
  - intros [= <-]. apply next_post_spent.
Qed.

(** The retry loop makes at most as many attempts as it was given. *)
Lemma attempts_spent remaining page payload check name s out s' :
  (forall key, get_cache_key (process env) page payload = Ok key ->
               name = cache_path key) ->
  attempts env remaining page payload check s = (out, s') ->
  spent remaining name s s'.
Proof.
  intros Hname. revert s.
  induction remaining as [|remaining IH]; intros s; cbn [attempts].
  - intros [= _ <-]. apply spent_refl.
  - intros H.
    repeat case_match; simplify_eq;
      first
        [ by apply (spent_trans 1 remaining _ _ (next_post s));
            [apply next_post_spent | apply IH]
        | by match goal with
             | Hc : cache_response _ _ _ _ _ = Ok ?s1 |- _ =>
                 apply (spent_trans 1 remaining _ _ s1);
                   [eapply cache_response_spent; eassumption | by apply IH]
             end
        | by apply (spent_mono 1); [lia | apply next_post_spent]
        | by apply (spent_mono 1);
            [lia | eapply cache_response_spent; eassumption] ].
Qed.

Lemma fetch_from_network_spent page max_retries payload check name s out s' :
  (forall key, get_cache_key (process env) page payload = Ok key ->
               name = cache_path key) ->
  fetch_from_network env page max_retries payload check s = (out, s') ->
  exists s1,
    spent (Z.to_nat max_retries) name s1 s'
    /\ posts s1 = posts s /\ writes s1 = writes s /\ ticks s1 = ticks s
    /\ use_cache s1 = use_cache s /\ cache_dir s1 = cache_dir s
    /\ (gets s1 = gets s
        \/ (token_ok (token s) = false /\ gets s1 = S (gets s))).
Proof.
  unfold fetch_from_network. intros Hname H.
  destruct (token_ok (token s)) eqn:Hok; cbn [negb] in H.
  - exists s. split; [by eapply attempts_spent|]. split_and!; auto.
  - destruct (get_auth_token env s) as [t s1] eqn:Hauth.
    assert (Hs1 : s1 = log EvToken (next_get s))
      by (unfold get_auth_token in Hauth; repeat case_match; congruence).
    subst s1. exists (set_token t (log EvToken (next_get s))).
    split; [|cbn; split_and!; auto].
    destruct (negb (token_ok (token (set_token t _)))).
    + injection H as _ <-.
      apply (spent_mono 0); [lia | apply spent_refl].
    + by eapply attempts_spent.
Qed.

(** What a call of [fetch_page_data] may use. *)
Lemma fetch_page_data_spent page max_retries check s key out s' :
  get_cache_key (process env) page (request_payload page) = Ok key ->
  fetch_page_data env page max_retries check s = (out, s') ->
  (posts s <= posts s' <= posts s + Z.to_nat max_retries)%nat
  /\ (gets s <= gets s' <= gets s + 1)%nat
  /\ (token_ok (token s) = true -> gets s' = gets s)
  /\ (writes s <= writes s')%nat
  /\ (writes s' + posts s <= writes s + posts s')%nat
  /\ (use_cache s = false ->
      cache_dir s' = cache_dir s /\ writes s' = writes s
      /\ ticks s' = ticks s)
  /\ (forall other, other <> cache_path key ->
                    cache_dir s' !! other = cache_dir s !! other).
Proof.
  intros Hkey. unfold fetch_page_data. rewrite Hkey.
  assert (Hname : forall key',
             get_cache_key (process env) page (request_payload page)
             = Ok key' -> cache_path key = cache_path key')
    by (intros key' Hkey'; congruence).
  assert (Hnet : forall s0 r s2,
    posts s0 = posts s -> writes s0 = writes s -> gets s0 = gets s ->
    token s0 = token s -> use_cache s0 = use_cache s ->
    cache_dir s0 = cache_dir s ->
    (use_cache s = false -> ticks s0 = ticks s) ->
    fetch_from_network env page max_retries (request_payload page) check s0
    = (r, s2) ->
    (posts s <= posts s2 <= posts s + Z.to_nat max_retries)%nat
    /\ (gets s <= gets s2 <= gets s + 1)%nat
    /\ (token_ok (token s) = true -> gets s2 = gets s)
    /\ (writes s <= writes s2)%nat
    /\ (writes s2 + posts s <= writes s + posts s2)%nat
    /\ (use_cache s = false ->
        cache_dir s2 = cache_dir s /\ writes s2 = writes s
        /\ ticks s2 = ticks s)
    /\ (forall other, other <> cache_path key ->
                      cache_dir s2 !! other = cache_dir s !! other)).
  { intros s0 r s2 Hp Hw Hg Htok Hu Hd Ht Hfetch.
    destruct (fetch_from_network_spent _ _ _ _ _ _ _ _ Hname Hfetch)
      as (s1 & (Hp1 & Hw1 & Hwp1 & Ht1 & Hg1 & Hu1 & Hoff1 & Hdir1)
          & Hp0 & Hw0 & Ht0 & Hu0 & Hd0 & Hg0).
    rewrite Htok in Hg0.
    split_and!; try (destruct Hg0 as [? | [? ?]]; lia).
    - intros Hok. destruct Hg0 as [? | [? ?]]; congruence.
    - intros Hc. destruct Hoff1 as (? & ? & ?); [congruence|].
      split_and!; try congruence. rewrite <- (Ht Hc). congruence.
    - intros other Hother. rewrite (Hdir1 other Hother). congruence. }
  assert (Hstill : forall s0,
    posts s0 = posts s -> writes s0 = writes s -> gets s0 = gets s ->
    cache_dir s0 = cache_dir s -> use_cache s = true ->
    (posts s <= posts s0 <= posts s + Z.to_nat max_retries)%nat
    /\ (gets s <= gets s0 <= gets s + 1)%nat
    /\ (token_ok (token s) = true -> gets s0 = gets s)
    /\ (writes s <= writes s0)%nat
    /\ (writes s0 + posts s <= writes s + posts s0)%nat
    /\ (use_cache s = false ->
        cache_dir s0 = cache_dir s /\ writes s0 = writes s
        /\ ticks s0 = ticks s)
    /\ (forall other, other <> cache_path key ->
                      cache_dir s0 !! other = cache_dir s !! other)).
  { intros s0 Hp Hw Hg Hd Hc.
    split_and!; try lia; congruence. }
  cbn [use_cache log]. destruct (use_cache s) eqn:Hcache.
  - cbn [cache_dir next_tick log ticks].
    destruct (truthy _).
    + intros H. repeat case_match; simplify_eq; by apply Hstill.
    + destruct (fetch_from_network _ _ _ _ _ _) as [r s2] eqn:Hfetch.
      intros [= _ <-].
      eapply Hnet; [..|exact Hfetch];
        first [reflexivity | exact Hcache | discriminate].
  - destruct (fetch_from_network _ _ _ _ _ _) as [r s2] eqn:Hfetch.
    intros [= _ <-].
    eapply Hnet; [..|exact Hfetch];
      first [reflexivity | exact Hcache | by intros _].
Qed.

(** X5. The effort of one call.  A call of [fetch_page_data] makes at most
    [max_retries] POSTs and asks for a token at most once, and not at all
    when the scraper holds one; it writes into the cache only after a POST;
    and with the cache switched off it neither writes there nor reads the
    clock. *)
Theorem fetch_page_data_effort page max_retries check s :
  let s' := (fetch_page_data env page max_retries check s).2 in
  (posts s <= posts s' <= posts s + Z.to_nat max_retries)%nat
  /\ (gets s <= gets s' <= gets s + 1)%nat
  /\ (token_ok (token s) = true -> gets s' = gets s)
  /\ (writes s <= writes s')%nat
  /\ (writes s' + posts s <= writes s + posts s')%nat
  /\ (use_cache s = false ->
      cache_dir s' = cache_dir s /\ writes s' = writes s
      /\ ticks s' = ticks s).
Proof.
  cbv zeta. destruct (get_cache_key_request page) as [key Hkey].
  destruct (fetch_page_data env page max_retries check s) as [out s'] eqn:H.
  cbn [snd].
  destruct (fetch_page_data_spent _ _ _ _ _ _ _ Hkey H)
    as (Hp & Hg & Htok & Hw & Hwp & Hoff & _).
  split; [exact Hp|]. split; [exact Hg|]. split; [exact Htok|].
  split; [exact Hw|]. split; [exact Hwp | exact Hoff].
Qed.

(** X6. A call touches one cache file.  Whatever [fetch_page_data] does for
    a page, every file of the cache directory other than the one named by
    the cache key of that page is as it was. *)
Theorem fetch_page_data_touches_own_cache_file
    page max_retries check s key other :
  get_cache_key (process env) page (request_payload page) = Ok key ->
  other <> cache_path key ->
  cache_dir (fetch_page_data env page max_retries check s).2 !! other
  = cache_dir s !! other.
Proof.
  intros Hkey Hother.
  destruct (fetch_page_data env page max_retries check s) as [out s'] eqn:H.
  cbn [snd].
  destruct (fetch_page_data_spent _ _ _ _ _ _ _ Hkey H)
    as (_ & _ & _ & _ & _ & _ & Hdir).
  by apply Hdir.
Qed.

(** *** The answers of the API, one by one *)

Lemma posts_iter k s :
  posts (Nat.iter k next_post s) = (posts s + k)%nat
  /\ token (Nat.iter k next_post s) = token s
  /\ use_cache (Nat.iter k next_post s) = use_cache s
  /\ cache_dir (Nat.iter k next_post s) = cache_dir s
  /\ gets (Nat.iter k next_post s) = gets s
  /\ ticks (Nat.iter k next_post s) = ticks s
  /\ writes (Nat.iter k next_post s) = writes s
  /\ trace (Nat.iter k next_post s) = trace s
  /\ same_files s (Nat.iter k next_post s).
Proof.
  induction k as [|k (Hp & Hk & Hu & Hd & Hg & Ht & Hw & Htr & Hf)].
  - cbn. split_and!; auto; try lia. repeat split.
  - change (Nat.iter (S k) next_post s)
      with (next_post (Nat.iter k next_post s)).
    cbn [posts token use_cache cache_dir gets ticks writes trace next_post].
    split_and!; first [assumption | lia | exact Hf].
Qed.

Lemma cache_response_counters page payload data s s1 :
  cache_response env page payload data s = Ok s1 ->
  posts s1 = posts s /\ gets s1 = gets s /\ token s1 = token s.
Proof.
  unfold cache_response. destruct (use_cache s).
  - destruct (get_cache_key _ _ _); cbn; [|discriminate].
    intros [= <-]. repeat split.
  - intros [= <-]. repeat split.
Qed.

Lemma attempts_transient remaining page payload check s :
  transient (api env (posts s)) = true ->
  attempts env (S remaining) page payload check s
  = attempts env remaining page payload check (next_post s).
Proof.
  cbn [attempts]. unfold transient.
  destruct (api env (posts s)) as [c body| | |]; try reflexivity.
  destruct (c =? 200).
  - destruct body; [discriminate | reflexivity].
  - intros H. apply negb_true_iff in H. rewrite H. reflexivity.
Qed.

(** Transient answers use up attempts and nothing else. *)
Lemma attempts_skip k n page payload check s :
  transient_for env k s ->
  attempts env (k + n) page payload check s
  = attempts env n page payload check (Nat.iter k next_post s).
Proof.
  revert s. induction k as [|k IH]; intros s Hk; [reflexivity|].
  change (S k + n)%nat with (S (k + n)).
  rewrite attempts_transient.
  - rewrite IH, <- Nat.iter_succ_r; [reflexivity|].
    intros i Hi. cbn [posts next_post].
    replace (S (posts s) + i)%nat with (posts s + S i)%nat by lia.
    apply Hk. lia.
  - rewrite <- (Nat.add_0_r (posts s)). apply Hk. lia.
Qed.

(** After a miss in the cache the call goes to the network. *)
Lemma fetch_page_data_miss page max_retries check s :
  cache_miss env page s ->
  fetch_page_data env page max_retries check s
  = (let '(r, s2) :=
       fetch_from_network env page max_retries (request_payload page) check
         (if use_cache s then next_tick (log (EvFetch page) s)
          else log (EvFetch page) s) in
     (Ok r, s2)).
Proof.
  unfold fetch_page_data. cbn [use_cache log].
  intros [Hoff | (key & Hkey & Hmiss)].
  - rewrite Hoff. reflexivity.
  - destruct (use_cache s); [|reflexivity].
    rewrite Hkey. cbn [cache_dir next_tick log ticks]. rewrite Hmiss.
    reflexivity.
Qed.

(** With a token and after a miss, the call is the retry loop after [k]
    transient answers. *)
Lemma fetch_page_data_skip page max_retries check s k :
  token_ok (token s) = true ->
  cache_miss env page s ->
  (k <= Z.to_nat max_retries)%nat ->
  transient_for env k s ->
  fetch_page_data env page max_retries check s
  = (let '(r, s2) :=
       attempts env (Z.to_nat max_retries - k) page (request_payload page)
         check
         (Nat.iter k next_post
            (if use_cache s then next_tick (log (EvFetch page) s)
             else log (EvFetch page) s)) in
     (Ok r, s2)).
Proof.
  intros Hok Hmiss Hk Htransient.
  rewrite (fetch_page_data_miss _ _ _ _ Hmiss). unfold fetch_from_network.
  set (s0 := if use_cache s then next_tick (log (EvFetch page) s)
             else log (EvFetch page) s).
  assert (Hs0 : token s0 = token s /\ posts s0 = posts s)
    by (unfold s0; destruct (use_cache s); split; reflexivity).
  destruct Hs0 as [Htoken Hposts]. rewrite Htoken, Hok. cbn [negb].
  replace (Z.to_nat max_retries)
    with (k + (Z.to_nat max_retries - k))%nat at 1 by lia.
  rewrite attempts_skip; [reflexivity|].
  intros i Hi. rewrite Hposts. by apply Htransient.
Qed.

(** X7. Giving up.  With a token and nothing in the cache, a call whose
    next [max_retries] answers are all transient makes exactly that many
    POSTs and returns [(None, False, False)]; a [max_retries] of zero or
    less makes no POST at all.  The cache is left as it was. *)
Theorem fetch_page_data_gives_up page max_retries check s :
  token_ok (token s) = true ->
  cache_miss env page s ->
  transient_for env (Z.to_nat max_retries) s ->
  exists s',
    fetch_page_data env page max_retries check s
    = (Ok (JNull, false, JBool false), s')
    /\ posts s' = (posts s + Z.to_nat max_retries)%nat
    /\ gets s' = gets s
    /\ cache_dir s' = cache_dir s.
Proof.
  intros Hok Hmiss Htransient.
  rewrite (fetch_page_data_skip _ _ _ _ (Z.to_nat max_retries) Hok Hmiss
             (Nat.le_refl _) Htransient).
  rewrite Nat.sub_diag. cbn [attempts].
  eexists. split; [reflexivity|].
  destruct (posts_iter (Z.to_nat max_retries)
              (if use_cache s then next_tick (log (EvFetch page) s)
               else log (EvFetch page) s))
    as (Hp & _ & _ & Hd & Hg & _).
  rewrite Hp, Hd, Hg. destruct (use_cache s); split_and!; reflexivity.
Qed.

(** X8. A 401 or a 403 is not retried.  With a token and nothing in the
    cache, the first answer that is not transient being a 401 or a 403
    ends the call at once, whatever is left of [max_retries]: the call
    returns [(None, True, False)] and keeps the token it has. *)
Theorem fetch_page_data_auth_failure
    page max_retries check s k status_code body :
  token_ok (token s) = true ->
  cache_miss env page s ->
  (k < Z.to_nat max_retries)%nat ->
  transient_for env k s ->
  api env (posts s + k) = Response status_code body ->
  status_code = 401 \/ status_code = 403 ->
  exists s',
    fetch_page_data env page max_retries check s
    = (Ok (JNull, true, JBool false), s')
    /\ posts s' = S (posts s + k)
    /\ token s' = token s
    /\ cache_dir s' = cache_dir s.
Proof.
  intros Hok Hmiss Hk Htransient Hanswer Hstatus.
  rewrite (fetch_page_data_skip page max_retries check s k Hok Hmiss
             (Nat.lt_le_incl _ _ Hk) Htransient).
  set (s0 := if use_cache s then next_tick (log (EvFetch page) s)
             else log (EvFetch page) s).
  assert (Hs0 : posts s0 = posts s /\ token s0 = token s
                /\ cache_dir s0 = cache_dir s)
    by (unfold s0; destruct (use_cache s); split_and!; reflexivity).
  destruct Hs0 as (Hposts & Htoken & Hdir).
  destruct (posts_iter k s0) as (Hp & Ht & _ & Hd & _).
  destruct (Z.to_nat max_retries - k)%nat as [|n] eqn:Hn; [lia|].
  cbn [attempts]. rewrite Hp, Hposts, Hanswer.
  assert (Hcode : (status_code =? 200) = false
                  /\ (status_code =? 401) || (status_code =? 403) = true)
    by (destruct Hstatus as [-> | ->]; split; reflexivity).
  destruct Hcode as [-> ->].
  eexists. split; [reflexivity|]. cbn [posts token cache_dir next_post].
  split_and!; congruence.
Qed.

(** The state after an answer with items came in as the first answer that
    is not transient. *)
Lemma fetch_page_data_answer page max_retries check s k d items is_last :
  token_ok (token s) = true ->
  cache_miss env page s ->
  (k < Z.to_nat max_retries)%nat ->
  transient_for env k s ->
  api env (posts s + k) = Response 200 (Some (JObj d)) ->
  dict_get d "realStateItemModel" = Some items ->
  check_last check (JObj d) = Ok is_last ->
  exists s1,
    cache_response env page (request_payload page) (JObj d)
      (next_post
         (Nat.iter k next_post
            (if use_cache s then next_tick (log (EvFetch page) s)
             else log (EvFetch page) s))) = Ok s1
    /\ fetch_page_data env page max_retries check s
       = (Ok (items, false, is_last), s1).
Proof.
  intros Hok Hmiss Hk Htransient Hanswer Hitems Hlast.
  rewrite (fetch_page_data_skip page max_retries check s k Hok Hmiss
             (Nat.lt_le_incl _ _ Hk) Htransient).
  set (s0 := if use_cache s then next_tick (log (EvFetch page) s)
             else log (EvFetch page) s).
  assert (Hposts : posts s0 = posts s)
    by (unfold s0; destruct (use_cache s); reflexivity).
  destruct (posts_iter k s0) as (Hp & _).
  destruct (Z.to_nat max_retries - k)%nat as [|n] eqn:Hn; [lia|].
  cbn [attempts]. rewrite Hp, Hposts, Hanswer.
  change (200 =? 200) with true. cbn match.
  rewrite py_in_dict, Hitems, Hlast.
  rewrite bool_decide_true by eauto.
  assert (Hsaved : exists s1,
    cache_response env page (request_payload page) (JObj d)
      (next_post (Nat.iter k next_post s0)) = Ok s1).
  { unfold cache_response. destruct (use_cache (next_post _)); [|eauto].
    destruct (get_cache_key_request page) as [key ->].
    eexists. reflexivity. }
  destruct Hsaved as [s1 Hs1]. exists s1. split; [exact Hs1|].
  rewrite Hs1. unfold py_get. rewrite Hitems. reflexivity.
Qed.

(** X9. Retrying until an answer comes.  With a token and nothing in the
    cache, transient answers are passed over as long as attempts are left:
    when the first answer that is not transient is a 200 whose body is a
    dict with the items, the call returns those items with the last-page
    signal of that body, and it has made one POST for each answer. *)
Theorem fetch_page_data_retries_until_answer
    page max_retries check s k d items is_last :
  token_ok (token s) = true ->
  cache_miss env page s ->
  (k < Z.to_nat max_retries)%nat ->
  transient_for env k s ->
  api env (posts s + k) = Response 200 (Some (JObj d)) ->
  dict_get d "realStateItemModel" = Some items ->
  check_last check (JObj d) = Ok is_last ->
  exists s',
    fetch_page_data env page max_retries check s
    = (Ok (items, false, is_last), s')
    /\ posts s' = S (posts s + k)
    /\ gets s' = gets s
    /\ token s' = token s.
Proof.
  intros Hok Hmiss Hk Htransient Hanswer Hitems Hlast.
  destruct (fetch_page_data_answer _ _ _ _ _ _ _ _ Hok Hmiss Hk Htransient
              Hanswer Hitems Hlast) as (s1 & Hs1 & Hfetch).
  exists s1. split; [exact Hfetch|].
  set (s0 := if use_cache s then next_tick (log (EvFetch page) s)
             else log (EvFetch page) s) in Hs1.
  assert (Hs0 : posts s0 = posts s /\ gets s0 = gets s
                /\ token s0 = token s)
    by (unfold s0; destruct (use_cache s); split_and!; reflexivity).
  destruct Hs0 as (Hposts & Hgets & Htoken).
  destruct (posts_iter k s0) as (Hp & Ht & _ & _ & Hg & _).
  apply cache_response_counters in Hs1 as (Hp1 & Hg1 & Ht1).
  cbn [posts gets token next_post] in Hp1, Hg1, Ht1.
  split_and!; congruence.
Qed.

(** *** The cache in front of the network *)

Lemma fetch_page_data_hit page max_retries check s key d is_last :
  use_cache s = true ->
  get_cache_key (process env) page (request_payload page) = Ok key ->
  get_from_cache (cache_dir s) (clock env (ticks s)) key = JObj d ->
  d <> [] ->
  check_last check (JObj d) = Ok is_last ->
  fetch_page_data env page max_retries check s
  = (Ok (default (JArr []) (dict_get d "realStateItemModel"), false,
         is_last),
     next_tick (log (EvFetch page) s)).
Proof.
  intros Hcache Hkey Hcached Hd Hlast. unfold fetch_page_data.
  cbn [use_cache log]. rewrite Hcache, Hkey.
  cbn [cache_dir next_tick log ticks]. rewrite Hcached.
  destruct d as [|kv d]; [done|]. cbn [truthy].
  rewrite Hlast. reflexivity.
Qed.

(** X10. A hit in the cache needs no network.  When the cache is on and
    holds a dict for the page that has not expired, [fetch_page_data]
    returns the items of that dict (an empty list if it has none) with its
    last-page signal, and does so without a POST and without asking for a
    token, also when the scraper has no token. *)
Theorem fetch_page_data_cache_hit page max_retries check s key d is_last :
  use_cache s = true ->
  get_cache_key (process env) page (request_payload page) = Ok key ->
  get_from_cache (cache_dir s) (clock env (ticks s)) key = JObj d ->
  d <> [] ->
  check_last check (JObj d) = Ok is_last ->
  exists s',
    fetch_page_data env page max_retries check s
    = (Ok (default (JArr []) (dict_get d "realStateItemModel"), false,
           is_last), s')
    /\ posts s' = posts s
    /\ gets s' = gets s
    /\ token s' = token s
    /\ cache_dir s' = cache_dir s.
Proof.
  intros Hcache Hkey Hcached Hd Hlast.
  exists (next_tick (log (EvFetch page) s)).
  split; [by apply (fetch_page_data_hit _ _ _ _ key)|].
  split_and!; reflexivity.
Qed.

(** X11. The second call for a page is served from the cache.  With the
    cache on, a call that brought the items of a page from the network and
    could write them into the cache is followed, within [CACHE_EXPIRY]
    seconds of that write, by a call for the same page that returns the
    same items and the same last-page signal without any POST. *)
Theorem second_fetch_hits_cache page max_retries check s k d items is_last :
  use_cache s = true ->
  token_ok (token s) = true ->
  cache_miss env page s ->
  (k < Z.to_nat max_retries)%nat ->
  transient_for env k s ->
  api env (posts s + k) = Response 200 (Some (JObj d)) ->
  dict_get d "realStateItemModel" = Some items ->
  check_last check (JObj d) = Ok is_last ->
  disk env (writes s) = Written ->
  clock env (S (S (ticks s))) - clock env (S (ticks s)) <= CACHE_EXPIRY ->
  exists s1 s2,
    fetch_page_data env page max_retries check s
    = (Ok (items, false, is_last), s1)
    /\ fetch_page_data env page max_retries check s1
       = (Ok (items, false, is_last), s2)
    /\ posts s1 = S (posts s + k)
    /\ posts s2 = posts s1.
Proof.
  intros Hcache Hok Hmiss Hk Htransient Hanswer Hitems Hlast Hdisk Hage.
  destruct (fetch_page_data_answer _ _ _ _ _ _ _ _ Hok Hmiss Hk Htransient
              Hanswer Hitems Hlast) as (s1 & Hs1 & Hfetch).
  rewrite Hcache in Hs1.
  destruct (posts_iter k (next_tick (log (EvFetch page) s)))
    as (Hp & _ & Hu & Hd & _ & Ht & Hw & _).
  destruct (get_cache_key_request page) as [key Hkey].
  unfold cache_response in Hs1.
  cbn [use_cache cache_dir ticks writes next_post next_tick next_write]
    in Hs1.
  rewrite Hu, Hd, Ht, Hw, Hkey in Hs1.
  cbn [use_cache cache_dir ticks writes log next_tick bind] in Hs1.
  rewrite Hcache, Hdisk in Hs1. injection Hs1 as <-.
  match type of Hfetch with _ = (_, ?st) => set (s1 := st) in * end.
  exists s1, (next_tick (log (EvFetch page) s1)).
  split; [exact Hfetch|]. split; [|split].
  - rewrite (fetch_page_data_hit page max_retries check s1 key d is_last).
    + rewrite Hitems. reflexivity.
    + unfold s1.
      cbn [use_cache set_cache_dir next_write next_tick next_post].
      rewrite Hu. exact Hcache.
    + exact Hkey.
    + unfold s1.
      cbn [cache_dir ticks set_cache_dir next_write next_tick next_post].
      rewrite Ht. cbn [ticks next_tick log].
      erewrite get_from_cache_fresh;
        [|apply lookup_insert_eq | exact Hage]; reflexivity.
    + intros ->. discriminate.
    + exact Hlast.
  - unfold s1. cbn [posts set_cache_dir next_write next_tick next_post].
    rewrite Hp. reflexivity.
  - reflexivity.
Qed.

(** X12. A cached value that is not a dict makes the call raise.  The
    lookup in the cache is outside the [try] of [fetch_page_data]: when
    the cache holds, for the page, a truthy JSON value that is not a dict
    -- a list, a string, a number -- the call ends with an exception. *)
Theorem fetch_page_data_raises_on_cached_value
    page max_retries check s key v :
  use_cache s = true ->
  get_cache_key (process env) page (request_payload page) = Ok key ->
  get_from_cache (cache_dir s) (clock env (ticks s)) key = v ->
  truthy v = true ->
  (forall d, v <> JObj d) ->
  exists e, (fetch_page_data env page max_retries check s).1 = Raise e.
Proof.
  intros Hcache Hkey Hcached Htruthy Hdict. unfold fetch_page_data.
  cbn [use_cache log]. rewrite Hcache, Hkey.
  cbn [cache_dir next_tick log ticks]. rewrite Hcached, Htruthy.
  destruct (check_last check v) as [is_last|e]; [|by exists e].
  exists AttributeError.
  destruct v; try reflexivity. by destruct (Hdict d).
Qed.

Lemma get_auth_token_answer s s0 :
  gets s0 = gets s ->
  (get_auth_token env s0).1 = (get_auth_token env s).1.
Proof.
  unfold get_auth_token. intros ->.
  by repeat case_match.
Qed.

(** X13. Without a token there is no request.  When the scraper has no
    token, the cache has nothing and the home page gives no token either,
    [fetch_page_data] returns [(None, False, False)] after that one GET and
    without a POST: the answer of a page whose retries ran out. *)
Theorem fetch_page_data_without_token page max_retries check s :
  token_ok (token s) = false ->
  cache_miss env page s ->
  (get_auth_token env s).1 = None ->
  exists s',
    fetch_page_data env page max_retries check s
    = (Ok (JNull, false, JBool false), s')
    /\ posts s' = posts s
    /\ gets s' = S (gets s)
    /\ token s' = None.
Proof.
  intros Hok Hmiss Hnone.
  rewrite (fetch_page_data_miss _ _ _ _ Hmiss). unfold fetch_from_network.
  set (s0 := if use_cache s then next_tick (log (EvFetch page) s)
             else log (EvFetch page) s).
  assert (Hs0 : token s0 = token s /\ posts s0 = posts s
                /\ gets s0 = gets s)
    by (unfold s0; destruct (use_cache s); split_and!; reflexivity).
  destruct Hs0 as (Htoken & Hposts & Hgets).
  rewrite Htoken, Hok. cbn [negb].
  pose proof (get_auth_token_answer s s0 Hgets) as Hanswer.
  destruct (get_auth_token env s0) as [t s1] eqn:Hauth.
  cbn [fst] in Hanswer. rewrite Hnone in Hanswer. subst t.
  cbn [token set_token token_ok negb].
  assert (Hs1 : s1 = log EvToken (next_get s0))
    by (unfold get_auth_token in Hauth; repeat case_match; congruence).
  eexists. split; [reflexivity|]. subst s1.
  cbn [posts gets token set_token log next_get].
  split_and!; congruence.
Qed.

End FetchFacts.

(** *** Single calls in given environments *)

Section FetchScenarios.

(** A file of another page stays in the cache while page 1 is fetched and
    cached. *)
Lemma fetch_page_data_touches_own_cache_file_witness :
  cache_dir
    (fetch_page_data (env_of [page_with [listing 1]] []) 1 3 true
       (set_cache_dir
          {[ "page_2_5.json" := {| content := Some (JNum 1); st_mtime := 0 |} ]}
          (set_token (Some "t") (fresh true)))).2 !! "page_2_5.json"
  = Some {| content := Some (JNum 1); st_mtime := 0 |}.
Proof.
  erewrite (fetch_page_data_touches_own_cache_file
              (env_of [page_with [listing 1]] []) 1 3 true).
  - reflexivity.
  - vm_compute. reflexivity.
  - vm_compute. discriminate.
Defined.

(** Three connection errors: three POSTs and no data. *)
Lemma fetch_page_data_gives_up_witness :
  exists s',
    fetch_page_data (env_of [] []) 1 3 true
                    (set_token (Some "t") (fresh false))
    = (Ok (JNull, false, JBool false), s')
    /\ posts s' = 3%nat
    /\ gets s' = 0%nat
    /\ cache_dir s' = ∅.
Proof.
  apply (fetch_page_data_gives_up (env_of [] []) 1 3 true
           (set_token (Some "t") (fresh false))).
  - reflexivity.
  - left. reflexivity.
  - intros i _. reflexivity.
Defined.

(** A 500 and then a 401: two POSTs, and a new token is wanted. *)
Lemma fetch_page_data_auth_failure_witness :
  exists s',
    fetch_page_data (env_of [Response 500 None; Response 401 None] []) 1 3
                    true (set_token (Some "t") (fresh false))
    = (Ok (JNull, true, JBool false), s')
    /\ posts s' = 2%nat
    /\ token s' = Some "t"
    /\ cache_dir s' = ∅.
Proof.
  apply (fetch_page_data_auth_failure
           (env_of [Response 500 None; Response 401 None] []) 1 3 true
           (set_token (Some "t") (fresh false)) 1 401 None).
  - reflexivity.
  - left. reflexivity.
  - vm_compute. lia.
  - intros i Hi. destruct i; [reflexivity | lia].
  - reflexivity.
  - left. reflexivity.
Defined.

(** A timeout and then the page: two POSTs and the record. *)
Lemma fetch_page_data_retries_until_answer_witness :
  exists s',
    fetch_page_data (env_of [Timeout; page_with [listing 1]] []) 1 3 true
                    (set_token (Some "t") (fresh false))
    = (Ok (JArr [listing 1], false, JBool false), s')
    /\ posts s' = 2%nat
    /\ gets s' = 0%nat
    /\ token s' = Some "t".
Proof.
  apply (fetch_page_data_retries_until_answer
           (env_of [Timeout; page_with [listing 1]] []) 1 3 true
           (set_token (Some "t") (fresh false)) 1
           [("realStateItemModel", JArr [listing 1])]).
  - reflexivity.
  - left. reflexivity.
  - vm_compute. lia.
  - intros i Hi. destruct i; [reflexivity | lia].
  - reflexivity.
  - reflexivity.
  - reflexivity.
Defined.

(** Page 1 was fetched and cached; a scraper without a token and without a
    network then reads it from the cache. *)
Lemma fetch_page_data_cache_hit_witness :
  exists s',
    fetch_page_data (env_of [] [RequestException]) 1 3 true
      (set_token None
         (fetch_page_data (env_of [page_with [listing 1]] []) 1 3 true
            (set_token (Some "t") (fresh true))).2)
    = (Ok (JArr [listing 1], false, JBool false), s')
    /\ posts s' = 1%nat
    /\ gets s' = 0%nat
    /\ token s' = None
    /\ cache_dir s'
       = cache_dir
           (fetch_page_data (env_of [page_with [listing 1]] []) 1 3 true
              (set_token (Some "t") (fresh true))).2.
Proof.
  eapply (fetch_page_data_cache_hit (env_of [] [RequestException]) 1 3 true
            (set_token None
               (fetch_page_data (env_of [page_with [listing 1]] []) 1 3 true
                  (set_token (Some "t") (fresh true))).2)
            _ [("realStateItemModel", JArr [listing 1])] (JBool false)).
  - vm_compute. reflexivity.
  - vm_compute. reflexivity.
  - vm_compute. reflexivity.
  - discriminate.
  - reflexivity.
Defined.

(** Page 1 twice in a row with the cache on: one POST. *)
Lemma second_fetch_hits_cache_witness :
  exists s1 s2,
    fetch_page_data (env_of [page_with [listing 1]] []) 1 3 true
                    (set_token (Some "t") (fresh true))
    = (Ok (JArr [listing 1], false, JBool false), s1)
    /\ fetch_page_data (env_of [page_with [listing 1]] []) 1 3 true s1
       = (Ok (JArr [listing 1], false, JBool false), s2)
    /\ posts s1 = 1%nat
    /\ posts s2 = posts s1.
Proof.
  apply (second_fetch_hits_cache (env_of [page_with [listing 1]] []) 1 3
           true (set_token (Some "t") (fresh true)) 0
           [("realStateItemModel", JArr [listing 1])]).
  - reflexivity.
  - reflexivity.
  - right. eexists. split; vm_compute; reflexivity.
  - vm_compute. lia.
  - intros i Hi. lia.
  - reflexivity.
  - reflexivity.
  - reflexivity.
  - reflexivity.
  - vm_compute. discriminate.
Defined.

(** The API answers page 1 with a list that holds the string
    [realStateItemModel]: the call caches the list before it fails on it,
    and the next call for page 1 raises. *)
Lemma fetch_page_data_raises_on_cached_value_witness :
  exists e,
    (fetch_page_data (env_of [] []) 1 3 false
       (fetch_page_data
          (env_of [Response 200 (Some (JArr [JStr "realStateItemModel"]))] [])
          1 3 false (set_token (Some "t") (fresh true))).2).1
    = Raise e.
Proof.
  eapply (fetch_page_data_raises_on_cached_value (env_of [] []) 1 3 false
            _ _ (JArr [JStr "realStateItemModel"])).
  - vm_compute. reflexivity.
  - vm_compute. reflexivity.
  - vm_compute. reflexivity.
  - reflexivity.
  - discriminate.
Defined.

(** No token and a home page out of reach: one GET, no POST. *)
Lemma fetch_page_data_without_token_witness :
  exists s',
    fetch_page_data (env_of [] [RequestException]) 1 3 true (fresh false)
    = (Ok (JNull, false, JBool false), s')
    /\ posts s' = 0%nat
    /\ gets s' = 1%nat
    /\ token s' = None.
Proof.
  apply (fetch_page_data_without_token (env_of [] [RequestException]) 1 3
           true (fresh false)).
  - reflexivity.
  - left. reflexivity.
  - reflexivity.
Defined.

End FetchScenarios.

(** ** The sweep of the cache *)

Section SweepFacts.

Implicit Types (dir listing : gmap string cache_file).

Lemma json_name_cache_path cache_key : json_name (cache_path cache_key) = true.
Proof.
  unfold json_name, cache_path.
  induction cache_key as [|c cache_key IH]; [reflexivity|].
  change (String c cache_key +:+ ".json")
    with (String c (cache_key +:+ ".json")).
  cbn [ends_with]. rewrite IH. apply orb_true_r.
Qed.

(** The loop over a listing that is part of the directory. *)
Lemma sweep_listing current_time dir listing :
  listing ⊆ dir ->
  let '(count, dir') :=
    map_fold (sweep_file current_time) (0, dir) listing in
  (forall name,
      dir' !! name
      = match listing !! name with
        | Some f => if json_name name && expired current_time f
                    then None else Some f
        | None => dir !! name
        end)
  /\ count + Z.of_nat (size dir') = Z.of_nat (size dir)
  /\ 0 <= count.
Proof.
  revert listing.
  apply (map_fold_weak_ind
           (fun (acc : Z * gmap string cache_file) listing =>
              listing ⊆ dir ->
              let '(count, dir') := acc in
              (forall name,
                  dir' !! name
                  = match listing !! name with
                    | Some f => if json_name name && expired current_time f
                                then None else Some f
                    | None => dir !! name
                    end)
              /\ count + Z.of_nat (size dir') = Z.of_nat (size dir)
              /\ 0 <= count)).
  - intros _. split; [|lia]. intros name. by rewrite lookup_empty.
  - intros name f listing [count dir'] Hnew IH Hsub.
    assert (Hsub' : listing ⊆ dir).
    { etrans; [|exact Hsub]. by apply insert_subseteq. }
    assert (Hfile : dir !! name = Some f).
    { eapply lookup_weaken; [|exact Hsub]. apply lookup_insert_eq. }
    destruct (IH Hsub') as (Hdir & Hcount & Hpos).
    assert (Hthere : dir' !! name = Some f).
    { rewrite Hdir, Hnew. exact Hfile. }
    unfold sweep_file. cbn [fst snd].
    destruct (json_name name && expired current_time f) eqn:Hgone.
    + split; [|split; [|lia]].
      * intros other. destruct (decide (other = name)) as [-> | Hother].
        -- rewrite lookup_delete_eq, lookup_insert_eq, Hgone. reflexivity.
        -- rewrite lookup_delete_ne, lookup_insert_ne by done. apply Hdir.
      * rewrite map_size_delete, Hthere.
        assert (size dir' <> 0%nat)
          by (apply map_size_ne_0_lookup_2 with name; eauto).
        lia.
    + split; [|split; [exact Hcount | exact Hpos]].
      intros other. destruct (decide (other = name)) as [-> | Hother].
      * rewrite lookup_insert_eq, Hgone. exact Hthere.
      * rewrite lookup_insert_ne by done. apply Hdir.
Qed.

Lemma clear_expired_cache_lookup dir current_time name :
  (clear_expired_cache dir current_time).2 !! name
  = match dir !! name with
    | Some f => if json_name name && expired current_time f
                then None else Some f
    | None => None
    end.
Proof.
  unfold clear_expired_cache.
  pose proof (sweep_listing current_time dir dir (reflexivity dir)) as H.
  destruct (map_fold _ _ _) as [count dir']. destruct H as [H _].
  cbn [snd]. rewrite (H name). by destruct (dir !! name).
Qed.

Lemma clear_expired_cache_count dir current_time :
  (clear_expired_cache dir current_time).1
  = Z.of_nat (size dir)
    - Z.of_nat (size (clear_expired_cache dir current_time).2).
Proof.
  unfold clear_expired_cache.
  pose proof (sweep_listing current_time dir dir (reflexivity dir)) as H.
  destruct (map_fold _ _ _) as [count dir']. cbn [fst snd].
  destruct H as (_ & H & _). lia.
Qed.

(** X14. What the sweep removes.  [clear_expired_cache] removes the files
    whose name ends in [.json] and whose age at the one reading of the
    clock is more than [CACHE_EXPIRY]; every other file stays as it is; and
    the number returned is the number of files that are gone. *)
Theorem clear_expired_cache_removes_expired dir current_time :
  (forall name,
      (clear_expired_cache dir current_time).2 !! name
      = match dir !! name with
        | Some f => if json_name name && expired current_time f
                    then None else Some f
        | None => None
        end)
  /\ (clear_expired_cache dir current_time).1
     = Z.of_nat (size dir)
       - Z.of_nat (size (clear_expired_cache dir current_time).2).
Proof.
  split.
  - apply clear_expired_cache_lookup.
  - apply clear_expired_cache_count.
Qed.

(** X15. The sweep is invisible to readers.  From the time of the sweep
    on, [get_from_cache] returns for every key what it would return had
    the sweep not run: the files that the sweep removes are those that
    [get_from_cache] treats as absent. *)
Theorem clear_expired_cache_keeps_answers dir current_time now cache_key :
  current_time <= now ->
  get_from_cache (clear_expired_cache dir current_time).2 now cache_key
  = get_from_cache dir now cache_key.
Proof.
  intros Hlater. unfold get_from_cache.
  rewrite clear_expired_cache_lookup, json_name_cache_path.
  destruct (dir !! cache_path cache_key) as [f|]; [|reflexivity].
  cbn [andb]. unfold expired.
  destruct (Z.ltb_spec CACHE_EXPIRY (current_time - st_mtime f));
    [|reflexivity].
  destruct (Z.ltb_spec CACHE_EXPIRY (now - st_mtime f)); [reflexivity|lia].
Qed.

(** X16. A second sweep finds nothing.  Sweeping again at the same reading
    of the clock removes no file and returns 0. *)
Theorem clear_expired_cache_twice dir current_time :
  clear_expired_cache (clear_expired_cache dir current_time).2 current_time
  = (0, (clear_expired_cache dir current_time).2).
Proof.
  assert (Hsame :
    (clear_expired_cache (clear_expired_cache dir current_time).2
                         current_time).2
    = (clear_expired_cache dir current_time).2).
  { apply map_eq. intros name. rewrite !clear_expired_cache_lookup.
    destruct (dir !! name) as [f|]; [|reflexivity].
    destruct (json_name name && expired current_time f) eqn:Hgone;
      [reflexivity|]. by rewrite Hgone. }
  pose proof (clear_expired_cache_count
                (clear_expired_cache dir current_time).2 current_time)
    as Hcount.
  rewrite Hsame in Hcount.
  destruct (clear_expired_cache (clear_expired_cache dir current_time).2
                                current_time) as [count dir'].
  cbn [fst snd] in *. f_equal; [lia | exact Hsame].
Qed.

End SweepFacts.

(** ** The names of the cache files *)

Section CacheKeyFacts.

Lemma length_append (a b : string) :
  String.length (a +:+ b) = (String.length a + String.length b)%nat.
Proof.
  induction a as [|c a IH]; [reflexivity|].
  change (String c a +:+ b) with (String c (a +:+ b)).
  cbn [String.length]. by rewrite IH.
Qed.

Lemma append_cancel_r (a b suffix : string) :
  a +:+ suffix = b +:+ suffix -> a = b.
Proof.
  revert b. induction a as [|c a IH]; intros [|c' b] H.
  - reflexivity.
  - apply (f_equal String.length) in H. rewrite !length_append in H.
    cbn in H. lia.
  - apply (f_equal String.length) in H. rewrite !length_append in H.
    cbn in H. lia.
  - change (String c (a +:+ suffix) = String c' (b +:+ suffix)) in H.
    injection H as -> H. f_equal. by apply IH.
Qed.

Lemma cache_path_inj key1 key2 :
  cache_path key1 = cache_path key2 -> key1 = key2.
Proof. apply append_cancel_r. Qed.

(** Strings without the character [c] that are followed by [c] end at the
    same place. *)
Lemma append_char_inj c (a b x y : string) :
  has_char c a = false ->
  has_char c b = false ->
  a +:+ String c x = b +:+ String c y ->
  a = b /\ x = y.
Proof.
  revert b. induction a as [|c1 a IH]; intros [|c2 b] Ha Hb H.
  - by injection H as ->.
  - change (String c x = String c2 (b +:+ String c y)) in H.
    injection H as <- _. cbn in Hb. by rewrite Ascii.eqb_refl in Hb.
  - change (String c1 (a +:+ String c x) = String c y) in H.
    injection H as -> _. cbn in Ha. by rewrite Ascii.eqb_refl in Ha.
  - change (String c1 (a +:+ String c x) = String c2 (b +:+ String c y))
      in H.
    injection H as -> H. cbn in Ha, Hb.
    apply orb_false_elim in Ha as [_ Ha].
    apply orb_false_elim in Hb as [_ Hb].
    destruct (IH b Ha Hb H) as [-> ->]. done.
Qed.

Lemma pretty_N_go_has_char c x s :
  (forall d, pretty_N_char d <> c) ->
  has_char c s = false ->
  has_char c (pretty_N_go x s) = false.
Proof.
  intros Hdigit. revert s.
  induction (N.lt_wf_0 x) as [x _ IH]; intros s Hs.
  assert (x = 0 \/ 0 < x)%N as [-> | Hx] by lia.
  - by rewrite pretty_N_go_0.
  - rewrite pretty_N_go_step by done. apply IH; [by apply N.div_lt|].
    cbn [has_char]. rewrite Hs, orb_false_r.
    apply Ascii.eqb_neq. intros Heq. by apply (Hdigit (x `mod` 10)%N).
Qed.

(** The decimal numeral of an integer has no underscore. *)
Lemma pretty_Z_no_underscore (n : Z) : has_char "_" (pretty n) = false.
Proof.
  assert (Hdigit : forall d, pretty_N_char d <> "_"%char)
    by (intros d; unfold pretty_N_char; repeat case_match; discriminate).
  assert (Hpos : forall p : positive, has_char "_" (pretty p) = false).
  { intros p. unfold pretty, pretty_positive, pretty, pretty_N.
    case_decide; [reflexivity|]. by apply pretty_N_go_has_char. }
  destruct n as [|p|p].
  - reflexivity.
  - apply Hpos.
  - change (pretty (Z.neg p)) with ("-" +:+ pretty p).
    change ("-" +:+ pretty p) with (String "-" (pretty p)).
    cbn [has_char]. rewrite Hpos. reflexivity.
Qed.

(** X17. Pages never share a cache file.  The cache keys that
    [get_cache_key] gives to two different pages are different, whatever
    the parameters and whatever the process that computes each of them; so
    are the paths of their cache files. *)
Theorem get_cache_key_separates_pages
    P1 P2 page1 page2 params1 params2 key1 key2 :
  get_cache_key P1 page1 params1 = Ok key1 ->
  get_cache_key P2 page2 params2 = Ok key2 ->
  page1 <> page2 ->
  key1 <> key2 /\ cache_path key1 <> cache_path key2.
Proof.
  intros H1 H2 Hpages.
  assert (Hshape : forall P page params key,
    get_cache_key P page params = Ok key ->
    exists h : Z, key = "page_" +:+ pretty page +:+ String "_" (pretty h)).
  { intros P page params key. unfold get_cache_key, bind.
    intros H. repeat case_match; simplify_eq. eauto. }
  destruct (Hshape _ _ _ _ H1) as [h1 ->].
  destruct (Hshape _ _ _ _ H2) as [h2 ->].
  assert (Hne : "page_" +:+ pretty page1 +:+ String "_" (pretty h1)
                <> "page_" +:+ pretty page2 +:+ String "_" (pretty h2)).
  { intros Heq. apply (inj (String.app "page_")) in Heq.
    apply append_char_inj in Heq as [Heq _];
      [|apply pretty_Z_no_underscore..].
    by apply (inj pretty) in Heq. }
  split; [exact Hne|]. intros Heq. by apply cache_path_inj in Heq.
Qed.


End CacheKeyFacts.

(** *** The cache in given states *)

Section CacheScenarios.

(** A file written at second 0 is removed by a sweep a day and a bit
    later; a reader finds nothing with and without the sweep. *)
Lemma clear_expired_cache_keeps_answers_witness :
  get_from_cache
    (clear_expired_cache
       {[ "page_1_7.json" := {| content := Some (JNum 1); st_mtime := 0 |} ]}
       90000).2 90001 "page_1_7"
  = get_from_cache
      {[ "page_1_7.json" := {| content := Some (JNum 1); st_mtime := 0 |} ]}
      90001 "page_1_7".
Proof.
  apply (clear_expired_cache_keeps_answers
           {[ "page_1_7.json" :=
                {| content := Some (JNum 1); st_mtime := 0 |} ]}
           90000 90001 "page_1_7").
  lia.
Defined.

(** Pages 1 and 2 of the same search, in the same process. *)
Lemma get_cache_key_separates_pages_witness :
  exists key1 key2,
    get_cache_key process_seed_0 1 (request_payload 1) = Ok key1
    /\ get_cache_key process_seed_0 2 (request_payload 2) = Ok key2
    /\ key1 <> key2
    /\ cache_path key1 <> cache_path key2.
Proof.
  eexists _, _.
  split; [vm_compute; reflexivity|]. split; [vm_compute; reflexivity|].
  eapply (get_cache_key_separates_pages process_seed_0 process_seed_0 1 2
            (request_payload 1) (request_payload 2)).
  - vm_compute. reflexivity.
  - vm_compute. reflexivity.
  - lia.
Defined.


End CacheScenarios.

(** ** The workers *)

Section WorkerFacts.

Variable env : Env.

Lemma get_auth_token_state s t s1 :
  get_auth_token env s = (t, s1) -> s1 = log EvToken (next_get s).
Proof. unfold get_auth_token. intros H. repeat case_match; congruence. Qed.

Lemma new_scraper_files cache s :
  posts (new_scraper env cache s) = posts s
  /\ gets (new_scraper env cache s) = gets s
  /\ use_cache (new_scraper env cache s) = cache
  /\ token (new_scraper env cache s) = None
  /\ trace (new_scraper env cache s) = trace s
  /\ same_files s (new_scraper env cache s)
  /\ load_checkpoint (new_scraper env cache s) = load_checkpoint s
  /\ load_properties (new_scraper env cache s) = load_properties s.
Proof.
  unfold new_scraper. destruct cache; split_and!; try reflexivity;
    repeat split.
Qed.

(** *** The loop with a replaced [fetch_page_data] *)

Lemma scrape_loop_with_original fuel end_page detect batch_size r s :
  scrape_loop_with env
    (fun page check => fetch_page_data env page MAX_RETRIES check)
    fuel end_page detect batch_size r s
  = scrape_loop env fuel end_page detect batch_size r s.
Proof.
  revert r s. induction fuel as [|fuel IH]; intros r s; [reflexivity|].
  cbn [scrape_loop_with scrape_loop].
  destruct (_ && _); [|reflexivity].
  change (scrape_page_with env _ detect batch_size r s)
    with (scrape_page env detect batch_size r s).
  destruct (scrape_page env detect batch_size r s) as [[[| |e] r1] s1];
    [apply IH | reflexivity | reflexivity].
Qed.

(** With the method of the class in place of [fetch], the loop is the one
    of [scrape_properties]. *)
Lemma scrape_properties_with_original
    start_page end_page batch_size retry_failed detect s :
  scrape_properties_with env
    (fun page check => fetch_page_data env page MAX_RETRIES check)
    start_page end_page batch_size retry_failed detect s
  = scrape_properties env start_page end_page batch_size retry_failed
                      detect s.
Proof.
  unfold scrape_properties_with, scrape_properties, scrape_properties_fuel.
  destruct (_ <=? _); [reflexivity|].
  destruct (get_auth_token env s) as [t s1].
  destruct (negb _); [reflexivity|].
  by rewrite scrape_loop_with_original.
Qed.

(** X19. The rate-limited worker never fetches a page.  Its replacement
    for [fetch_page_data] does not take the keyword [check_last_page] that
    [scrape_properties] passes, so [scrape_with_rate_limit] makes no POST
    and writes no file: it returns the records stored before, when the
    checkpoint has reached the end page or no token is to be had, and it
    raises [TypeError] in every other case. *)
Theorem scrape_with_rate_limit_never_fetches start_page end_page cache s :
  exists result s',
    scrape_with_rate_limit env (start_page, end_page, cache) s
    = Some (result, s')
    /\ posts s' = posts s
    /\ same_files s s'
    /\ (result = Ok (JArr (load_properties s)) \/ result = Raise TypeError)
    /\ (load_checkpoint s < end_page ->
        token_ok (get_auth_token env (new_scraper env cache s)).1 = true ->
        result = Raise TypeError)
    /\ (end_page <= load_checkpoint s
        \/ token_ok (get_auth_token env (new_scraper env cache s)).1 = false
        -> result = Ok (JArr (load_properties s))).
Proof.
  destruct (new_scraper_files cache s)
    as (Hposts & _ & _ & _ & _ & Hfiles & Hlast & Hrecords).
  unfold scrape_with_rate_limit, scrape_properties_with.
  cbn [resolve_end_page]. rewrite Hlast, Hrecords.
  set (s0 := new_scraper env cache s) in *.
  destruct (Z.leb_spec end_page (load_checkpoint s)) as [Hdone | Hmore].
  { eexists _, _. split; [reflexivity|].
    split; [exact Hposts|]. split; [exact Hfiles|].
    split; [by left|]. split; [lia | reflexivity]. }
  destruct (get_auth_token env s0) as [t s1] eqn:Hauth.
  apply get_auth_token_state in Hauth as ->.
  cbn [token set_token fst].
  assert (Hfiles1 : same_files s (set_token t (log EvToken (next_get s0))))
    by exact Hfiles.
  destruct (token_ok t) eqn:Hok; cbn [negb].
  2:{ eexists _, _. split; [reflexivity|].
      split; [exact Hposts|]. split; [exact Hfiles1|].
      split; [by left|]. split; [discriminate | reflexivity]. }
  assert (Hraise : exists s',
    match
      scrape_loop_with env rate_limited_fetch
        (pages_ahead start_page end_page s0) end_page true 50
        (initial_run start_page s0)
        (set_token t (log EvToken (next_get s0)))
    with
    | (OutOfFuel, _, _) => None
    | (Crashed e, _, s2) => Some (Raise e, s2)
    | (Exhausted, r, s2) | (Aborted, r, s2) =>
        let '(v, s3) := finish end_page true r s2 in Some (Ok v, s3)
    end = Some (match s' with
                | inl s2 => (Raise TypeError, s2)
                | inr s2 => (Ok JNull, s2)
                end)
    /\ match s' with inl s2 | inr s2 => s2 end
       = set_token t (log EvToken (next_get s0))).
  { unfold pages_ahead. rewrite Hlast.
    destruct (Z.leb_spec (Z.max (load_checkpoint s + 1) start_page) end_page)
      as [Hpage | Hnone].
    - destruct (Z.to_nat _) as [|fuel] eqn:Hfuel; [lia|].
      cbn [scrape_loop_with current_page reached_last_page initial_run].
      rewrite Hlast.
      destruct (Z.leb_spec (Z.max (load_checkpoint s + 1) start_page)
                           end_page); [|lia].
      cbn [andb negb scrape_page_with rate_limited_fetch].
      by eexists (inl _).
    - assert (Hloop : forall fuel,
        scrape_loop_with env rate_limited_fetch fuel end_page true 50
          (initial_run start_page s0)
          (set_token t (log EvToken (next_get s0)))
        = (Exhausted, initial_run start_page s0,
           set_token t (log EvToken (next_get s0)))).
      { intros fuel.
        destruct fuel;
          cbn [scrape_loop_with current_page reached_last_page initial_run];
          rewrite Hlast;
          destruct (Z.leb_spec (Z.max (load_checkpoint s + 1) start_page)
                               end_page); (lia || reflexivity). }
      rewrite Hloop. by eexists (inr _). }
  destruct Hraise as ([s2 | s2] & -> & Hs2); cbn in Hs2; subst s2.
  - eexists _, _. split; [reflexivity|].
    split; [exact Hposts|]. split; [exact Hfiles1|].
    split; [by right|]. split; [reflexivity|].
    intros [? | ?]; [lia | discriminate].
  - eexists _, _. split; [reflexivity|].
    split; [exact Hposts|]. split; [exact Hfiles1|].
    split; [by right|]. split; [reflexivity|].
    intros [? | ?]; [lia | discriminate].
Qed.

(** *** [scrape_range] *)

(** What [scrape_properties] returns is a list or [None]. *)
Lemma scrape_properties_value
    start_page end_page batch_size retry_failed detect s v s' :
  scrape_properties env start_page end_page batch_size retry_failed detect s
  = Some (Ok v, s') ->
  v = JNull \/ exists l, v = JArr l.
Proof.
  unfold scrape_properties, scrape_properties_fuel. intros H.
  repeat case_match; simplify_eq; eauto;
    match goal with
    | Hfin : finish _ _ _ _ = _ |- _ =>
        apply finish_spec in Hfin as (-> & _); case_match; eauto
    end.
Qed.

(** X20. [scrape_range] does not return [None].  The worker returns the
    list that [scrape_properties] returns, which starts with the records
    stored before; when [scrape_properties] returns [None], the worker
    raises [TypeError] at the line that logs the number of records. *)
Theorem scrape_range_returns_list_or_raises start_page end_page cache s :
  exists result s',
    scrape_properties env start_page (Some end_page) 50 true true
                      (new_scraper env cache s) = Some (result, s')
    /\ scrape_range env (start_page, end_page, cache) s
       = Some (match result with
               | Ok JNull => Raise TypeError
               | _ => result
               end, s')
    /\ (forall v, result = Ok v ->
                  v = JNull
                  \/ exists more, v = JArr (load_properties s ++ more)).
Proof.
  destruct (scrape_properties_summary env start_page (Some end_page) 50
              true true (new_scraper env cache s))
    as (result & s' & new & Hrun & _ & _ & _ & _ & _ & _ & _ & _ & Hlist
        & _).
  exists result, s'. split; [exact Hrun|]. split.
  - unfold scrape_range. rewrite Hrun.
    destruct result as [v|e]; [|reflexivity].
    destruct (scrape_properties_value _ _ _ _ _ _ _ _ Hrun)
      as [-> | [l ->]]; reflexivity.
  - intros v ->.
    destruct (scrape_properties_value _ _ _ _ _ _ _ _ Hrun)
      as [-> | [l ->]]; [by left | right].
    destruct (Hlist l eq_refl) as [more ->].
    destruct (new_scraper_files cache s) as (_ & _ & _ & _ & _ & _ & _ & ->).
    by exists more.
Qed.

Lemma handle_result_items detect batch_size x items r s :
  exists r' s',
    handle_result detect batch_size (JArr (x :: items)) (JBool false) r s
    = (Continue, r', s')
    /\ current_page r' = current_page r + 1
    /\ reached_last_page r' = reached_last_page r
    /\ failed_pages r' = failed_pages r
    /\ posts s' = posts s
    /\ use_cache s' = use_cache s
    /\ token s' = token s.
Proof.
  unfold handle_result. cbn [truthy py_len py_iter bind].
  destruct (Z.eqb_spec (Z.of_nat (length (x :: items))) 0) as [H|_];
    [cbn in H; lia|].
  cbn [andb]. destruct (_ || _); eexists _, _; split_and!; reflexivity.
Qed.

(** One pass of the loop over a page that is served. *)
Lemma scrape_page_served detect batch_size r s d x items :
  use_cache s = false ->
  token_ok (token s) = true ->
  api env (posts s) = Response 200 (Some (JObj d)) ->
  dict_get d "realStateItemModel" = Some (JArr (x :: items)) ->
  is_last_page (JObj d) = Ok (JBool false) ->
  exists r' s',
    scrape_page env detect batch_size r s = (Continue, r', s')
    /\ current_page r' = current_page r + 1
    /\ reached_last_page r' = reached_last_page r
    /\ failed_pages r' = failed_pages r
    /\ posts s' = S (posts s)
    /\ use_cache s' = false
    /\ token s' = token s.
Proof.
  intros Hcache Hok Hanswer Hitems Hlast.
  assert (Hcheck : check_last detect (JObj d) = Ok (JBool false))
    by (destruct detect; [exact Hlast | reflexivity]).
  rewrite <- (Nat.add_0_r (posts s)) in Hanswer.
  destruct (fetch_page_data_answer env (current_page r) MAX_RETRIES detect
              s 0 d (JArr (x :: items)) (JBool false) Hok
              (or_introl Hcache) ltac:(vm_compute; lia)
              ltac:(intros i Hi; lia) Hanswer Hitems Hcheck)
    as (s1 & Hs1 & Hfetch).
  rewrite Hcache in Hs1. cbn [Nat.iter nat_rect] in Hs1.
  unfold cache_response in Hs1. cbn [use_cache next_post log] in Hs1.
  rewrite Hcache in Hs1. injection Hs1 as <-.
  unfold scrape_page. rewrite Hfetch.
  destruct (handle_result_items detect batch_size x items r
              (next_post (log (EvFetch (current_page r)) s)))
    as (r' & s' & Hhandle & Hpage & Hreached & Hfailed & Hposts & Huse
        & Htoken).
  exists r', s'. split; [exact Hhandle|].
  split_and!; try assumption.
  rewrite Huse. exact Hcache.
Qed.

(** The loop over pages that are all served: it runs to the end page and
    no page fails. *)
Lemma scrape_loop_served n :
  forall fuel end_page detect batch_size r s,
    (n <= fuel)%nat ->
    use_cache s = false ->
    token_ok (token s) = true ->
    reached_last_page r = false ->
    current_page r + Z.of_nat n = end_page + 1 ->
    served env n s ->
    exists r' s',
      scrape_loop env fuel end_page detect batch_size r s
      = (Exhausted, r', s')
      /\ failed_pages r' = failed_pages r
      /\ current_page r' = end_page + 1
      /\ posts s' = (posts s + n)%nat.
Proof.
  induction n as [|n IH];
    intros fuel end_page detect batch_size r s Hfuel Hcache Hok Hreached
           Hpages Hserved.
  - exists r, s.
    assert (Hcond : (current_page r <=? end_page)
                    && negb (reached_last_page r) = false).
    { destruct (Z.leb_spec (current_page r) end_page); [lia|reflexivity]. }
    split; [destruct fuel; cbn [scrape_loop]; rewrite Hcond; reflexivity|].
    split_and!; [reflexivity | lia | lia].
  - destruct fuel as [|fuel]; [lia|]. cbn [scrape_loop].
    destruct (Z.leb_spec (current_page r) end_page); [|lia].
    rewrite Hreached. cbn [andb negb].
    destruct (Hserved 0%nat ltac:(lia)) as (d & x & items & Hanswer & Hitems
                                            & Hlast).
    rewrite Nat.add_0_r in Hanswer.
    destruct (scrape_page_served detect batch_size r s d x items Hcache Hok
                Hanswer Hitems Hlast)
      as (r1 & s1 & Hpage & Hpage1 & Hreached1 & Hfailed1 & Hposts1
          & Hcache1 & Htoken1).
    rewrite Hpage.
    destruct (IH fuel end_page detect batch_size r1 s1)
      as (r' & s' & Hloop & Hfailed & Hend & Hposts); try congruence;
      try lia.
    { intros i Hi. rewrite Hposts1.
      replace (S (posts s) + i)%nat with (posts s + S i)%nat by lia.
      apply Hserved. lia. }
    exists r', s'. split; [exact Hloop|].
    split_and!; [congruence | exact Hend | lia].
Qed.

(** X21. A worker whose pages are all served raises.  When the worker has
    pages to do, gets a token, and every page up to the end page is
    answered with records and no last-page signal, no page fails, so
    [scrape_properties] returns [None] after one POST for each page, and
    [scrape_range] raises [TypeError] instead of returning the records. *)
Theorem scrape_range_raises_when_all_pages_are_served start_page end_page s :
  load_checkpoint s < end_page ->
  token_ok (get_auth_token env (new_scraper env false s)).1 = true ->
  served env (pages_ahead start_page end_page s) s ->
  exists s',
    scrape_properties env start_page (Some end_page) 50 true true
                      (new_scraper env false s) = Some (Ok JNull, s')
    /\ scrape_range env (start_page, end_page, false) s
       = Some (Raise TypeError, s')
    /\ posts s' = (posts s + pages_ahead start_page end_page s)%nat.
Proof.
  intros Hmore Htoken Hserved.
  destruct (new_scraper_files false s)
    as (Hposts & _ & Hcache & _ & _ & _ & Hlast & _).
  set (s0 := new_scraper env false s) in *.
  destruct (get_auth_token env s0) as [t s1] eqn:Hauth.
  cbn [fst] in Htoken.
  pose proof (get_auth_token_state _ _ _ Hauth) as Hs1.
  assert (Hahead : pages_ahead start_page end_page s0
                   = pages_ahead start_page end_page s)
    by (unfold pages_ahead; by rewrite Hlast).
  destruct (Z.le_gt_cases (Z.max (load_checkpoint s + 1) start_page)
                          (end_page + 1)) as [Hfirst | Hpast].
  - destruct (scrape_loop_served (pages_ahead start_page end_page s)
                (pages_ahead start_page end_page s0) end_page true 50
                (initial_run start_page s0) (set_token t s1))
      as (r & s2 & Hloop & Hfailed & _ & Hposts2).
    + rewrite Hahead. lia.
    + subst s1. exact Hcache.
    + exact Htoken.
    + reflexivity.
    + cbn [current_page initial_run]. rewrite Hlast.
      unfold pages_ahead. lia.
    + intros i Hi. subst s1. cbn [posts set_token log next_get].
      rewrite Hposts. by apply Hserved.
    + assert (Hrun : scrape_properties env start_page (Some end_page) 50
                       true true s0
                     = Some (Ok (finish end_page true r s2).1,
                             (finish end_page true r s2).2)).
      { rewrite (scrape_properties_unfold env start_page (Some end_page) 50
                   true true s0 t s1 Exhausted r s2); [reflexivity|..].
        - cbn [resolve_end_page]. rewrite Hlast. exact Hmore.
        - exact Hauth.
        - exact Htoken.
        - exact Hloop. }
      destruct (finish end_page true r s2) as [v s3] eqn:Hfin.
      pose proof (finish_spec _ _ _ _ _ _ Hfin) as (Hv & Hkeep & Hsave).
      rewrite Hfailed in Hv. cbn [failed_pages initial_run] in Hv.
      rewrite bool_decide_false in Hv by (intros H; by apply H).
      cbn in Hv. subst v. cbn [fst snd] in Hrun.
      exists s3. split; [exact Hrun|]. split.
      * unfold scrape_range. fold s0. rewrite Hrun. reflexivity.
      * assert (Hposts3 : posts s3 = posts s2).
        { unfold finish in Hfin.
          destruct (truthy _); destruct (_ && _); simplify_eq;
            reflexivity. }
        rewrite Hposts3, Hposts2. subst s1.
        cbn [posts set_token log next_get]. rewrite Hposts. reflexivity.
  - (* the start page is past the end page: the loop does not run *)
    assert (Hnone : pages_ahead start_page end_page s = 0%nat)
      by (unfold pages_ahead; lia).
    assert (Hrun : scrape_properties env start_page (Some end_page) 50
                     true true s0
                   = Some (Ok JNull, set_token t s1)).
    { rewrite (scrape_properties_unfold env start_page (Some end_page) 50
                 true true s0 t s1 Exhausted
                 (initial_run start_page s0) (set_token t s1));
        [reflexivity|..].
      - cbn [resolve_end_page]. rewrite Hlast. exact Hmore.
      - exact Hauth.
      - exact Htoken.
      - cbn [resolve_end_page]. rewrite Hahead, Hnone.
        cbn [scrape_loop current_page reached_last_page initial_run].
        rewrite Hlast.
        destruct (Z.leb_spec (Z.max (load_checkpoint s + 1) start_page)
                             end_page); [lia | reflexivity]. }
    exists (set_token t s1). split; [exact Hrun|]. split.
    + unfold scrape_range. fold s0. rewrite Hrun. reflexivity.
    + rewrite Hnone. subst s1. cbn [posts set_token log next_get].
      rewrite Hposts. lia.
Qed.

End WorkerFacts.

(** ** The fan-out driver, once more *)

Section DriverFacts.

Lemma dict_set_fresh k v (d : list (dict_key * json)) :
  k ∉ d.*1 -> dict_set k v d = d ++ [(k, v)].
Proof.
  induction d as [|[k0 v0] d IH]; cbn; [reflexivity|].
  intros Hk. apply not_elem_of_cons in Hk as [Hne Hk].
  destruct (decide (k0 = k)); [congruence|]. by rewrite IH.
Qed.

(** Adding the values of a dict, in order, after a dict with other keys
    appends the dict. *)
Lemma foldl_add_record_values (d d0 : list (dict_key * json)) :
  NoDup (d0 ++ d).*1 ->
  Forall (fun kv => identity kv.2 = Some kv.1) d ->
  foldl add_record d0 d.*2 = d0 ++ d.
Proof.
  revert d0. induction d as [|[k v] d IH]; intros d0 Hkeys Hids; cbn.
  - by rewrite app_nil_r.
  - apply Forall_cons in Hids as [Hid Hids]. cbn in Hid.
    unfold add_record at 2. rewrite Hid.
    rewrite dict_set_fresh.
    + rewrite IH; [by rewrite <- app_assoc | by rewrite <- app_assoc | done].
    + rewrite fmap_app in Hkeys. apply NoDup_app in Hkeys as (_ & Hkeys & _).
      intros Hin. apply (Hkeys k Hin). cbn. by left.
Qed.

Lemma merged_dict_identities (d : list (dict_key * json)) :
  identity <$> d.*2 = Some <$> d.*1 ->
  Forall (fun kv => identity kv.2 = Some kv.1) d.
Proof.
  induction d as [|[k v] d IH]; cbn; [constructor|].
  intros [= Hid Hrest]. constructor; [exact Hid | by apply IH].
Qed.

(** Merging again what a merge has produced rebuilds the same dict. *)
Lemma foldl_add_record_merged props :
  foldl add_record [] (foldl add_record [] props).*2
  = foldl add_record [] props.
Proof.
  rewrite foldl_add_record_values; [reflexivity|..].
  - apply add_record_NoDup. constructor.
  - apply merged_dict_identities, merged_identities.
Qed.

Lemma merged_values_are_records props :
  Forall is_record props ->
  Forall is_record (foldl add_record [] props).*2.
Proof.
  rewrite !Forall_forall. intros Hprops prop Hin.
  apply merged_records in Hin as (k & Hlast). apply Hprops.
  apply last_Some in Hlast as [l Hl].
  assert (Hin : prop ∈ records_with k props)
    by (rewrite Hl; apply elem_of_app; right; by left).
  unfold records_with in Hin. by apply list_elem_of_filter in Hin as [_ ?].
Qed.

Lemma merge_results_records results :
  Forall (Forall is_record) results ->
  merge_results results
  = Ok (foldl add_record [] (concat results)).*2.
Proof.
  unfold merge_results.
  induction results as [|result results IH] using rev_ind; [reflexivity|].
  intros [Hresults Hresult]%Forall_app.
  rewrite Forall_singleton in Hresult.
  assert (Hall : Forall is_record (concat results))
    by (by apply Forall_concat).
  rewrite foldl_app. cbn [foldl]. rewrite (IH Hresults). cbn [bind].
  rewrite merge_property_lists_records
    by (apply Forall_app; split;
        [by apply merged_values_are_records | exact Hresult]).
  rewrite concat_app. cbn [concat]. rewrite app_nil_r.
  rewrite !foldl_app, foldl_add_record_merged. reflexivity.
Qed.

(** X22. Merging the workers' results one after the other is one merge.
    [reduce(self.merge_property_lists, results, [])] gives, for lists of
    records, exactly what [merge_property_lists] gives for the empty list
    and all results put one after the other. *)
Theorem merge_results_is_one_merge results :
  Forall (Forall is_record) results ->
  merge_results results = merge_property_lists [] (concat results).
Proof.
  intros Hresults. rewrite (merge_results_records _ Hresults).
  rewrite merge_property_lists_records; [reflexivity|].
  by apply Forall_concat.
Qed.

Lemma omap_length_le {A B : Type} (f : A -> option B) (l : list A) :
  (length (omap f l) <= length l)%nat.
Proof.
  induction l as [|x l IH]; cbn; [lia|]. destruct (f x); cbn; lia.
Qed.

(** X23. The ranges of the workers are blocks of the page range.  Every
    range that [scrape_with_multiprocessing] builds is not empty and lies
    within [start_page] and [end_page]; no page belongs to two ranges; and
    there are at most [num_workers] ranges. *)
Theorem worker_ranges_are_disjoint_blocks
    start_page end_page num_workers ranges :
  worker_ranges start_page end_page num_workers = Ok ranges ->
  Forall (fun r => start_page <= r.1 /\ r.1 <= r.2 /\ r.2 <= end_page)
         ranges
  /\ (forall r1 r2 page,
        r1 ∈ ranges -> r2 ∈ ranges ->
        r1.1 <= page <= r1.2 -> r2.1 <= page <= r2.2 -> r1 = r2)
  /\ (length ranges <= Z.to_nat num_workers)%nat.
Proof.
  intros Hranges. split; [|split].
  - revert Hranges. unfold worker_ranges.
    destruct (num_workers =? 0); [discriminate|]. intros [= <-].
    set (w := Z.max 1 ((end_page - start_page + 1) `div` num_workers)).
    assert (Hw : 1 <= w) by (unfold w; lia).
    apply Forall_forall. intros [a b] (i & Hi & Hrange)%list_elem_of_omap.
    apply elem_of_seqZ in Hi.
    destruct (Z.leb_spec (start_page + i * w)
                (Z.min end_page (start_page + i * w + w - 1)));
      [|discriminate].
    injection Hrange as <- <-. cbn. nia.
  - intros r1 r2 page. by apply (worker_ranges_disjoint _ _ _ _ _ _ _ Hranges).
  - revert Hranges. unfold worker_ranges.
    destruct (num_workers =? 0); [discriminate|]. intros [= <-].
    etrans; [apply omap_length_le|]. by rewrite length_seqZ.
Qed.

(** X24. The pages that no worker gets.  With [num_workers] workers for
    [total] pages, the workers share the whole range when there are fewer
    pages than workers, and otherwise all but the last [total mod
    num_workers] pages: a page of the range belongs to a worker exactly
    when it is not among those. *)
Theorem worker_ranges_lost_pages
    start_page end_page num_workers ranges page :
  0 < num_workers ->
  worker_ranges start_page end_page num_workers = Ok ranges ->
  start_page <= page <= end_page ->
  covered ranges page <->
  page <= end_page
          - (if end_page - start_page + 1 <? num_workers then 0
             else (end_page - start_page + 1) `mod` num_workers).
Proof.
  intros Hn Hranges Hpage.
  rewrite (worker_ranges_cover _ _ _ _ _ Hn Hranges).
  pose proof (Z.div_mod (end_page - start_page + 1) num_workers
                ltac:(lia)) as Hdiv.
  pose proof (Z.mod_pos_bound (end_page - start_page + 1) num_workers Hn)
    as Hmod.
  destruct (Z.ltb_spec (end_page - start_page + 1) num_workers) as [Hfew|Hmany].
  - rewrite Z.div_small by lia. change (Z.max 1 0) with 1. lia.
  - assert (1 <= (end_page - start_page + 1) `div` num_workers)
      by (apply Z.div_le_lower_bound; lia).
    rewrite Z.max_r by lia. lia.
Qed.

End DriverFacts.

(** *** The workers and the driver in given environments *)

Section WorkerScenarios.

(** Two pages, both served: the worker makes its two POSTs and raises. *)
Lemma scrape_range_raises_when_all_pages_are_served_witness :
  exists s',
    scrape_properties
      (env_of [page_with [listing 1]; page_with [listing 2]] [])
      1 (Some 2) 50 true true
      (new_scraper
         (env_of [page_with [listing 1]; page_with [listing 2]] [])
         false (fresh false))
    = Some (Ok JNull, s')
    /\ scrape_range
         (env_of [page_with [listing 1]; page_with [listing 2]] [])
         (1, 2, false) (fresh false)
       = Some (Raise TypeError, s')
    /\ posts s' = 2%nat.
Proof.
  apply (scrape_range_raises_when_all_pages_are_served
           (env_of [page_with [listing 1]; page_with [listing 2]] [])
           1 2 (fresh false)).
  - cbn. lia.
  - reflexivity.
  - intros i Hi. change (i < 2)%nat in Hi.
    destruct i as [|i]; [|destruct i as [|i]; [|lia]];
      eexists _, _, _; (split; [reflexivity|]); split; reflexivity.
Defined.

(** Two workers that both saw record 2. *)
Lemma merge_results_is_one_merge_witness :
  merge_results [[listing 1; listing 2]; [listing 2; listing 3]]
  = merge_property_lists []
      (concat [[listing 1; listing 2]; [listing 2; listing 3]]).
Proof.
  apply (merge_results_is_one_merge
           [[listing 1; listing 2]; [listing 2; listing 3]]).
  repeat constructor.
Defined.

(** Pages 1 to 10 for three workers. *)
Lemma worker_ranges_are_disjoint_blocks_witness :
  Forall (fun r => 1 <= r.1 /\ r.1 <= r.2 /\ r.2 <= 10)
         [(1, 3); (4, 6); (7, 9)]
  /\ (forall r1 r2 page,
        r1 ∈ [(1, 3); (4, 6); (7, 9)] -> r2 ∈ [(1, 3); (4, 6); (7, 9)] ->
        r1.1 <= page <= r1.2 -> r2.1 <= page <= r2.2 -> r1 = r2)
  /\ (length [(1, 3); (4, 6); (7, 9)] <= Z.to_nat 3)%nat.
Proof.
  apply (worker_ranges_are_disjoint_blocks 1 10 3 [(1, 3); (4, 6); (7, 9)]).
  reflexivity.
Defined.

(** Pages 1 to 10 for three workers: page 9 has a worker, page 10 has
    none. *)
Lemma worker_ranges_lost_pages_witness :
  (covered [(1, 3); (4, 6); (7, 9)] 9 <-> 9 <= 10 - 1)
  /\ (covered [(1, 3); (4, 6); (7, 9)] 10 <-> 10 <= 10 - 1).
Proof.
  split.
  - apply (worker_ranges_lost_pages 1 10 3 [(1, 3); (4, 6); (7, 9)] 9);
      [lia | reflexivity | lia].
  - apply (worker_ranges_lost_pages 1 10 3 [(1, 3); (4, 6); (7, 9)] 10);
      [lia | reflexivity | lia].
Defined.

End WorkerScenarios.

(** ** The last page from the metadata *)

Section DetectionFacts.

Implicit Types (d m : list (string * json)).

(** With a dict under [meta] that has no [totalPages], the first test
    fails and the second one looks for the two counts. *)
Lemma detect_last_page_from_api_meta d m :
  dict_get d "meta" = Some (JObj m) ->
  dict_get m "totalPages" = None ->
  detect_last_page_from_api (JObj d)
  = (from_count <-
       match dict_get m "totalCount", dict_get m "pageSize" with
       | Some total_count, Some page_size =>
           size <- py_int page_size ;;
           if 0 <? size then
             total <- py_int total_count ;;
             Ok (Some (JNum ((total + size - 1) `div` size)))
           else Ok None
       | _, _ => Ok None
       end ;;
     match from_count with
     | Some pages => Ok pages
     | None =>
         match dict_get d "pagination" with
         | Some pagination =>
             total <- py_in "totalPages" pagination ;;
             if total then py_getitem pagination "totalPages" else
             last <- py_in "lastPage" pagination ;;
             if last then py_getitem pagination "lastPage" else Ok JNull
         | None => Ok JNull
         end
     end).
Proof.
  intros Hmeta Hpages. unfold detect_last_page_from_api.
  rewrite !py_in_dict. cbn [py_getitem]. rewrite !Hmeta.
  rewrite bool_decide_true by eauto.
  cbn [py_and bind]. rewrite !py_in_dict. cbn [py_getitem]. rewrite Hpages.
  rewrite bool_decide_false by (by intros [? ?]).
  cbn [py_and bind].
  destruct (dict_get m "totalCount") as [total_count|] eqn:Hcount;
    destruct (dict_get m "pageSize") as [page_size|] eqn:Hsize;
    rewrite ?bool_decide_true by eauto;
    rewrite ?bool_decide_false by (by intros [? ?]);
    cbn [bind];
    try (destruct (py_int page_size) as [size|e]; cbn [bind];
         [destruct (0 <? size);
          [destruct (py_int total_count); cbn [bind]; try reflexivity|]
         |reflexivity]);
    destruct (dict_get d "pagination") as [pagination|];
    rewrite ?bool_decide_true by eauto;
    rewrite ?bool_decide_false by (by intros [? ?]);
    reflexivity.
Qed.

(** X25. The page count from the item count.  When the metadata has no
    [totalPages] but a [totalCount] of [c] items and a [pageSize] of
    [p > 0], [detect_last_page_from_api] returns the least number of pages
    of [p] items that hold [c] items. *)
Theorem detect_last_page_from_api_counts_pages d m c p :
  dict_get d "meta" = Some (JObj m) ->
  dict_get m "totalPages" = None ->
  dict_get m "totalCount" = Some (JNum c) ->
  dict_get m "pageSize" = Some (JNum p) ->
  0 < p ->
  exists n,
    detect_last_page_from_api (JObj d) = Ok (JNum n)
    /\ (n - 1) * p < c <= n * p.
Proof.
  intros Hmeta Hpages Hcount Hsize Hp.
  rewrite (detect_last_page_from_api_meta d m Hmeta Hpages), Hcount, Hsize.
  cbn [py_int bind].
  destruct (Z.ltb_spec 0 p); [|lia]. cbn [bind].
  exists ((c + p - 1) `div` p). split; [reflexivity|].
  pose proof (Z.div_mod (c + p - 1) p ltac:(lia)).
  pose proof (Z.mod_pos_bound (c + p - 1) p Hp). nia.
Qed.

(** X26. A page size that is not positive is passed over.  When the
    metadata has no [totalPages] and its [pageSize] is zero or negative,
    [detect_last_page_from_api] does not divide: it answers from
    [pagination], [totalPages] before [lastPage], and with [None] when
    there is no [pagination]. *)
Theorem detect_last_page_from_api_skips_bad_page_size d m total_count p :
  dict_get d "meta" = Some (JObj m) ->
  dict_get m "totalPages" = None ->
  dict_get m "totalCount" = Some total_count ->
  dict_get m "pageSize" = Some (JNum p) ->
  p <= 0 ->
  (dict_get d "pagination" = None ->
   detect_last_page_from_api (JObj d) = Ok JNull)
  /\ (forall g v,
        dict_get d "pagination" = Some (JObj g) ->
        dict_get g "totalPages" = Some v ->
        detect_last_page_from_api (JObj d) = Ok v)
  /\ (forall g v,
        dict_get d "pagination" = Some (JObj g) ->
        dict_get g "totalPages" = None ->
        dict_get g "lastPage" = Some v ->
        detect_last_page_from_api (JObj d) = Ok v).
Proof.
  intros Hmeta Hpages Hcount Hsize Hp.
  rewrite (detect_last_page_from_api_meta d m Hmeta Hpages), Hcount, Hsize.
  cbn [py_int bind].
  destruct (Z.ltb_spec 0 p); [lia|]. cbn [bind].
  split; [|split].
  - intros ->. reflexivity.
  - intros g v -> Hg. rewrite py_in_dict. cbn [py_getitem]. rewrite Hg.
    rewrite bool_decide_true by eauto. reflexivity.
  - intros g v -> Hg Hlast. rewrite !py_in_dict. cbn [py_getitem].
    rewrite Hg, Hlast.
    rewrite bool_decide_false by (by intros [? ?]).
    rewrite bool_decide_true by eauto. reflexivity.
Qed.

(** X27. The estimate of the last page is a usable end page.  Whatever the
    sitemap gives, [estimate_last_page] returns at least 125; with a
    highest listing [h > 0] it is the least number of pages of 16 records
    for [(h + 1) * 1000] records, and in every other case it is 15972. *)
Theorem estimate_last_page_bounds parsed :
  125 <= estimate_last_page parsed
  /\ (forall h total,
        parsed = Some (Some h, total) -> 0 < h ->
        (estimate_last_page parsed - 1) * 16 < (h + 1) * 1000
        /\ (h + 1) * 1000 <= estimate_last_page parsed * 16)
  /\ ((forall h total, parsed = Some (Some h, total) -> h <= 0) ->
      estimate_last_page parsed = DEFAULT_END_PAGE).
Proof.
  unfold estimate_last_page, DEFAULT_END_PAGE.
  destruct parsed as [[[h|] total]|]; try (split_and!; [lia|done..]).
  destruct (Z.ltb_spec 0 h) as [Hh | Hh].
  - pose proof (Z.div_mod ((h + 1) * 1000 + 16 - 1) 16 ltac:(lia)).
    pose proof (Z.mod_pos_bound ((h + 1) * 1000 + 16 - 1) 16 ltac:(lia)).
    split; [lia|]. split.
    + intros h' total' [= <- _] _. lia.
    + intros Hnone. specialize (Hnone h total eq_refl). lia.
  - split; [lia|]. split; [|reflexivity].
    intros h' total' [= <- _] ?. lia.
Qed.

End DetectionFacts.

Section DetectionScenarios.

(** 33 records in pages of 16: three pages. *)
Lemma detect_last_page_from_api_counts_pages_witness :
  exists n,
    detect_last_page_from_api
      (JObj [("meta", JObj [("totalCount", JNum 33); ("pageSize", JNum 16)])])
    = Ok (JNum n)
    /\ (n - 1) * 16 < 33 <= n * 16.
Proof.
  apply (detect_last_page_from_api_counts_pages
           [("meta", JObj [("totalCount", JNum 33); ("pageSize", JNum 16)])]
           [("totalCount", JNum 33); ("pageSize", JNum 16)] 33 16);
    (reflexivity || lia).
Defined.

(** A page size of 0, with and without [pagination]. *)
Lemma detect_last_page_from_api_skips_bad_page_size_witness :
  detect_last_page_from_api
    (JObj [("meta", JObj [("totalCount", JNum 33); ("pageSize", JNum 0)])])
  = Ok JNull
  /\ detect_last_page_from_api
       (JObj [("meta", JObj [("totalCount", JNum 33); ("pageSize", JNum 0)]);
              ("pagination", JObj [("lastPage", JNum 9)])])
     = Ok (JNum 9).
Proof.
  split.
  - apply (proj1 (detect_last_page_from_api_skips_bad_page_size
                    [("meta", JObj [("totalCount", JNum 33);
                                    ("pageSize", JNum 0)])]
                    [("totalCount", JNum 33); ("pageSize", JNum 0)]
                    (JNum 33) 0 eq_refl eq_refl eq_refl eq_refl
                    ltac:(lia))).
    reflexivity.
  - apply (proj2 (proj2 (detect_last_page_from_api_skips_bad_page_size
                    [("meta", JObj [("totalCount", JNum 33);
                                    ("pageSize", JNum 0)]);
                     ("pagination", JObj [("lastPage", JNum 9)])]
                    [("totalCount", JNum 33); ("pageSize", JNum 0)]
                    (JNum 33) 0 eq_refl eq_refl eq_refl eq_refl
                    ltac:(lia)))
             [("lastPage", JNum 9)] (JNum 9)); reflexivity.
Defined.

End DetectionScenarios.

(** ** Retrying the failed pages, and the documents on disk *)

Section RetryFacts.

Variable env : Env.

Lemma sorted_pages_least failed_pages page pages :
  sorted_pages failed_pages = page :: pages ->
  page ∈ failed_pages /\ forall q, q ∈ failed_pages -> page <= q.
Proof.
  unfold sorted_pages. intros Hsorted.
  pose proof (merge_sort_Permutation Z.le (elements failed_pages)) as Hperm.
  pose proof (StronglySorted_merge_sort Z.le (elements failed_pages))
    as Hordered.
  rewrite Hsorted in Hperm, Hordered.
  apply StronglySorted_inv in Hordered as [_ Hleast].
  assert (Hin : forall q, q ∈ failed_pages <-> q ∈ page :: pages).
  { intros q. by rewrite Hperm, elem_of_elements. }
  split; [apply Hin; by left|].
  intros q [-> | Hq]%Hin%elem_of_cons; [lia|].
  rewrite Forall_forall in Hleast. by apply Hleast.
Qed.

(** X28. [retry_failed_pages] never returns a record.  The statement that
    takes the result of [fetch_page_data] raises [ValueError] in the first
    pass of the loop; so the function returns only the empty list (no
    failed page on file, or no token), fetches at most the smallest failed
    page, with at most 5 POSTs, and leaves the failed-pages file and the
    other files as they were. *)
Theorem retry_failed_pages_never_returns_records cache s :
  exists result s' new,
    retry_failed_pages env cache s = (result, s')
    /\ trace s' = trace s ++ new
    /\ same_files s s'
    /\ (posts s' <= posts s + 5)%nat
    /\ (forall l, result = Returns l -> l = [] /\ fetched new = [])
    /\ (forall p, p ∈ fetched new ->
                  fetched new = [p]
                  /\ p ∈ load_failed_pages s
                  /\ forall q, q ∈ load_failed_pages s -> p <= q).
Proof.
  unfold retry_failed_pages.
  destruct (decide (load_failed_pages s = ∅)) as [Hnone | Hsome].
  { exists (Returns []), s, []. rewrite app_nil_r.
    split; [reflexivity|]. split; [reflexivity|]. split; [repeat split|].
    split; [lia|].
    split; [by intros l [= <-] | by intros p []%elem_of_nil]. }
  destruct (new_scraper_files env cache s)
    as (Hposts & _ & _ & _ & Htrace & Hfiles & _).
  set (s0 := new_scraper env cache s) in *.
  unfold retry_pages.
  destruct (sorted_pages (load_failed_pages s)) as [|page pages] eqn:Hsorted.
  { exists (Returns []), s0, []. rewrite app_nil_r.
    split; [reflexivity|]. split; [exact Htrace|]. split; [exact Hfiles|].
    split; [lia|].
    split; [by intros l [= <-] | by intros p []%elem_of_nil]. }
  destruct (get_auth_token env s0) as [t s1] eqn:Hauth.
  apply get_auth_token_state in Hauth as ->.
  cbn [token set_token].
  destruct (token_ok t) eqn:Hok; cbn [negb].
  2:{ exists (Returns []), (set_token t (log EvToken (next_get s0))),
             [EvToken].
      split; [reflexivity|]. cbn [trace set_token log next_get].
      split; [by rewrite Htrace|]. split; [exact Hfiles|].
      split; [cbn; lia|].
      split; [by intros l [= <-] | by intros p []%elem_of_nil]. }
  destruct (fetch_page_data env page 5 false
              (set_token t (log EvToken (next_get s0))))
    as [out s2] eqn:Hfetch.
  destruct (get_cache_key_request env page) as [key Hkey].
  destruct (fetch_page_data_spent _ _ _ _ _ _ _ _ Hkey Hfetch)
    as (Hspent & _).
  destruct (fetch_page_data_trace _ _ _ _ _ _ _ Hfetch)
    as ((Hc & Hd & Hf) & _ & Hquiet).
  destruct (Hquiet Hok) as [Htrace2 _].
  cbn [posts trace checkpoint_file data_file failed_pages_file set_token log
       next_get] in Hspent, Htrace2, Hc, Hd, Hf.
  destruct Hfiles as (Hc0 & Hd0 & Hf0).
  destruct (sorted_pages_least _ _ _ Hsorted) as [Hin Hleast].
  assert (Hrest :
    trace s2 = trace s ++ [EvToken; EvFetch page]
    /\ same_files s s2
    /\ (posts s2 <= posts s + 5)%nat
    /\ (forall p, p ∈ fetched [EvToken; EvFetch page] ->
                  fetched [EvToken; EvFetch page] = [p]
                  /\ p ∈ load_failed_pages s
                  /\ forall q, q ∈ load_failed_pages s -> p <= q)).
  { split; [rewrite Htrace2, Htrace, <- app_assoc; reflexivity|].
    split; [repeat split; congruence|].
    split; [change (Z.to_nat 5) with 5%nat in Hspent; lia|].
    cbn. intros p ->%list_elem_of_singleton. auto. }
  destruct Hrest as (Ht & Hsame & Hp & Hpage).
  destruct out as [[[result need_refresh] is_last]|e];
    eexists _, s2, [EvToken; EvFetch page];
    (split; [reflexivity|]); split_and!; try assumption;
    intros l; discriminate.
Qed.

(** X29. The checkpoint file reads back as it was written.
    [load_checkpoint] returns the page that [save_checkpoint] wrote; it
    returns 0 when there is no file and when the document has no
    [last_page]; and it raises [AttributeError] when the file holds JSON
    that is not an object. *)
Theorem checkpoint_document_round_trip :
  (forall page timestamp,
      load_checkpoint_document (Some (checkpoint_document page timestamp))
      = Ok (JNum page))
  /\ load_checkpoint_document None = Ok (JNum 0)
  /\ (forall d, dict_get d "last_page" = None ->
                load_checkpoint_document (Some (JObj d)) = Ok (JNum 0))
  /\ (forall data, (forall d, data <> JObj d) ->
                   load_checkpoint_document (Some data)
                   = Raise AttributeError).
Proof.
  split; [reflexivity|]. split; [reflexivity|]. split.
  - intros d Hnone. cbn. by rewrite Hnone.
  - intros data Hdata. destruct data; try reflexivity. by destruct (Hdata d).
Qed.

(** X30. The failed-pages document.  The list that [save_failed_pages]
    writes holds every failed page once and in increasing order, holds
    nothing else, and is as long as the [count] next to it. *)
Theorem failed_pages_document_lists_each_page_once failed_pages timestamp :
  exists pages,
    failed_pages_document failed_pages timestamp
    = JObj [("failed_pages", JArr (JNum <$> pages));
            ("timestamp", JStr timestamp);
            ("count", JNum (Z.of_nat (length pages)))]
    /\ StronglySorted Z.lt pages
    /\ forall page, page ∈ pages <-> page ∈ failed_pages.
Proof.
  exists (sorted_pages failed_pages). unfold sorted_pages.
  pose proof (merge_sort_Permutation Z.le (elements failed_pages)) as Hperm.
  split; [|split].
  - assert (Hlen : length (merge_sort Z.le (elements failed_pages))
                   = size failed_pages)
      by (rewrite (Permutation_length Hperm); reflexivity).
    unfold failed_pages_document, sorted_pages. rewrite Hlen. reflexivity.
  - assert (Hnodup : NoDup (merge_sort Z.le (elements failed_pages)))
      by (rewrite Hperm; apply NoDup_elements).
    pose proof (StronglySorted_merge_sort Z.le (elements failed_pages))
      as Hordered.
    revert Hnodup Hordered.
    generalize (merge_sort Z.le (elements failed_pages)).
    induction l as [|x l IH]; intros Hnodup Hordered; [constructor|].
    apply NoDup_cons in Hnodup as [Hx Hnodup].
    apply StronglySorted_inv in Hordered as [Hordered Hleast].
    constructor; [by apply IH|].
    rewrite Forall_forall in Hleast |- *. intros y Hy.
    specialize (Hleast y Hy).
    assert (x <> y) by (intros ->; by apply Hx). lia.
  - intros page. by rewrite Hperm, elem_of_elements.
Qed.

End RetryFacts.
